(** * SystemdShield: a shallow embedding of the analyzer and the hardening engine

    The development follows the layout of the repository:

    - [PyStr], [PyFloat], [PyRe]: the Python built-ins the code relies on
      ([str] methods, [float], truthiness, [sorted], [re.search] for the one
      pattern the analyzer uses);
    - [Models]: [src/models.py];
    - [Host]: the machine the tool runs on (override files, the external
      commands and what they answer, the effective user id) and the
      state-and-exception monad the stateful code is written in;
    - [Analyzer]: [src/analyzer.py];
    - [Hardening]: [src/hardening.py];
    - [Main]: the commands of [src/main.py], without what they print.

    Modelling conventions.

    - Text is [string]; a character is an [ascii], read as the code point
      U+0000..U+00FF.  The character classes ([str.isspace], [\s], [\w],
      [\d], line boundaries) are Python 3's on that range.
    - A Python [float] is the rational it denotes, or an infinity, or NaN
      ([PyFloat.pyfloat]); [float(s)] rounds the decimal to the nearest
      binary64 value, ties to even.
    - An external command is answered by the host as a function of everything
      the process did so far ([Host.host]); theorems quantify over all hosts.
    - File operations act on a finite map from paths to contents; a path is
      the string obtained by joining with [/].  Copying or removing a missing
      file raises, every other file operation succeeds (the mutating
      commands run as root).
    - [print] calls are not modelled, nor are exceptions that are not
      [Exception]s (a keyboard interrupt). *)

From Stdlib Require Import ZArith QArith Qround String Ascii List Bool Lia
  Permutation Sorted.
From stdpp Require Import base option gmap strings.

Import ListNotations.

(* ===================================================================== *)
(** * Python strings *)
(* ===================================================================== *)

Module PyStr.

Definition code (c : ascii) : N := N_of_ascii c.

Definition in_range (lo hi : N) (c : ascii) : bool :=
  ((lo <=? code c) && (code c <=? hi))%N.

Definition is_code (n : N) (c : ascii) : bool := (code c =? n)%N.

(** [str.isspace] on one character. *)
Definition isspace (c : ascii) : bool :=
  in_range 9 13 c || in_range 28 32 c || is_code 133 c || is_code 160 c.

(** The line boundaries of [str.splitlines]. *)
Definition is_linebreak (c : ascii) : bool :=
  in_range 10 13 c || in_range 28 30 c || is_code 133 c.

Definition LF : ascii := "010"%char.
Definition CR : ascii := "013"%char.

(** [s.startswith(p)] *)
Fixpoint startswith (s p : string) {struct p} : bool :=
  match p with
  | EmptyString => true
  | String a p' =>
      match s with
      | EmptyString => false
      | String b s' => Ascii.eqb a b && startswith s' p'
      end
  end.

(** [s.endswith(suf)] *)
Fixpoint endswith (s suf : string) : bool :=
  String.eqb s suf
  || match s with
     | EmptyString => false
     | String _ s' => endswith s' suf
     end.

(** [x in s] for strings: [x] occurs in [s]. *)
Fixpoint contains (x s : string) : bool :=
  startswith s x
  || match s with
     | EmptyString => false
     | String _ s' => contains x s'
     end.

(** [s[:-1]] *)
Fixpoint drop_last (s : string) : string :=
  match s with
  | EmptyString => EmptyString
  | String c s' =>
      match s' with
      | EmptyString => EmptyString
      | String _ _ => String c (drop_last s')
      end
  end.

Fixpoint lstrip (s : string) : string :=
  match s with
  | EmptyString => EmptyString
  | String c s' => if isspace c then lstrip s' else s
  end.

Fixpoint rstrip (s : string) : string :=
  match s with
  | EmptyString => EmptyString
  | String c s' =>
      match rstrip s' with
      | EmptyString => if isspace c then EmptyString else String c EmptyString
      | r => String c r
      end
  end.

(** [s.strip()] *)
Definition strip (s : string) : string := rstrip (lstrip s).

(** [s.split()]: the maximal runs of non-whitespace characters. *)
Fixpoint split (s : string) : list string :=
  match s with
  | EmptyString => []
  | String c s' =>
      if isspace c then split s'
      else
        match s' with
        | EmptyString => [String c EmptyString]
        | String d _ =>
            if isspace d then String c EmptyString :: split s'
            else
              match split s' with
              | w :: ws => String c w :: ws
              | [] => [String c EmptyString]
              end
        end
  end.

(** [s.splitlines()]; [after_cr] is set right after a carriage return, whose
    following line feed belongs to the same boundary. *)
Fixpoint splitlines_from (after_cr : bool) (s : string) : list string :=
  match s with
  | EmptyString => []
  | String c s' =>
      if after_cr && Ascii.eqb c LF then splitlines_from false s'
      else if is_linebreak c then
        EmptyString :: splitlines_from (Ascii.eqb c CR) s'
      else
        match splitlines_from false s' with
        | l :: ls => String c l :: ls
        | [] => [String c EmptyString]
        end
  end.

Definition splitlines (s : string) : list string := splitlines_from false s.

(** [sep.join(parts)] *)
Fixpoint join (sep : string) (parts : list string) : string :=
  match parts with
  | [] => EmptyString
  | [p] => p
  | p :: ps => p +:+ sep +:+ join sep ps
  end.

(** [s.split(sep)] for a one-character separator. *)
Fixpoint split_on (sep : ascii) (s : string) : list string :=
  match s with
  | EmptyString => [EmptyString]
  | String c s' =>
      if Ascii.eqb c sep then EmptyString :: split_on sep s'
      else
        match split_on sep s' with
        | l :: ls => String c l :: ls
        | [] => [String c EmptyString]
        end
  end.

(** Does the character occur in the string? *)
Fixpoint has_char (c : ascii) (s : string) : bool :=
  match s with
  | EmptyString => false
  | String d s' => Ascii.eqb d c || has_char c s'
  end.

(** The code points of a text written in UTF-8, for code points below 256:
    a lead byte 194 or 195 and the byte after it make one character. *)
Fixpoint latin1_of_utf8 (s : string) : string :=
  match s with
  | EmptyString => EmptyString
  | String c s' =>
      match s' with
      | String d s'' =>
          if is_code 194 c then String d (latin1_of_utf8 s'')
          else if is_code 195 c
          then String (ascii_of_N (code d + 64)) (latin1_of_utf8 s'')
          else String c (latin1_of_utf8 s')
      | EmptyString => s
      end
  end.

(** [x in xs] for a list of strings. *)
Definition in_list (x : string) (xs : list string) : bool :=
  existsb (String.eqb x) xs.

(** [any(x in s for x in needles)] *)
Definition any_in (needles : list string) (s : string) : bool :=
  existsb (fun x => contains x s) needles.

End PyStr.

(* ===================================================================== *)
(** * Python floats *)
(* ===================================================================== *)

Module PyFloat.

(** A float is a (dyadic) rational, an infinity or NaN.  The two zeros are
    one value: they compare equal and both are falsy. *)
Inductive pyfloat : Type :=
| Finite (q : Q)
| PosInf
| NegInf
| NaN.

(** [bool(x)]: only zero is falsy. *)
Definition truthy (x : pyfloat) : bool :=
  match x with
  | Finite q => negb (Qeq_bool q 0)
  | _ => true
  end.

(** [x < y] *)
Definition lt (x y : pyfloat) : bool :=
  match x, y with
  | NaN, _ | _, NaN => false
  | _, NegInf => false
  | NegInf, _ => true
  | PosInf, _ => false
  | Finite _, PosInf => true
  | Finite a, Finite b => negb (Qle_bool b a)
  end.

(** [x >= y] *)
Definition ge (x y : pyfloat) : bool :=
  match x, y with
  | NaN, _ | _, NaN => false
  | _, NegInf => true
  | NegInf, _ => false
  | PosInf, _ => true
  | Finite _, PosInf => false
  | Finite a, Finite b => Qle_bool b a
  end.

(** The integer [0] of [x.exposure_score or 0], as a sort key. *)
Definition zero : pyfloat := Finite 0.

(** Round the positive rational [n/d] to the nearest binary64 value, ties
    to even; [PosInf] on overflow. *)
Definition round_binary64 (n d : Z) : pyfloat :=
  if (n =? 0)%Z then Finite 0
  else
    let k := (Z.log2 n - Z.log2 d)%Z in
    let above := if (0 <=? k)%Z then (d * 2 ^ k <=? n)%Z
                 else (d <=? n * 2 ^ (- k))%Z in
    let fl := if above then k else (k - 1)%Z in
    let e := Z.max (fl - 52) (-1074) in
    let num := if (0 <=? e)%Z then n else (n * 2 ^ (- e))%Z in
    let den := if (0 <=? e)%Z then (d * 2 ^ e)%Z else d in
    let m := (num / den)%Z in
    let r := (num mod den)%Z in
    let m' := if (2 * r <? den)%Z then m
              else if (den <? 2 * r)%Z then (m + 1)%Z
              else if Z.even m then m else (m + 1)%Z in
    if (0 <=? e)%Z then
      if (2 ^ 1024 <=? m' * 2 ^ e)%Z then PosInf
      else Finite (inject_Z (m' * 2 ^ e))
    else Finite (Qred (Qmake m' (Z.to_pos (2 ^ (- e))))).

Definition is_digit (c : ascii) : bool := PyStr.in_range 48 57 c.

Definition digit_value (c : ascii) : Z := (Z.of_N (PyStr.code c) - 48)%Z.

(** Scan an unsigned decimal without exponent: [m] is the number read so
    far, [frac] the number of digits after the dot, [digits] the number of
    digits seen.  [None] when the text is not a number. *)
Fixpoint scan_decimal (s : string) (m : Z) (dot : bool) (frac digits : nat)
  : option (Z * nat) :=
  match s with
  | EmptyString =>
      match digits with
      | O => None
      | S _ => Some (m, frac)
      end
  | String c s' =>
      if is_digit c then
        scan_decimal s' (10 * m + digit_value c)%Z dot
          (if dot then S frac else frac) (S digits)
      else if Ascii.eqb c "."%char then
        if dot then None else scan_decimal s' m true frac digits
      else None
  end.

(** [float(s)] for a text made of digits and dots, the only texts the
    analyzer converts; [None] is [ValueError].  (On a text with any other
    character the answer [None] is not always Python's.) *)
Definition float_of_string (s : string) : option pyfloat :=
  match scan_decimal s 0 false 0 0 with
  | Some (m, frac) => Some (round_binary64 m (10 ^ Z.of_nat frac))
  | None => None
  end.

(** [sorted(l, key=key, reverse=True)]: the stable sort by decreasing key
    (elements with equal keys keep their order). *)
Fixpoint insert_desc {A} (key : A -> pyfloat) (x : A) (l : list A) : list A :=
  match l with
  | [] => [x]
  | y :: l' =>
      if lt (key x) (key y) then y :: insert_desc key x l'
      else x :: l
  end.

Definition sorted_reverse {A} (key : A -> pyfloat) (l : list A) : list A :=
  fold_right (insert_desc key) [] l.

End PyFloat.

(* ===================================================================== *)
(** * The regular expression of the analyzer *)
(* ===================================================================== *)

Module PyRe.

(** A matcher consumes a prefix of the text and hands the rest to what
    follows it in the pattern; [None] makes the caller backtrack. *)
Definition matcher (R : Type) : Type := string -> option R.

(** [\s] *)
Definition space (c : ascii) : bool := PyStr.isspace c.

(** [\d] *)
Definition digit (c : ascii) : bool := PyStr.in_range 48 57 c.

(** [[\d.]] *)
Definition digit_or_dot (c : ascii) : bool :=
  digit c || Ascii.eqb c "."%char.

(** [\w] *)
Definition word (c : ascii) : bool :=
  PyStr.in_range 48 57 c || PyStr.in_range 65 90 c || PyStr.is_code 95 c
  || PyStr.in_range 97 122 c || PyStr.is_code 170 c
  || PyStr.in_range 178 179 c || PyStr.is_code 181 c
  || PyStr.in_range 185 186 c || PyStr.in_range 188 190 c
  || PyStr.in_range 192 214 c || PyStr.in_range 216 246 c
  || PyStr.in_range 248 255 c.

(** [.] (no DOTALL flag) *)
Definition any_char (c : ascii) : bool := negb (Ascii.eqb c PyStr.LF).

(** A literal. *)
Fixpoint lit {R} (l : string) (k : matcher R) : matcher R :=
  fun s =>
    match l with
    | EmptyString => k s
    | String a l' =>
        match s with
        | EmptyString => None
        | String b s' => if Ascii.eqb a b then lit l' k s' else None
        end
    end.

(** [c*?]: as few characters of the class as the rest of the pattern
    allows. *)
Fixpoint lazy_star {R} (cls : ascii -> bool) (k : matcher R) (s : string)
  : option R :=
  match k s with
  | Some r => Some r
  | None =>
      match s with
      | EmptyString => None
      | String c s' => if cls c then lazy_star cls k s' else None
      end
  end.

(** [(c+)]: as many characters of the class as the rest of the pattern
    allows, at least one; the continuation receives the text matched.
    [acc] is what the group has consumed so far. *)
Fixpoint greedy_plus_from {R} (cls : ascii -> bool)
  (k : string -> matcher R) (acc : string) (s : string) : option R :=
  match s with
  | EmptyString => None
  | String c s' =>
      if cls c then
        let acc' := acc +:+ String c EmptyString in
        match greedy_plus_from cls k acc' s' with
        | Some r => Some r
        | None => k acc' s'
        end
      else None
  end.

Definition greedy_plus {R} (cls : ascii -> bool) (k : string -> matcher R)
  : matcher R :=
  greedy_plus_from cls k EmptyString.

(** [re.search]: the match at the leftmost position where there is one. *)
Fixpoint search {R} (m : matcher R) (s : string) : option R :=
  match m s with
  | Some r => Some r
  | None =>
      match s with
      | EmptyString => None
      | String _ s' => search m s'
      end
  end.

(** [r'Overall exposure level.*?:\s+([\d.]+)\s+(\w+)'], yielding groups 1
    and 2. *)
Definition exposure_pattern : matcher (string * string) :=
  lit "Overall exposure level"
    (lazy_star any_char
       (lit ":"
          (greedy_plus space (fun _ =>
           greedy_plus digit_or_dot (fun g1 =>
           greedy_plus space (fun _ =>
           greedy_plus word (fun g2 _ => Some (g1, g2)))))))).

End PyRe.

(* ===================================================================== *)
(** * src/models.py *)
(* ===================================================================== *)

Module Models.

Record HardeningOverrides : Type := {
  NoNewPrivileges : option string;
  IPAddressDeny : option string;
  IPAddressAllow : option string;
  PrivateTmp : option string;
  ProtectKernelModules : option string;
  ProtectKernelTunables : option string;
  ProtectControlGroups : option string;
  RestrictRealtime : option string;
  LockPersonality : option string;
  ProtectHome : option string;
  ProtectSystem : option string;
  MemoryDenyWriteExecute : option string;
  RestrictSUIDSGID : option string
}.

(** [self.model_dump().items()]: the fields in declaration order. *)
Definition model_dump (self : HardeningOverrides)
  : list (string * option string) :=
  [ ("NoNewPrivileges", NoNewPrivileges self);
    ("IPAddressDeny", IPAddressDeny self);
    ("IPAddressAllow", IPAddressAllow self);
    ("PrivateTmp", PrivateTmp self);
    ("ProtectKernelModules", ProtectKernelModules self);
    ("ProtectKernelTunables", ProtectKernelTunables self);
    ("ProtectControlGroups", ProtectControlGroups self);
    ("RestrictRealtime", RestrictRealtime self);
    ("LockPersonality", LockPersonality self);
    ("ProtectHome", ProtectHome self);
    ("ProtectSystem", ProtectSystem self);
    ("MemoryDenyWriteExecute", MemoryDenyWriteExecute self);
    ("RestrictSUIDSGID", RestrictSUIDSGID self) ].

(** Dropping the fields that are [None]. *)
Fixpoint exclude_none (items : list (string * option string))
  : list (string * string) :=
  match items with
  | [] => []
  | (field, Some value) :: rest => (field, value) :: exclude_none rest
  | (_, None) :: rest => exclude_none rest
  end.

(** [f"{field}={value}"] *)
Definition config_line (item : string * string) : string :=
  fst item +:+ "=" +:+ snd item.

(** The list [lines] that [to_systemd_config] builds. *)
Definition config_lines (self : HardeningOverrides) : list string :=
  "[Service]" :: map config_line (exclude_none (model_dump self)).

Definition to_systemd_config (self : HardeningOverrides) : string :=
  PyStr.join (String PyStr.LF EmptyString) (config_lines self).

(** [DIRECTIVE_EXPLANATIONS].  The texts are written in UTF-8 in this file;
    [latin1_of_utf8] gives their characters. *)
Definition DIRECTIVE_EXPLANATIONS : gmap string string :=
  list_to_map [
    ("NoNewPrivileges",
     PyStr.latin1_of_utf8
       "Evita que el servicio y sus hijos ganen nuevos privilegios (ej. mediante binarios setuid). Es fundamental para contener exploits de escalada.");
    ("IPAddressDeny",
     PyStr.latin1_of_utf8
       "Restringe el acceso a la red. 'any' bloquea toda comunicación saliente/entrante, reduciendo la superficie de ataque de red.");
    ("IPAddressAllow",
     PyStr.latin1_of_utf8
       "Permite el acceso solo a direcciones o rangos específicos, siguiendo el principio de lista blanca.");
    ("PrivateTmp",
     PyStr.latin1_of_utf8
       "Asigna un directorio /tmp privado al servicio, invisible para el resto del sistema, evitando ataques de archivos temporales compartidos.");
    ("ProtectKernelModules",
     PyStr.latin1_of_utf8
       "Impide que el servicio cargue o descargue módulos del kernel, protegiendo la integridad del núcleo del sistema.");
    ("ProtectKernelTunables",
     PyStr.latin1_of_utf8
       "Hace que las variables del kernel (en /proc/sys, /sys) sean de solo lectura, evitando alteraciones en la configuración del núcleo.");
    ("ProtectControlGroups",
     PyStr.latin1_of_utf8
       "Impide que el servicio modifique los grupos de control (cgroups), evitando que pueda alterar límites de recursos del sistema.");
    ("RestrictRealtime",
     PyStr.latin1_of_utf8
       "Evita que el servicio use planificación de tiempo real, lo que podría usarse para causar ataques de denegación de servicio (DoS).");
    ("LockPersonality",
     PyStr.latin1_of_utf8
       "Bloquea la 'personalidad' de ejecución (ej. evita cambios entre 64-bit y 32-bit), dificultando exploits que dependen de cambios de arquitectura.");
    ("ProtectHome",
     PyStr.latin1_of_utf8
       "Restringe el acceso a /home, /root y /run/user, protegiendo los datos confidenciales de los usuarios.");
    ("ProtectSystem",
     PyStr.latin1_of_utf8
       "Hace que directorios críticos como /usr, /boot y /etc sean de solo lectura para el servicio.");
    ("MemoryDenyWriteExecute",
     PyStr.latin1_of_utf8
       "Prohíbe que la memoria sea escribible y ejecutable al mismo tiempo. Crucial para mitigar ataques de inyección de código.");
    ("RestrictSUIDSGID",
     PyStr.latin1_of_utf8
       "Impide la creación de archivos con bits SUID/SGID, una vía común para la escalada de privilegios.") ].

(** The default of [DIRECTIVE_EXPLANATIONS.get]. *)
Definition no_explanation : string :=
  PyStr.latin1_of_utf8 "Sin descripción disponible.".

(** [get_explanations]: the dictionary built, as the list of its items in
    insertion order. *)
Definition get_explanations (self : HardeningOverrides)
  : list (string * string) :=
  map (fun item =>
         (fst item,
          default no_explanation (DIRECTIVE_EXPLANATIONS !! fst item)))
    (exclude_none (model_dump self)).

Record HardeningProfile : Type := {
  description : string;
  overrides : HardeningOverrides
}.

Record ProfilesConfig : Type := {
  profiles : gmap string HardeningProfile;
  service_mappings : gmap string string
}.

Record ExclusionsConfig : Type := {
  excluded_services : list string;
  exclusion_reasons : option (gmap string string)
}.

Record ServiceAnalysis : Type := {
  name : string;
  exposure_score : option PyFloat.pyfloat;
  exposure_level : option string;
  is_active : bool;
  is_enabled : bool;
  suggested_profile : option string
}.

End Models.

(* ===================================================================== *)
(** * The host: files, external commands, exceptions *)
(* ===================================================================== *)

Module Host.

(** What the process does to the machine. *)
Inductive event : Type :=
| Run (argv : list string)             (* subprocess.run(argv, ...) *)
| Copy (src dst : string)              (* shutil.copy2(src, dst) *)
| Mkdir (path : string)                (* path.mkdir(parents, exist_ok) *)
| WriteFile (path content : string)    (* open(path, 'w') and f.write *)
| Unlink (path : string).              (* path.unlink() *)

(** What starting an external command leads to: the program is missing, or
    it ends after [seconds] with an exit status and an output. *)
Inductive spawned : Type :=
| NotFound
| Completed (returncode : Z) (stdout : string) (seconds : Q).

Record world : Type := {
  files : gmap string string;          (* path -> content *)
  dirs : gset string;                  (* directories created or known *)
  euid : Z;                            (* os.geteuid() *)
  host : list event -> list string -> spawned;
                                       (* history, argv -> what happens *)
  trace : list event                   (* the history, latest first *)
}.

Inductive exn : Type :=
| FileNotFoundError (what : string)
| CalledProcessError (argv : list string) (returncode : Z)
| TimeoutExpired (argv : list string) (timeout : Q)
| ValueError (text : string)
| Exit (code : Z).                     (* typer.Exit *)

Inductive outcome (A : Type) : Type :=
| Ok (a : A)
| Raise (e : exn).
Arguments Ok {A} a.
Arguments Raise {A} e.

(** Stateful code that may raise. *)
Definition M (A : Type) : Type := world -> outcome A * world.

Definition ret {A} (a : A) : M A := fun w => (Ok a, w).

Definition raise {A} (e : exn) : M A := fun w => (Raise e, w).

Definition bind {A B} (m : M A) (k : A -> M B) : M B :=
  fun w =>
    match m w with
    | (Ok a, w') => k a w'
    | (Raise e, w') => (Raise e, w')
    end.

(** [try: body except ...: handler]; the handler answers [None] for an
    exception its clause does not catch. *)
Definition try_except {A} (body : M A) (handler : exn -> option (M A)) : M A :=
  fun w =>
    match body w with
    | (Ok a, w') => (Ok a, w')
    | (Raise e, w') =>
        match handler e with
        | Some h => h w'
        | None => (Raise e, w')
        end
    end.

Definition log (e : event) (w : world) : world :=
  {| files := files w; dirs := dirs w; euid := euid w; host := host w;
     trace := e :: trace w |}.

Definition set_files (fs : gmap string string) (w : world) : world :=
  {| files := fs; dirs := dirs w; euid := euid w; host := host w;
     trace := trace w |}.

Definition set_dirs (ds : gset string) (w : world) : world :=
  {| files := files w; dirs := ds; euid := euid w; host := host w;
     trace := trace w |}.

(** [subprocess.CompletedProcess] *)
Record CompletedProcess : Type := {
  returncode : Z;
  stdout : string
}.

(** [subprocess.run(argv, capture_output=True, text=True, check=check,
    timeout=timeout)]: [FileNotFoundError] when the program is missing,
    [TimeoutExpired] when a timeout is given and the command takes longer,
    [CalledProcessError] when [check] is set and the exit status is not 0.
    The call is logged in every case. *)
Definition subprocess_run (argv : list string) (check : bool)
  (timeout : option Q) : M CompletedProcess :=
  fun w =>
    let w' := log (Run argv) w in
    match host w (trace w) argv with
    | NotFound => (Raise (FileNotFoundError (hd EmptyString argv)), w')
    | Completed rc out secs =>
        match timeout with
        | Some t =>
            if Qle_bool secs t then
              if check && negb (rc =? 0)%Z
              then (Raise (CalledProcessError argv rc), w')
              else (Ok {| returncode := rc; stdout := out |}, w')
            else (Raise (TimeoutExpired argv t), w')
        | None =>
            if check && negb (rc =? 0)%Z
            then (Raise (CalledProcessError argv rc), w')
            else (Ok {| returncode := rc; stdout := out |}, w')
        end
    end.

(** [path.exists()] *)
Definition path_exists (path : string) : M bool :=
  fun w =>
    match files w !! path with
    | Some _ => (Ok true, w)
    | None => (Ok false, w)
    end.

(** [shutil.copy2(src, dst)] *)
Definition copy2 (src dst : string) : M unit :=
  fun w =>
    match files w !! src with
    | Some content =>
        (Ok tt, log (Copy src dst) (set_files (<[dst := content]> (files w)) w))
    | None => (Raise (FileNotFoundError src), w)
    end.

(** [path.mkdir(parents=True, exist_ok=True)] *)
Definition mkdir (path : string) : M unit :=
  fun w => (Ok tt, log (Mkdir path) (set_dirs ({[path]} ∪ dirs w) w)).

(** [with open(path, 'w') as f: f.write(...)], [content] being everything
    written. *)
Definition write_text (path content : string) : M unit :=
  fun w =>
    (Ok tt, log (WriteFile path content)
              (set_files (<[path := content]> (files w)) w)).

(** [path.unlink()] *)
Definition unlink (path : string) : M unit :=
  fun w =>
    match files w !! path with
    | Some _ => (Ok tt, log (Unlink path) (set_files (delete path (files w)) w))
    | None => (Raise (FileNotFoundError path), w)
    end.

(** [base / name] *)
Definition path_join (base name : string) : string :=
  base +:+ "/" +:+ name.

End Host.

Declare Scope py_scope.
Delimit Scope py_scope with py.
Notation "x <- m ;; k" := (Host.bind m (fun x => k))
  (at level 100, m at next level, right associativity) : py_scope.
Notation "m ;; k" := (Host.bind m (fun _ => k))
  (at level 100, right associativity) : py_scope.

(* ===================================================================== *)
(** * src/analyzer.py *)
(* ===================================================================== *)

Module Analyzer.

Import Host Models.
Local Open Scope py_scope.

(** The body of the loop of [get_all_services]. *)
Fixpoint collect_services (lines : list string) (services : list string)
  : list string :=
  match lines with
  | [] => services
  | line :: rest =>
      let parts := PyStr.split line in
      match parts with
      | first :: _ =>
          if PyStr.endswith first ".service"
          then collect_services rest (services ++ [first])
          else collect_services rest services
      | [] => collect_services rest services
      end
  end.

Definition list_units_argv : list string :=
  ["systemctl"; "list-units"; "--type=service"; "--all"; "--no-pager";
   "--no-legend"].

Definition get_all_services : M (list string) :=
  try_except
    (result <- subprocess_run list_units_argv true None ;;
     ret (collect_services (PyStr.splitlines (stdout result)) []))
    (fun e =>
       match e with
       | CalledProcessError _ _ => Some (ret [])
       | _ => None
       end).

(** Lines 47-58 of [analyze_service]: the score and the level read from the
    output of [systemd-analyze security]. *)
Definition parse_exposure (text : string)
  : M (option PyFloat.pyfloat * option string) :=
  match PyRe.search PyRe.exposure_pattern text with
  | Some (group1, group2) =>
      match PyFloat.float_of_string group1 with
      | Some score => ret (Some score, Some group2)
      | None => raise (ValueError group1)
      end
  | None => ret (None, None)
  end.

Definition analyze_service (service_name : string)
  : M (option ServiceAnalysis) :=
  try_except
    (result <- subprocess_run
                 ["systemd-analyze"; "security"; service_name; "--no-pager"]
                 false None ;;
     exposure <- parse_exposure (stdout result) ;;
     status_result <- subprocess_run
                        ["systemctl"; "is-active"; service_name] false None ;;
     let active := String.eqb (PyStr.strip (stdout status_result)) "active" in
     enabled_result <- subprocess_run
                         ["systemctl"; "is-enabled"; service_name] false None ;;
     let enabled := PyStr.in_list (PyStr.strip (stdout enabled_result))
                      ["enabled"; "static"] in
     ret (Some {| name := service_name;
                  exposure_score := fst exposure;
                  exposure_level := snd exposure;
                  is_active := active;
                  is_enabled := enabled;
                  suggested_profile := None |}))
    (fun _ => Some (ret None)).

(** [analysis and analysis.exposure_score and
     analysis.exposure_score >= threshold] *)
Definition is_high_exposure (analysis : option ServiceAnalysis)
  (threshold : PyFloat.pyfloat) : bool :=
  match analysis with
  | None => false
  | Some a =>
      match exposure_score a with
      | None => false
      | Some score => PyFloat.truthy score && PyFloat.ge score threshold
      end
  end.

(** The loop of [get_high_exposure_services]. *)
Fixpoint collect_high_exposure (services : list string)
  (threshold : PyFloat.pyfloat) (high_exposure : list ServiceAnalysis)
  : M (list ServiceAnalysis) :=
  match services with
  | [] => ret high_exposure
  | service :: rest =>
      analysis <- analyze_service service ;;
      match analysis with
      | Some a =>
          if is_high_exposure analysis threshold
          then collect_high_exposure rest threshold (high_exposure ++ [a])
          else collect_high_exposure rest threshold high_exposure
      | None => collect_high_exposure rest threshold high_exposure
      end
  end.

(** [lambda x: x.exposure_score or 0] *)
Definition sort_key (x : ServiceAnalysis) : PyFloat.pyfloat :=
  match exposure_score x with
  | Some score => if PyFloat.truthy score then score else PyFloat.zero
  | None => PyFloat.zero
  end.

Definition get_high_exposure_services (threshold : PyFloat.pyfloat)
  : M (list ServiceAnalysis) :=
  services <- get_all_services ;;
  high_exposure <- collect_high_exposure services threshold [] ;;
  ret (PyFloat.sorted_reverse sort_key high_exposure).

End Analyzer.

(* ===================================================================== *)
(** * src/hardening.py *)
(* ===================================================================== *)

Module Hardening.

Import Host Models.
Local Open Scope py_scope.

(** The text of [HardeningResult.error]: a message of the engine, or
    [str(e)] for the exception caught. *)
Inductive error_text : Type :=
| Message (text : string)
| StrOf (e : exn).

(** [HardeningResult] of [src/models.py]. *)
Record HardeningResult : Type := {
  service_name : string;
  success : bool;
  profile_applied : option string;
  previous_score : option PyFloat.pyfloat;
  new_score : option PyFloat.pyfloat;
  rollback_performed : bool;
  error : option error_text
}.

(** The engine once constructed: the two configuration files loaded, and
    the directory the overrides go to. *)
Record HardeningEngine : Type := {
  profiles : ProfilesConfig;
  exclusions : ExclusionsConfig;
  override_base : string
}.

(** The loop of [is_excluded]. *)
Fixpoint is_excluded_in (patterns : list string) (service_name : string)
  : bool :=
  match patterns with
  | [] => false
  | pattern :: rest =>
      if PyStr.endswith pattern "*"
         && PyStr.startswith service_name (PyStr.drop_last pattern)
      then true
      else if String.eqb service_name pattern then true
      else is_excluded_in rest service_name
  end.

Definition is_excluded (self : HardeningEngine) (service_name : string)
  : bool :=
  is_excluded_in (excluded_services (exclusions self)) service_name.

Definition get_profile_for_service (self : HardeningEngine)
  (service_name : string) : string :=
  match service_mappings (profiles self) !! service_name with
  | Some mapped => mapped
  | None =>
      if PyStr.any_in ["network"; "wpa"; "dhcp"] service_name
      then "network_service"
      else if PyStr.any_in ["docker"; "libvirt"; "virtual"] service_name
      then "virtualization_service"
      else if PyStr.any_in ["dbus"; "gdm"; "login"] service_name
      then "critical_service"
      else "system_service"
  end.

(** [not profile_name] for an [Optional[str]]. *)
Definition not_given (profile_name : option string) : bool :=
  match profile_name with
  | None => true
  | Some EmptyString => true
  | Some (String _ _) => false
  end.

(** Lines 106-107 of [apply_hardening]. *)
Definition resolve_profile (self : HardeningEngine) (service_name : string)
  (profile_name : option string) : string :=
  if not_given profile_name then get_profile_for_service self service_name
  else default EmptyString profile_name.

Definition override_dir (self : HardeningEngine) (service_name : string)
  : string :=
  path_join (override_base self) (service_name +:+ ".d").

Definition override_file (self : HardeningEngine) (service_name : string)
  : string :=
  path_join (override_dir self service_name) "override.conf".

Definition backup_path (self : HardeningEngine) (service_name : string)
  : string :=
  path_join (override_dir self service_name) "override.conf.backup".

Definition rollback (self : HardeningEngine) (service_name : string)
  (backup_file : option string) : M unit :=
  let override_file := override_file self service_name in
  try_except
    (restorable <- match backup_file with
                   | Some b => path_exists b
                   | None => ret false
                   end ;;
     (if restorable then copy2 (default EmptyString backup_file) override_file
      else
        present <- path_exists override_file ;;
        if present then unlink override_file else ret tt) ;;
     subprocess_run ["systemctl"; "daemon-reload"] true None ;;
     subprocess_run ["systemctl"; "restart"; service_name] false None ;;
     ret tt)
    (fun _ => Some (ret tt)).

(** What [apply_hardening] writes to the override file. *)
Definition override_text (profile_name : string) (profile : HardeningProfile)
  : string :=
  "# Generated by SystemdShield - Profile: " +:+ profile_name
  +:+ String PyStr.LF EmptyString
  +:+ to_systemd_config (overrides profile).

Definition health_check_error : string :=
  "Service failed health check after hardening".

(** Lines 128-199 of [apply_hardening]: the [try] block and its handler.
    [initial] is the baseline analysis, [profile_name] the profile
    resolved and [profile] its entry in the table. *)
Definition apply_changes (self : HardeningEngine) (service_name : string)
  (initial : ServiceAnalysis) (profile_name : string)
  (profile : HardeningProfile) : M HardeningResult :=
  let previous := exposure_score initial in
  let override_dir := override_dir self service_name in
  let override_file := override_file self service_name in
  let backup_file := backup_path self service_name in
  let measure_again : M HardeningResult :=
    new_analysis <- Analyzer.analyze_service service_name ;;
    ret {| service_name := service_name; success := true;
           profile_applied := Some profile_name;
           previous_score := previous;
           new_score := new_analysis ≫= exposure_score;
           rollback_performed := false;
           error := None |} in
  try_except
    (present <- path_exists override_file ;;
     (if present then copy2 override_file backup_file else ret tt) ;;
     mkdir override_dir ;;
     write_text override_file (override_text profile_name profile) ;;
     subprocess_run ["systemctl"; "daemon-reload"] true None ;;
     if is_active initial then
       subprocess_run ["systemctl"; "restart"; service_name]
         true (Some 10%Q) ;;
       status <- subprocess_run ["systemctl"; "is-active"; service_name]
                   false None ;;
       if negb (String.eqb (PyStr.strip (stdout status)) "active")
       then
         rollback self service_name (Some backup_file) ;;
         ret {| service_name := service_name; success := false;
                profile_applied := Some profile_name;
                previous_score := previous;
                new_score := None;
                rollback_performed := true;
                error := Some (Message health_check_error) |}
       else measure_again
     else measure_again)
    (fun e =>
       Some (rollback self service_name (Some backup_file) ;;
             ret {| service_name := service_name;
                    success := false;
                    profile_applied := Some profile_name;
                    previous_score := previous;
                    new_score := None;
                    rollback_performed := true;
                    error := Some (StrOf e) |})).

Definition apply_hardening (self : HardeningEngine) (service_name : string)
  (profile_name : option string) (dry_run : bool) : M HardeningResult :=
  if is_excluded self service_name then
    ret {| service_name := service_name; success := false;
           profile_applied := None; previous_score := None;
           new_score := None; rollback_performed := false;
           error := Some (Message "Service is in exclusion list") |}
  else
    initial_analysis <- Analyzer.analyze_service service_name ;;
    match initial_analysis with
    | None =>
        ret {| service_name := service_name; success := false;
               profile_applied := None; previous_score := None;
               new_score := None; rollback_performed := false;
               error := Some (Message "Failed to analyze service") |}
    | Some initial =>
        let profile_name := resolve_profile self service_name profile_name in
        match Models.profiles (profiles self) !! profile_name with
        | None =>
            ret {| service_name := service_name; success := false;
                   profile_applied := None; previous_score := None;
                   new_score := None; rollback_performed := false;
                   error := Some (Message ("Unknown profile: " +:+ profile_name)) |}
        | Some profile =>
            if dry_run then
              ret {| service_name := service_name; success := true;
                     profile_applied := Some profile_name;
                     previous_score := exposure_score initial;
                     new_score := None; rollback_performed := false;
                     error := None |}
            else
              apply_changes self service_name initial profile_name profile
        end
    end.

End Hardening.

(* ===================================================================== *)
(** * src/main.py: the revert command *)
(* ===================================================================== *)

Module Main.

Import Host.
Local Open Scope py_scope.

Definition require_root : M unit :=
  fun w => if (euid w =? 0)%Z then (Ok tt, w) else (Raise (Exit 1), w).

(** [revert(service)]; [engine] is the [HardeningEngine] that the command
    constructs from the configuration directory. *)
Definition revert (engine : Hardening.HardeningEngine) (service : string)
  : M unit :=
  require_root ;;
  Hardening.rollback engine service None.

(** [[analyzer.analyze_service(s) for s in names]] *)
Fixpoint analyze_each (names : list string)
  : M (list (option Models.ServiceAnalysis)) :=
  match names with
  | [] => ret []
  | s :: rest =>
      analysis <- Analyzer.analyze_service s ;;
      analyses <- analyze_each rest ;;
      ret (analysis :: analyses)
  end.

(** [[s for s in services if s is not None]] *)
Fixpoint not_none (services : list (option Models.ServiceAnalysis))
  : list Models.ServiceAnalysis :=
  match services with
  | [] => []
  | Some s :: rest => s :: not_none rest
  | None :: rest => not_none rest
  end.

(** Lines 49-53 of [audit]: the services that the table shows. *)
Definition audit_services (threshold : PyFloat.pyfloat) (show_all : bool)
  : M (list Models.ServiceAnalysis) :=
  if show_all then
    names <- Analyzer.get_all_services ;;
    services <- analyze_each names ;;
    ret (not_none services)
  else Analyzer.get_high_exposure_services threshold.

(** The loop of the batch mode of [harden]. *)
Fixpoint harden_batch (engine : Hardening.HardeningEngine)
  (services : list Models.ServiceAnalysis) (dry_run : bool) : M unit :=
  match services with
  | [] => ret tt
  | svc :: rest =>
      if Hardening.is_excluded engine (Models.name svc)
      then harden_batch engine rest dry_run
      else
        Hardening.apply_hardening engine (Models.name svc) None dry_run ;;
        harden_batch engine rest dry_run
  end.

(** [harden(service, profile, interactive, dry_run, batch, threshold)];
    [engine] is the engine that the command constructs, and [confirmed] the
    answer that [typer.confirm] gets in interactive mode.  The panel printed
    after a success that is no dry run (it reads [profiles.yaml] again, and
    prints the explanations) is left out. *)
Definition harden (engine : Hardening.HardeningEngine)
  (service profile : option string) (interactive dry_run batch : bool)
  (threshold : PyFloat.pyfloat) (confirmed : bool) : M unit :=
  require_root ;;
  if batch then
    services <- Analyzer.get_high_exposure_services threshold ;;
    harden_batch engine services dry_run
  else if Hardening.not_given service then raise (Exit 1)
  else
    let service := default EmptyString service in
    proceed <- (if interactive then
                  Analyzer.analyze_service service ;;
                  ret confirmed
                else ret true) ;;
    if proceed then
      Hardening.apply_hardening engine service profile dry_run ;;
      ret tt
    else ret tt.

End Main.

(* ===================================================================== *)
(** * Specification vocabulary *)
(* ===================================================================== *)

(** [p] is a prefix of [s]. *)
Definition is_prefix (p s : string) : Prop := exists suf, s = p +:+ suf.

(** [suf] is a suffix of [s]. *)
Definition is_suffix (suf s : string) : Prop := exists pre, s = pre +:+ suf.

(** [x] occurs somewhere in [s]. *)
Definition occurs (x s : string) : Prop :=
  exists pre post, s = pre +:+ x +:+ post.

(** Every character of [s] satisfies [cls]. *)
Fixpoint all_chars (cls : ascii -> bool) (s : string) : bool :=
  match s with
  | EmptyString => true
  | String c s' => cls c && all_chars cls s'
  end.

(** [s] is empty or starts with a character outside [cls]. *)
Definition stops (cls : ascii -> bool) (s : string) : bool :=
  match s with
  | EmptyString => true
  | String c _ => negb (cls c)
  end.

(** The star is [chr 42]. *)
Definition star : ascii := "*"%char.

(** [pattern] is [pre*] and [service_name] starts with [pre]. *)
Definition wildcard_match (pattern service_name : string) : Prop :=
  exists pre, pattern = pre +:+ "*" /\ is_prefix pre service_name.

(** The match that the spec describes for one pattern: a pattern ending in a
    star matches the names sharing its prefix, a pattern without any star
    matches its own name only. *)
Definition claimed_match (pattern service_name : string) : Prop :=
  wildcard_match pattern service_name
  \/ (PyStr.has_char star pattern = false /\ service_name = pattern).

(** The match that [is_excluded] implements for one pattern. *)
Definition pattern_match (pattern service_name : string) : Prop :=
  wildcard_match pattern service_name \/ service_name = pattern.

(** The name heuristics of the spec, as an ordered table of rules: the
    substrings looked for, and the profile chosen. *)
Definition heuristic_rules : list (list string * string) :=
  [ (["network"; "wpa"; "dhcp"], "network_service");
    (["docker"; "libvirt"; "virtual"], "virtualization_service");
    (["dbus"; "gdm"; "login"], "critical_service") ].

Definition rule_applies (rule : list string * string) (service_name : string)
  : Prop :=
  exists x, In x (fst rule) /\ occurs x service_name.

(** [profile] is the choice of the first rule of [rules] that applies, or
    the default when none does. *)
Inductive first_rule (service_name : string)
  : list (list string * string) -> string -> Prop :=
| first_rule_default : first_rule service_name [] "system_service"
| first_rule_here rule rest :
    rule_applies rule service_name ->
    first_rule service_name (rule :: rest) (snd rule)
| first_rule_later rule rest profile :
    ~ rule_applies rule service_name ->
    first_rule service_name rest profile ->
    first_rule service_name (rule :: rest) profile.


(** The names of the directives, in the order of the fields of
    [HardeningOverrides]. *)
Definition directive_names : list string :=
  [ "NoNewPrivileges"; "IPAddressDeny"; "IPAddressAllow"; "PrivateTmp";
    "ProtectKernelModules"; "ProtectKernelTunables"; "ProtectControlGroups";
    "RestrictRealtime"; "LockPersonality"; "ProtectHome"; "ProtectSystem";
    "MemoryDenyWriteExecute"; "RestrictSUIDSGID" ].

(** The lines of a rendered configuration. *)
Definition rendered_lines (config : string) : list string :=
  PyStr.split_on PyStr.LF config.

(** No value that is set holds a line feed. *)
Definition single_line_values (o : Models.HardeningOverrides) : Prop :=
  Forall (fun item => PyStr.has_char PyStr.LF (snd item) = false)
    (Models.exclude_none (Models.model_dump o)).

(** The literal that opens the summary line of [systemd-analyze security]. *)
Definition summary_literal : string := "Overall exposure level".

(** A text that the pattern of the analyzer matches from its first
    character: the literal, [mid] up to a colon, blanks, the number, blanks,
    the level, and then the rest of the output. *)
Definition summary_text (mid ws1 num ws2 level rest : string) : string :=
  summary_literal +:+ mid +:+ ":" +:+ ws1 +:+ num +:+ ws2 +:+ level +:+ rest.

Definition well_formed_summary (mid ws1 num ws2 level : string) : Prop :=
  all_chars PyRe.any_char mid = true
  /\ ws1 <> "" /\ all_chars PyRe.space ws1 = true
  /\ num <> "" /\ all_chars PyRe.digit_or_dot num = true
  /\ ws2 <> "" /\ all_chars PyRe.space ws2 = true
  /\ level <> "" /\ all_chars PyRe.word level = true.

(** The lines, each followed by a line feed. *)
Definition unlines (lines : list string) : string :=
  fold_right (fun l acc => l +:+ String PyStr.LF acc) "" lines.

(** The binary64 value that the literal [9.6] denotes,
    [0x1.3333333333333p+3]. *)
Definition float_9_6 : PyFloat.pyfloat :=
  PyFloat.Finite (5404319552844595 # 562949953421312).

(* ===================================================================== *)
(** * Vocabulary for the effects *)
(* ===================================================================== *)

(** The commands that [analyze_service] runs. *)
Definition analysis_argv (service_name : string) : list (list string) :=
  [ ["systemd-analyze"; "security"; service_name; "--no-pager"];
    ["systemctl"; "is-active"; service_name];
    ["systemctl"; "is-enabled"; service_name] ].

Definition analysis_query (service_name : string) (e : Host.event) : Prop :=
  exists argv, In argv (analysis_argv service_name) /\ e = Host.Run argv.

(** The events that change the machine: every file operation, and the
    reload and restart commands. *)
Definition mutating (e : Host.event) : bool :=
  match e with
  | Host.Run argv =>
      match argv with
      | prog :: cmd :: _ =>
          String.eqb prog "systemctl"
          && (String.eqb cmd "daemon-reload" || String.eqb cmd "restart")
      | _ => false
      end
  | _ => true
  end.

(** From [w] to [w'] the process only ran analysis queries: files and
    directories are the same, and nothing else was started. *)
Definition read_only (service_name : string) (w w' : Host.world) : Prop :=
  Host.files w' = Host.files w /\ Host.dirs w' = Host.dirs w
  /\ Host.euid w' = Host.euid w /\ Host.host w' = Host.host w
  /\ exists evs, Host.trace w' = evs ++ Host.trace w
                 /\ Forall (analysis_query service_name) evs.

(** The same machine: who runs the process and how commands are answered. *)
Definition same_machine (w w' : Host.world) : Prop :=
  Host.euid w' = Host.euid w /\ Host.host w' = Host.host w.

(** Why [apply_hardening] stops before it changes anything. *)
Inductive early_stop : Type :=
| StopExcluded
| StopUnanalyzable
| StopUnknownProfile (profile_name : string)
| StopDryRun (profile_name : string).

(** The stage at which a call stops before the mutation, [None] when it
    reaches the mutation. *)
Definition stops_before_mutation (self : Hardening.HardeningEngine)
  (service_name : string) (profile_name : option string) (dry_run : bool)
  (w : Host.world) : option early_stop :=
  if Hardening.is_excluded self service_name then Some StopExcluded
  else
    match fst (Analyzer.analyze_service service_name w) with
    | Host.Ok (Some _) =>
        let resolved :=
          Hardening.resolve_profile self service_name profile_name in
        match Models.profiles (Hardening.profiles self) !! resolved with
        | None => Some (StopUnknownProfile resolved)
        | Some _ => if dry_run then Some (StopDryRun resolved) else None
        end
    | _ => Some StopUnanalyzable
    end.

(** The result returned for each early stop. *)
Definition early_result (stop : early_stop) (r : Hardening.HardeningResult)
  : Prop :=
  Hardening.rollback_performed r = false
  /\ match stop with
     | StopExcluded =>
         Hardening.success r = false
         /\ Hardening.error r
            = Some (Hardening.Message "Service is in exclusion list")
     | StopUnanalyzable =>
         Hardening.success r = false
         /\ Hardening.error r
            = Some (Hardening.Message "Failed to analyze service")
     | StopUnknownProfile profile_name =>
         Hardening.success r = false
         /\ Hardening.error r
            = Some (Hardening.Message ("Unknown profile: " +:+ profile_name))
     | StopDryRun profile_name =>
         Hardening.success r = true
         /\ Hardening.error r = None
         /\ Hardening.profile_applied r = Some profile_name
     end.

(** The files once the existing override is copied to the backup. *)
Definition saved_files (self : Hardening.HardeningEngine)
  (service_name : string) (fs : gmap string string) : gmap string string :=
  match fs !! Hardening.override_file self service_name with
  | Some content => <[Hardening.backup_path self service_name := content]> fs
  | None => fs
  end.

(** The files once the new override is written. *)
Definition written_files (self : Hardening.HardeningEngine)
  (service_name text : string) (fs : gmap string string)
  : gmap string string :=
  <[Hardening.override_file self service_name := text]>
    (saved_files self service_name fs).

(** The files once [rollback] has run. *)
Definition rolled_back_files (self : Hardening.HardeningEngine)
  (service_name : string) (backup_file : option string)
  (fs : gmap string string) : gmap string string :=
  match backup_file ≫= (fun b => fs !! b) with
  | Some content => <[Hardening.override_file self service_name := content]> fs
  | None => delete (Hardening.override_file self service_name) fs
  end.

(** The program cannot be started, whatever its arguments. *)
Definition unavailable (w : Host.world) (program : string) : Prop :=
  forall history args, Host.host w history (program :: args) = Host.NotFound.

(** Every command can be started. *)
Definition all_available (w : Host.world) : Prop :=
  forall history argv, Host.host w history argv <> Host.NotFound.

(** Analyzing the services one after the other. *)
Fixpoint analyze_all (services : list string)
  : Host.M (list (option Models.ServiceAnalysis)) :=
  match services with
  | [] => Host.ret []
  | service :: rest =>
      Host.bind (Analyzer.analyze_service service) (fun analysis =>
      Host.bind (analyze_all rest) (fun analyses =>
      Host.ret (analysis :: analyses)))
  end.

(** The analyses that are there. *)
Fixpoint present (analyses : list (option Models.ServiceAnalysis))
  : list Models.ServiceAnalysis :=
  match analyses with
  | [] => []
  | Some a :: rest => a :: present rest
  | None :: rest => present rest
  end.

(** The score is there, is not zero, and is at least the threshold. *)
Definition kept (threshold : PyFloat.pyfloat) (a : Models.ServiceAnalysis)
  : bool :=
  match Models.exposure_score a with
  | Some score => PyFloat.truthy score && PyFloat.ge score threshold
  | None => false
  end.

(** [a] comes before [b] in a list sorted by decreasing score. *)
Definition score_ge (a b : Models.ServiceAnalysis) : Prop :=
  match Models.exposure_score a, Models.exposure_score b with
  | Some x, Some y => PyFloat.ge x y = true
  | _, _ => False
  end.

(* ===================================================================== *)
(** * Configurations and hosts used as examples *)
(* ===================================================================== *)

Definition no_overrides : Models.HardeningOverrides :=
  {| Models.NoNewPrivileges := None; Models.IPAddressDeny := None;
     Models.IPAddressAllow := None; Models.PrivateTmp := None;
     Models.ProtectKernelModules := None; Models.ProtectKernelTunables := None;
     Models.ProtectControlGroups := None; Models.RestrictRealtime := None;
     Models.LockPersonality := None; Models.ProtectHome := None;
     Models.ProtectSystem := None; Models.MemoryDenyWriteExecute := None;
     Models.RestrictSUIDSGID := None |}.

(** [HardeningOverrides(NoNewPrivileges=value)] *)
Definition only_no_new_privileges (value : string) : Models.HardeningOverrides :=
  {| Models.NoNewPrivileges := Some value; Models.IPAddressDeny := None;
     Models.IPAddressAllow := None; Models.PrivateTmp := None;
     Models.ProtectKernelModules := None; Models.ProtectKernelTunables := None;
     Models.ProtectControlGroups := None; Models.RestrictRealtime := None;
     Models.LockPersonality := None; Models.ProtectHome := None;
     Models.ProtectSystem := None; Models.MemoryDenyWriteExecute := None;
     Models.RestrictSUIDSGID := None |}.

(** A value that spans two lines. *)
Definition two_line_value : string :=
  "yes" +:+ String PyStr.LF "PrivateTmp=no".

Definition basic_profile : Models.HardeningProfile :=
  {| Models.description := "basic";
     Models.overrides := only_no_new_privileges "yes" |}.

Definition strict_profile : Models.HardeningProfile :=
  {| Models.description := "strict";
     Models.overrides :=
       {| Models.NoNewPrivileges := Some "yes";
          Models.IPAddressDeny := Some "any";
          Models.IPAddressAllow := None; Models.PrivateTmp := Some "yes";
          Models.ProtectKernelModules := None;
          Models.ProtectKernelTunables := None;
          Models.ProtectControlGroups := None;
          Models.RestrictRealtime := None; Models.LockPersonality := None;
          Models.ProtectHome := None; Models.ProtectSystem := None;
          Models.MemoryDenyWriteExecute := None;
          Models.RestrictSUIDSGID := None |} |}.

(** An engine with two profiles, [system_service] and [strict], no service
    mapping, and the exclusion patterns given. *)
Definition engine_excluding (patterns : list string)
  : Hardening.HardeningEngine :=
  {| Hardening.profiles :=
       {| Models.profiles :=
            {[ "system_service" := basic_profile; "strict" := strict_profile ]};
          Models.service_mappings := ∅ |};
     Hardening.exclusions :=
       {| Models.excluded_services := patterns;
          Models.exclusion_reasons := None |};
     Hardening.override_base := "/etc/systemd/system" |}.

Definition plain_engine : Hardening.HardeningEngine := engine_excluding [].

Definition nl : string := String PyStr.LF "".

(** The first two words of a command line. *)
Definition command_of (argv : list string) : string :=
  PyStr.join " " (firstn 2 argv).

(** The latest thing the process did was to restart a service. *)
Definition just_restarted (history : list Host.event) : bool :=
  match history with
  | Host.Run (_ :: cmd :: _) :: _ => String.eqb cmd "restart"
  | _ => false
  end.

(** A machine where every program exists and exits with status 0:
    [list-units] prints [units], [systemd-analyze security] prints [report],
    every unit is enabled, and a unit is active except right after a restart
    that it does not survive ([survives] tells, from the history). *)
Definition scripted_host (units report : string)
  (survives : list Host.event -> bool)
  : list Host.event -> list string -> Host.spawned :=
  fun history argv =>
    let c := command_of argv in
    if String.eqb c "systemctl list-units" then Host.Completed 0 units 1
    else if String.eqb c "systemd-analyze security" then
      Host.Completed 0 report 1
    else if String.eqb c "systemctl is-active" then
      if just_restarted history && negb (survives history)
      then Host.Completed 3 ("failed" +:+ nl) 0
      else Host.Completed 0 ("active" +:+ nl) 0
    else if String.eqb c "systemctl is-enabled" then
      Host.Completed 0 ("enabled" +:+ nl) 0
    else Host.Completed 0 "" 1.

(** A machine where every command exits with status 1 and prints nothing.*)
Definition failing_host : list Host.event -> list string -> Host.spawned :=
  fun _ _ => Host.Completed 1 "" 0.

(** A machine without [systemctl] and [systemd-analyze]. *)
Definition bare_host : list Host.event -> list string -> Host.spawned :=
  fun _ _ => Host.NotFound.

(** The process starts: nothing done yet. *)
Definition boot (fs : gmap string string) (uid : Z)
  (h : list Host.event -> list string -> Host.spawned) : Host.world :=
  {| Host.files := fs; Host.dirs := ∅; Host.euid := uid; Host.host := h;
     Host.trace := [] |}.

Definition foo_report : string :=
  "  NAME DESCRIPTION EXPOSURE" +:+ nl
  +:+ "Overall exposure level for foo.service: 9.6 UNSAFE" +:+ nl.

Definition foo_override : string :=
  "/etc/systemd/system/foo.service.d/override.conf".

Definition foo_backup : string :=
  "/etc/systemd/system/foo.service.d/override.conf.backup".

(** [foo.service] runs, and does not survive a restart. *)
Definition fragile_host : list Host.event -> list string -> Host.spawned :=
  scripted_host ("foo.service loaded active running Foo" +:+ nl) foo_report
    (fun _ => false).

(** [foo.service] runs, and survives every restart. *)
Definition sturdy_host : list Host.event -> list string -> Host.spawned :=
  scripted_host ("foo.service loaded active running Foo" +:+ nl) foo_report
    (fun _ => true).

(** The report has two summary lines. *)
Definition two_summaries_report : string :=
  "Overall exposure level for a.service: 1.0 OK" +:+ nl
  +:+ "Overall exposure level for b.service: 9.6 UNSAFE" +:+ nl.

(** The number of the summary line has two dots. *)
Definition malformed_report : string :=
  "Overall exposure level for foo.service: 1.2.3 BAD" +:+ nl.

(** One unit, [a.service], whose exposure is [0.0]. *)
Definition zero_score_host : list Host.event -> list string -> Host.spawned :=
  scripted_host ("a.service loaded active running A" +:+ nl)
    ("Overall exposure level for a.service: 0.0 OK" +:+ nl)
    (fun _ => true).

Definition zero_score_analysis : Models.ServiceAnalysis :=
  {| Models.name := "a.service";
     Models.exposure_score := Some (PyFloat.Finite 0);
     Models.exposure_level := Some "OK";
     Models.is_active := true;
     Models.is_enabled := true;
     Models.suggested_profile := None |}.

(** [foo.service] has no override, and a backup left by an earlier run. *)
Definition stale_backup_world : Host.world :=
  boot {[ foo_backup := "stale" ]} 0 fragile_host.

(** [foo.service] survives a restart unless the profile [strict] was
    written. *)
Definition strict_breaks_host : list Host.event -> list string -> Host.spawned :=
  scripted_host ("foo.service loaded active running Foo" +:+ nl) foo_report
    (fun history =>
       negb (existsb
               (fun e =>
                  match e with
                  | Host.WriteFile _ content =>
                      PyStr.contains "Profile: strict" content
                  | _ => false
                  end)
               history)).

(** Harden [foo.service] twice, revert it, and harden it with [strict]: the
    result of the last call, and the files before and after that call. *)
Definition harden_twice_revert_harden
  : Host.outcome Hardening.HardeningResult
    * gmap string string * gmap string string :=
  let w0 := boot ∅ 0 strict_breaks_host in
  let w1 := snd (Hardening.apply_hardening plain_engine "foo.service" None
                   false w0) in
  let w2 := snd (Hardening.apply_hardening plain_engine "foo.service" None
                   false w1) in
  let w3 := snd (Main.revert plain_engine "foo.service" w2) in
  let last := Hardening.apply_hardening plain_engine "foo.service"
                (Some "strict") false w3 in
  (fst last, Host.files w3, Host.files (snd last)).

(* ===================================================================== *)
(** * Vocabulary for further properties *)
(* ===================================================================== *)



(** From [w] to [w'] the machine is the same, files and directories
    included, and nothing that changes it was started. *)
Definition quiet (w w' : Host.world) : Prop :=
  Host.files w' = Host.files w /\ Host.dirs w' = Host.dirs w
  /\ Host.euid w' = Host.euid w /\ Host.host w' = Host.host w
  /\ exists evs, Host.trace w' = evs ++ Host.trace w
                 /\ Forall (fun e => mutating e = false) evs.

(** [systemctl daemon-reload] *)
Definition is_reload (e : Host.event) : bool :=
  match e with
  | Host.Run [prog; cmd] =>
      String.eqb prog "systemctl" && String.eqb cmd "daemon-reload"
  | _ => false
  end.

(** [systemctl restart ...] *)
Definition is_restart (e : Host.event) : bool :=
  match e with
  | Host.Run (prog :: cmd :: _) =>
      String.eqb prog "systemctl" && String.eqb cmd "restart"
  | _ => false
  end.

(** The events that change the content of a file or remove one. *)
Definition changes_a_file (e : Host.event) : bool :=
  match e with
  | Host.Copy _ _ | Host.WriteFile _ _ | Host.Unlink _ => true
  | _ => false
  end.

(** In a history (latest event first), every change of a file is followed,
    later in time, by a reload; [later] tells whether a reload comes after
    the whole history. *)
Fixpoint reloaded (later : bool) (evs : list Host.event) : bool :=
  match evs with
  | [] => true
  | e :: rest =>
      if is_reload e then reloaded true rest
      else if changes_a_file e then later && reloaded later rest
      else reloaded later rest
  end.

(** When [harden] cannot change anything: it is not run by root, or it is a
    dry run, or (outside the batch mode) no service is named or the user
    declines. *)
Definition harden_is_harmless (uid : Z) (service : option string)
  (interactive dry_run batch confirmed : bool) : bool :=
  negb (uid =? 0)%Z
  || dry_run
  || (negb batch
      && (Hardening.not_given service || (interactive && negb confirmed))).

(** The first line of an override file written for [profile_name]. *)
Definition override_header (profile_name : string) : string :=
  "# Generated by SystemdShield - Profile: " +:+ profile_name.


(** [foo.service] does not run. *)
Definition idle_host : list Host.event -> list string -> Host.spawned :=
  fun history argv =>
    if String.eqb (command_of argv) "systemctl is-active"
    then Host.Completed 3 ("inactive" +:+ nl) 0
    else sturdy_host history argv.

(** The listing names two units, and has lines that name none. *)
Definition two_units_host : list Host.event -> list string -> Host.spawned :=
  scripted_host
    ("  foo.service loaded active running Foo" +:+ nl
     +:+ nl
     +:+ "bar.socket loaded active listening Bar" +:+ nl
     +:+ "baz.service loaded inactive dead Baz" +:+ nl)
    foo_report (fun _ => true).

(** The service as the first analysis of [apply_hardening] finds it. *)
Definition baseline (service_name : string) (w : Host.world)
  : option Models.ServiceAnalysis :=
  match fst (Analyzer.analyze_service service_name w) with
  | Host.Ok analysis => analysis
  | Host.Raise _ => None
  end.



(** Every file but the override of the service and its backup is as it
    was. *)
Definition other_files_kept (self : Hardening.HardeningEngine)
  (service_name : string) (fs fs' : gmap string string) : Prop :=
  forall path,
    path <> Hardening.override_file self service_name ->
    path <> Hardening.backup_path self service_name ->
    fs' !! path = fs !! path.

(** A name that holds no slash, as the names of units do: the paths of the
    model are then those that [pathlib] builds from it. *)
Definition plain_name (s : string) : Prop := PyStr.has_char "/" s = false.

(** The command ran, exited with status 0, and took no longer than the
    timeout when there is one. *)
Definition exits_well (answer : Host.spawned) (timeout : option Q) : bool :=
  match answer with
  | Host.Completed rc _ secs =>
      (rc =? 0)%Z
      && match timeout with
         | Some t => Qle_bool secs t
         | None => true
         end
  | Host.NotFound => false
  end.

(** [systemctl is-active] ran and printed [active]. *)
Definition says_active (answer : Host.spawned) : bool :=
  match answer with
  | Host.Completed _ out _ => String.eqb (PyStr.strip out) "active"
  | Host.NotFound => false
  end.

(** What the machine answers to the mutation of [apply_hardening] started
    in [w] for a service found as [initial]: the reload goes well and, when
    the service was running, the restart goes well within ten seconds and
    the service is active right after it.  Each command is asked after what
    the call has done by then. *)
Definition checks_pass (self : Hardening.HardeningEngine)
  (service_name : string) (initial : Models.ServiceAnalysis) (text : string)
  (w : Host.world) : bool :=
  let override_file := Hardening.override_file self service_name in
  let saved :=
    match Host.files w !! override_file with
    | Some _ =>
        [Host.Copy override_file (Hardening.backup_path self service_name)]
    | None => []
    end in
  let written :=
    Host.WriteFile override_file text
    :: Host.Mkdir (Hardening.override_dir self service_name)
    :: saved ++ Host.trace w in
  let reloaded := Host.Run ["systemctl"; "daemon-reload"] :: written in
  let restarted :=
    Host.Run ["systemctl"; "restart"; service_name] :: reloaded in
  exits_well (Host.host w written ["systemctl"; "daemon-reload"]) None
  && (if Models.is_active initial then
        exits_well
          (Host.host w reloaded ["systemctl"; "restart"; service_name])
          (Some 10%Q)
        && says_active
             (Host.host w restarted ["systemctl"; "is-active"; service_name])
      else true).

(** The analysis sorts with the key [k]: its sort key is neither above nor
    below [k]. *)
Definition tied (k : PyFloat.pyfloat) (a : Models.ServiceAnalysis) : bool :=
  PyFloat.ge (Analyzer.sort_key a) k && PyFloat.ge k (Analyzer.sort_key a).
(* ===================================================================== *)
(** * Facts about the string operations *)
(* ===================================================================== *)

Section StringFacts.

Import PyStr.

Lemma append_nil (s : string) : "" +:+ s = s.
Proof. reflexivity. Qed.

Lemma append_cons (c : ascii) (s t : string) :
  String c s +:+ t = String c (s +:+ t).
Proof. reflexivity. Qed.

Lemma append_empty_r (s : string) : s +:+ "" = s.
Proof. induction s; rewrite ?append_cons, ?append_nil; congruence. Qed.

Lemma append_assoc (a b c : string) : (a +:+ b) +:+ c = a +:+ b +:+ c.
Proof. induction a; rewrite ?append_cons, ?append_nil; congruence. Qed.

Lemma append_eq_empty (a b : string) : a +:+ b = "" -> a = "" /\ b = "".
Proof. destruct a; rewrite ?append_cons, ?append_nil; [auto | discriminate]. Qed.

Lemma append_inv_head (a b c : string) : a +:+ b = a +:+ c -> b = c.
Proof.
  induction a; rewrite ?append_cons, ?append_nil; intros H;
    [done | injection H; auto].
Qed.

Lemma startswith_spec (s p : string) :
  startswith s p = true <-> is_prefix p s.
Proof.
  unfold is_prefix. revert s. induction p as [|a p IH]; intros s; simpl.
  - split; [by exists s | done].
  - destruct s as [|b s].
    + split; [discriminate | intros [suf H]; discriminate].
    + rewrite andb_true_iff, Ascii.eqb_eq, IH. split.
      * intros [-> [suf ->]]. eauto.
      * intros [suf H]. rewrite append_cons in H. injection H as -> ->. eauto.
Qed.

Lemma endswith_spec (s suf : string) :
  endswith s suf = true <-> is_suffix suf s.
Proof.
  unfold is_suffix. induction s as [|c s IH]; cbn [endswith].
  - rewrite orb_false_r, String.eqb_eq. split.
    + intros <-. by exists "".
    + intros [pre H]. symmetry in H. by apply append_eq_empty in H as [_ ->].
  - rewrite orb_true_iff, String.eqb_eq, IH. split.
    + intros [<- | [pre ->]]; [by exists "" | by exists (String c pre)].
    + intros [[|d pre] H]; [by left |].
      rewrite append_cons in H. injection H as -> ->. right. eauto.
Qed.

Lemma contains_spec (x s : string) : contains x s = true <-> occurs x s.
Proof.
  unfold occurs. induction s as [|c s IH]; cbn [contains].
  - rewrite orb_false_r, startswith_spec. split.
    + intros [suf ->]. by exists "", suf.
    + intros (pre & post & H). symmetry in H.
      apply append_eq_empty in H as [-> H].
      apply append_eq_empty in H as [-> ->]. by exists "".
  - rewrite orb_true_iff, startswith_spec, IH. split.
    + intros [[suf ->] | (pre & post & ->)].
      * by exists "", suf.
      * by exists (String c pre), post.
    + intros ([|d pre] & post & H).
      * left. by exists post.
      * rewrite append_cons in H. injection H as -> ->. right. eauto.
Qed.

Lemma drop_last_snoc (pre : string) (c : ascii) :
  drop_last (pre +:+ String c "") = pre.
Proof.
  induction pre as [|d pre IH]; [done |].
  rewrite append_cons. simpl. rewrite IH.
  destruct pre; done.
Qed.

Lemma any_in_spec (needles : list string) (s : string) :
  any_in needles s = true <-> exists x, In x needles /\ occurs x s.
Proof.
  unfold any_in. rewrite existsb_exists.
  split; intros (x & Hin & H); exists x; split; auto; by apply contains_spec.
Qed.

Lemma has_char_append (c : ascii) (a b : string) :
  has_char c (a +:+ b) = has_char c a || has_char c b.
Proof.
  induction a as [|d a IH]; [done |].
  rewrite append_cons. simpl. by rewrite IH, orb_assoc.
Qed.

(** Splitting on the separator undoes joining, when no part holds the
    separator. *)
Lemma split_on_cons (sep : ascii) (l rest : string) :
  has_char sep l = false ->
  split_on sep (l +:+ String sep rest) = l :: split_on sep rest.
Proof.
  induction l as [|c l IH]; intros H.
  - rewrite append_nil. simpl. by rewrite Ascii.eqb_refl.
  - simpl in H. apply orb_false_iff in H as [Hc Hl].
    rewrite append_cons. simpl. rewrite Hc, IH by done. done.
Qed.

Lemma split_on_single (sep : ascii) (l : string) :
  has_char sep l = false -> split_on sep l = [l].
Proof.
  induction l as [|c l IH]; simpl; intros H; [done |].
  apply orb_false_iff in H as [Hc Hl]. rewrite Hc, IH by done. done.
Qed.

Lemma split_on_join (sep : ascii) (parts : list string) :
  parts <> [] ->
  Forall (fun l => has_char sep l = false) parts ->
  split_on sep (join (String sep "") parts) = parts.
Proof.
  induction parts as [|l parts IH]; intros Hne Hall; [done |].
  inversion Hall as [|? ? Hl Hrest]; subst.
  destruct parts as [|l' parts'].
  - simpl. by apply split_on_single.
  - change (join (String sep "") (l :: l' :: parts'))
      with (l +:+ String sep "" +:+ join (String sep "") (l' :: parts')).
    rewrite append_cons, append_nil.
    rewrite split_on_cons by done. f_equal. by apply IH.
Qed.

End StringFacts.

(* ===================================================================== *)
(** * Exclusions, profile resolution, rendering *)
(* ===================================================================== *)

Section PureFacts.

Import PyStr Models Hardening.

Lemma wildcard_match_spec (pattern service_name : string) :
  endswith pattern "*" && startswith service_name (drop_last pattern) = true
  <-> wildcard_match pattern service_name.
Proof.
  unfold wildcard_match.
  rewrite andb_true_iff, endswith_spec, startswith_spec. split.
  - intros [[pre ->] Hp]. exists pre. by rewrite drop_last_snoc in Hp.
  - intros (pre & -> & Hp). rewrite drop_last_snoc. split; [by exists pre | done].
Qed.

Lemma is_excluded_in_spec (patterns : list string) (service_name : string) :
  is_excluded_in patterns service_name = true
  <-> exists pattern, In pattern patterns /\ pattern_match pattern service_name.
Proof.
  unfold pattern_match.
  induction patterns as [|p rest IH]; cbn [is_excluded_in].
  - split; [discriminate | intros (? & [] & _)].
  - destruct (endswith p "*" && startswith service_name (drop_last p)) eqn:Hw.
    { apply wildcard_match_spec in Hw. split; [| done].
      intros _. exists p. split; [by left | by left]. }
    destruct (String.eqb service_name p) eqn:He.
    { apply String.eqb_eq in He. split; [| done].
      intros _. exists p. split; [by left | by right]. }
    rewrite IH. split.
    + intros (q & Hin & Hm). exists q. split; [by right | done].
    + intros (q & [<- | Hin] & Hm); [| by exists q].
      destruct Hm as [Hm | ->].
      * apply wildcard_match_spec in Hm. congruence.
      * rewrite String.eqb_refl in He. discriminate.
Qed.

Lemma first_rule_unique (service_name : string)
  (rules : list (list string * string)) (p q : string) :
  first_rule service_name rules p -> first_rule service_name rules q -> p = q.
Proof.
  induction 1; inversion 1; subst; auto; contradiction.
Qed.

Lemma heuristics_first_rule (self : HardeningEngine) (service_name : string) :
  service_mappings (profiles self) !! service_name = None ->
  first_rule service_name heuristic_rules
    (get_profile_for_service self service_name).
Proof.
  intros Hmap. unfold get_profile_for_service, heuristic_rules. rewrite Hmap.
  repeat
    match goal with
    | |- first_rule _ ((?kw, ?prof) :: _) (if any_in ?kw ?s then _ else _) =>
        let E := fresh "E" in
        destruct (any_in kw s) eqn:E;
        [ apply any_in_spec in E; by apply (first_rule_here _ (kw, prof))
        | apply first_rule_later;
          [ unfold rule_applies; cbn [fst]; rewrite <- any_in_spec; congruence
          | ] ]
    end.
  constructor.
Qed.

Lemma exclude_none_spec (items : list (string * option string))
  (field value : string) :
  In (field, value) (exclude_none items) <-> In (field, Some value) items.
Proof.
  induction items as [|[f [v|]] rest IH]; cbn [exclude_none In].
  - done.
  - rewrite IH. split; (intros [H | H]; [left; congruence | by right]).
  - rewrite IH. split; [by right | intros [H | H]; [discriminate | done]].
Qed.

Lemma model_dump_names (o : HardeningOverrides) :
  map fst (model_dump o) = directive_names.
Proof. reflexivity. Qed.

Lemma directive_names_nodup : NoDup directive_names.
Proof.
  apply (bool_decide_unpack _). by vm_compute.
Qed.

Lemma assoc_functional {A} (l : list (string * A)) (k : string) (a b : A) :
  NoDup (map fst l) -> In (k, a) l -> In (k, b) l -> a = b.
Proof.
  induction l as [|[k' v] l IH]; cbn [map fst In]; [done |].
  intros Hnd. inversion Hnd as [|? ? Hnotin Hnd']; subst.
  rewrite list_elem_of_In in Hnotin.
  intros [Ha | Ha] [Hb | Hb].
  - congruence.
  - injection Ha as -> ->. destruct Hnotin.
    change k with (fst (k, b)). by apply in_map.
  - injection Hb as -> ->. destruct Hnotin.
    change k with (fst (k, a)). by apply in_map.
  - by apply IH.
Qed.

Lemma model_dump_functional (o : HardeningOverrides) (field : string)
  (a b : option string) :
  In (field, a) (model_dump o) -> In (field, b) (model_dump o) -> a = b.
Proof.
  apply assoc_functional. rewrite model_dump_names.
  apply directive_names_nodup.
Qed.

(** No directive is rendered twice. *)
Lemma rendered_directives_nodup (o : HardeningOverrides) :
  NoDup (map fst (exclude_none (model_dump o))).
Proof.
  assert (forall items : list (string * option string),
            NoDup (map fst items) -> NoDup (map fst (exclude_none items)))
    as Hsub.
  { induction items as [|[f [v|]] rest IH]; cbn [exclude_none map fst];
      [done | |].
    - intros Hnd. apply NoDup_cons in Hnd as [Hnotin Hnd].
      apply NoDup_cons. split; [| by apply IH].
      intros Hin. apply Hnotin.
      apply list_elem_of_In, in_map_iff in Hin as ([f' v'] & Hf & Hin).
      cbn [fst] in Hf. subst f'. apply exclude_none_spec in Hin.
      apply list_elem_of_In. change f with (fst (f, Some v')).
      by apply in_map.
    - intros Hnd. apply NoDup_cons in Hnd as [_ Hnd]. by apply IH. }
  apply Hsub. rewrite model_dump_names. apply directive_names_nodup.
Qed.

Lemma model_dump_name (o : HardeningOverrides) (field : string)
  (v : option string) :
  In (field, v) (model_dump o) -> In field directive_names.
Proof.
  intros H. rewrite <- (model_dump_names o).
  change field with (fst (field, v)). by apply in_map.
Qed.

Lemma directive_name_chars (field : string) :
  In field directive_names ->
  has_char LF field = false /\ has_char "="%char field = false.
Proof.
  unfold directive_names. cbn [In]. intros H.
  repeat (destruct H as [<- | H]; [by vm_compute |]). done.
Qed.

(** A text without [c] has no prefix in which [c] occurs. *)
Lemma startswith_missing_char (c : ascii) (s f rest : string) :
  has_char c s = false -> startswith s (f +:+ String c rest) = false.
Proof.
  revert s. induction f as [|a f IH]; intros s Hs.
  - rewrite append_nil. destruct s as [|b s]; [done |].
    cbn [startswith]. cbn [has_char] in Hs.
    apply orb_false_iff in Hs as [Hb _].
    rewrite Ascii.eqb_sym, Hb. done.
  - rewrite append_cons. destruct s as [|b s]; [done |].
    cbn [startswith]. cbn [has_char] in Hs.
    apply orb_false_iff in Hs as [_ Hs]. rewrite IH by done.
    apply andb_false_r.
Qed.

(** A line [f'=v] starts with [f=] only when [f] is [f']. *)
Lemma config_line_prefix (f f' v : string) :
  has_char "="%char f = false -> has_char "="%char f' = false ->
  startswith (f' +:+ "=" +:+ v) (f +:+ "=") = true -> f = f'.
Proof.
  revert f'. induction f as [|a f IH]; intros [|b f'] Hf Hf'.
  - done.
  - rewrite append_nil, append_cons. cbn [startswith].
    cbn [has_char] in Hf'. apply orb_false_iff in Hf' as [Hb _].
    rewrite Ascii.eqb_sym, Hb. done.
  - rewrite append_nil, !append_cons. cbn [startswith].
    cbn [has_char] in Hf. apply orb_false_iff in Hf as [Ha _].
    rewrite Ha. done.
  - rewrite !append_cons. cbn [startswith].
    cbn [has_char] in Hf, Hf'.
    apply orb_false_iff in Hf as [_ Hf]. apply orb_false_iff in Hf' as [_ Hf'].
    intros H. apply andb_true_iff in H as [Hab H].
    apply Ascii.eqb_eq in Hab as ->. f_equal. by apply IH.
Qed.

Lemma config_lines_single_line (o : HardeningOverrides) :
  single_line_values o ->
  Forall (fun l => has_char LF l = false) (config_lines o).
Proof.
  unfold single_line_values, config_lines. intros Hv.
  constructor; [by vm_compute |].
  apply List.Forall_forall. intros line Hin.
  apply in_map_iff in Hin as ([f v] & <- & Hin).
  rewrite List.Forall_forall in Hv. specialize (Hv _ Hin). cbn [snd] in Hv.
  apply exclude_none_spec, model_dump_name, directive_name_chars in Hin
    as [Hf _].
  unfold config_line. cbn [fst snd].
  rewrite !has_char_append, Hf, Hv. done.
Qed.

(** Splitting the rendered text gives back the list [lines] of
    [to_systemd_config]. *)
Lemma rendered_lines_config (o : HardeningOverrides) :
  single_line_values o ->
  rendered_lines (to_systemd_config o) = config_lines o.
Proof.
  intros Hv. unfold rendered_lines, to_systemd_config.
  apply split_on_join; [done |]. by apply config_lines_single_line.
Qed.

Lemma unset_directive_no_line (o : HardeningOverrides) (D line : string) :
  In (D, None) (model_dump o) -> In line (config_lines o) ->
  startswith line (D +:+ "=") = false.
Proof.
  intros HD Hline.
  pose proof (directive_name_chars _ (model_dump_name _ _ _ HD)) as [_ HDeq].
  unfold config_lines in Hline. destruct Hline as [<- | Hline].
  - by apply startswith_missing_char.
  - apply in_map_iff in Hline as ([f v] & <- & Hin).
    apply exclude_none_spec in Hin.
    pose proof (directive_name_chars _ (model_dump_name _ _ _ Hin)) as [_ Hfeq].
    unfold config_line. cbn [fst snd].
    destruct (startswith (f +:+ "=" +:+ v) (D +:+ "=")) eqn:Hs; [| done].
    apply config_line_prefix in Hs as ->; [| done | done].
    pose proof (model_dump_functional _ _ _ _ HD Hin). discriminate.
Qed.

Lemma single_directive_lines (o : HardeningOverrides) (D V : string) :
  In (D, Some V) (model_dump o) ->
  (forall D' x, In (D', x) (model_dump o) -> D' <> D -> x = None) ->
  config_lines o = ["[Service]"; D +:+ "=" +:+ V].
Proof.
  destruct o as [x1 x2 x3 x4 x5 x6 x7 x8 x9 x10 x11 x12 x13].
  unfold config_lines, model_dump.
  cbn [NoNewPrivileges IPAddressDeny IPAddressAllow PrivateTmp
       ProtectKernelModules ProtectKernelTunables ProtectControlGroups
       RestrictRealtime LockPersonality ProtectHome ProtectSystem
       MemoryDenyWriteExecute RestrictSUIDSGID].
  intros HD Hothers. cbn [In] in HD.
  repeat (destruct HD as [HD | HD];
          [ injection HD as <- ->;
            repeat match goal with
              | x : option string |- _ =>
                  assert (x = None) as ->
                    by (eapply Hothers; [cbn [In]; eauto 20 | discriminate])
              end;
            reflexivity
          | ]).
  done.
Qed.

End PureFacts.

(* ===================================================================== *)
(** * The pattern of the analyzer *)
(* ===================================================================== *)

Section RegexFacts.

Import PyStr PyRe.

Context {R : Type}.

(** ** What a match is made of *)

Lemma search_sound (m : matcher R) (s : string) (r : R) :
  search m s = Some r -> exists pre s', s = pre +:+ s' /\ m s' = Some r.
Proof.
  induction s as [|c s IH]; cbn [search]; destruct (m _) as [r'|] eqn:Hm.
  - intros [= <-]. by exists "", "".
  - done.
  - intros [= <-]. by exists "", (String c s).
  - intros H. destruct (IH H) as (pre & s' & -> & Hs').
    by exists (String c pre), s'.
Qed.

Lemma lit_sound (l : string) (k : matcher R) (s : string) (r : R) :
  lit l k s = Some r -> exists s', s = l +:+ s' /\ k s' = Some r.
Proof.
  revert s. induction l as [|a l IH]; intros s; cbn [lit].
  - intros H. by exists s.
  - destruct s as [|b s]; [done |].
    destruct (Ascii.eqb a b) eqn:Hab; [| done].
    apply Ascii.eqb_eq in Hab as <-. intros H.
    destruct (IH _ H) as (s' & -> & Hk). by exists s'.
Qed.

Lemma lazy_star_sound (cls : ascii -> bool) (k : matcher R) (s : string)
  (r : R) :
  lazy_star cls k s = Some r ->
  exists mid s', s = mid +:+ s' /\ all_chars cls mid = true /\ k s' = Some r.
Proof.
  induction s as [|c s IH]; cbn [lazy_star]; destruct (k _) as [r'|] eqn:Hk.
  - intros [= <-]. by exists "", "".
  - done.
  - intros [= <-]. by exists "", (String c s).
  - destruct (cls c) eqn:Hc; [| done]. intros H.
    destruct (IH H) as (mid & s' & -> & Hmid & Hs').
    exists (String c mid), s'. cbn [all_chars]. by rewrite Hc, Hmid.
Qed.

Lemma greedy_plus_from_sound (cls : ascii -> bool) (k : string -> matcher R)
  (acc s : string) (r : R) :
  greedy_plus_from cls k acc s = Some r ->
  exists run s',
    s = run +:+ s' /\ run <> "" /\ all_chars cls run = true
    /\ k (acc +:+ run) s' = Some r.
Proof.
  revert acc. induction s as [|c s IH]; intros acc; cbn [greedy_plus_from];
    [done |].
  destruct (cls c) eqn:Hc; [| done].
  destruct (greedy_plus_from cls k (acc +:+ String c "") s) as [r'|] eqn:Hrec.
  - intros [= <-]. destruct (IH _ Hrec) as (run & s' & -> & _ & Hrun & Hk).
    exists (String c run), s'. cbn [all_chars]. rewrite Hc, Hrun.
    rewrite append_assoc in Hk. done.
  - intros Hk. exists (String c ""), s. cbn [all_chars]. by rewrite Hc.
Qed.

(** ** When a match is found *)

Lemma search_here (m : matcher R) (s : string) (r : R) :
  m s = Some r -> search m s = Some r.
Proof. intros H. destruct s; cbn [search]; by rewrite H. Qed.

Lemma lit_fails (l : string) (k : matcher R) (s : string) :
  startswith s l = false -> lit l k s = None.
Proof.
  revert s. induction l as [|a l IH]; intros s; cbn [lit startswith];
    [done |].
  destruct s as [|b s]; [done |].
  destruct (Ascii.eqb a b); cbn [andb]; [apply IH | done].
Qed.

Lemma lit_append (l : string) (k : matcher R) (s : string) :
  lit l k (l +:+ s) = k s.
Proof.
  induction l as [|a l IH]; [done |].
  rewrite append_cons. cbn [lit]. by rewrite Ascii.eqb_refl.
Qed.

(** A literal without [c] that starts before a [c] ends before it. *)
Lemma startswith_across (c : ascii) (a tail l : string) :
  has_char c l = false ->
  startswith (a +:+ String c tail) l = true -> startswith a l = true.
Proof.
  revert a. induction l as [|x l IH]; intros a Hl; [done |].
  cbn [has_char] in Hl. apply orb_false_iff in Hl as [Hx Hl].
  destruct a as [|y a].
  - rewrite append_nil. cbn [startswith]. rewrite Hx. done.
  - rewrite append_cons. cbn [startswith].
    intros H. apply andb_true_iff in H as [-> H]. by apply IH.
Qed.

Lemma contains_tail (x : string) (c : ascii) (s : string) :
  contains x (String c s) = false ->
  startswith (String c s) x = false /\ contains x s = false.
Proof. cbn [contains]. apply orb_false_iff. Qed.

(** A line that does not mention the literal is passed over. *)
Lemma search_skip_line (l : string) (k : matcher R) (line tail : string) :
  l <> "" -> has_char LF l = false -> contains l line = false ->
  search (lit l k) (line +:+ String LF tail) = search (lit l k) tail.
Proof.
  intros Hne HLF. induction line as [|c line IH]; intros Hc.
  - rewrite append_nil. cbn [search]. rewrite lit_fails; [done |].
    destruct l as [|x l]; [done |]. cbn [startswith].
    cbn [has_char] in HLF. apply orb_false_iff in HLF as [-> _]. done.
  - apply contains_tail in Hc as [Hhere Hlater].
    rewrite append_cons. cbn [search]. rewrite lit_fails; [by apply IH |].
    rewrite <- append_cons.
    destruct (startswith (String c line +:+ String LF tail) l) eqn:Hs; [| done].
    apply startswith_across in Hs; congruence.
Qed.

Lemma search_skip_lines (l : string) (k : matcher R) (before : list string)
  (tail : string) :
  l <> "" -> has_char LF l = false ->
  Forall (fun line => contains l line = false) before ->
  search (lit l k) (unlines before +:+ tail) = search (lit l k) tail.
Proof.
  intros Hne HLF. induction 1 as [|line before Hline _ IH]; [done |].
  cbn [unlines fold_right]. fold (unlines before).
  rewrite append_assoc, append_cons.
  rewrite search_skip_line by done. apply IH.
Qed.

(** The lazy star stops at the first colon after which the rest of the
    pattern matches; here, the first colon. *)
Lemma lazy_star_to_colon (k : matcher R) (mid s : string) (r : R) :
  all_chars any_char mid = true -> has_char ":"%char mid = false ->
  k s = Some r ->
  lazy_star any_char (lit ":" k) (mid +:+ String ":"%char s) = Some r.
Proof.
  intros Hany Hcolon Hk. induction mid as [|c mid IH].
  - rewrite append_nil. cbn [lazy_star lit]. by rewrite Ascii.eqb_refl, Hk.
  - cbn [all_chars] in Hany. apply andb_true_iff in Hany as [Hc Hany].
    cbn [has_char] in Hcolon. apply orb_false_iff in Hcolon as [Hne Hcolon].
    rewrite append_cons. cbn [lazy_star lit].
    rewrite Ascii.eqb_sym, Hne, Hc. by apply IH.
Qed.

Lemma greedy_plus_from_stops (cls : ascii -> bool) (k : string -> matcher R)
  (acc s : string) :
  stops cls s = true -> greedy_plus_from cls k acc s = None.
Proof.
  destruct s as [|c s]; cbn [stops greedy_plus_from]; [done |].
  by destruct (cls c).
Qed.

(** The greedy group takes the whole run when the rest of the pattern
    matches after it. *)
Lemma greedy_plus_from_run (cls : ascii -> bool) (k : string -> matcher R)
  (acc run tail : string) (r : R) :
  run <> "" -> all_chars cls run = true -> stops cls tail = true ->
  k (acc +:+ run) tail = Some r ->
  greedy_plus_from cls k acc (run +:+ tail) = Some r.
Proof.
  revert acc. induction run as [|c run IH]; intros acc Hne Hall Hstop Hk;
    [done |].
  cbn [all_chars] in Hall. apply andb_true_iff in Hall as [Hc Hall].
  rewrite append_cons. cbn [greedy_plus_from]. rewrite Hc.
  destruct run as [|d run].
  - rewrite append_nil, greedy_plus_from_stops by done. done.
  - rewrite (IH (acc +:+ String c "")); [done | done | done | done |].
    by rewrite append_assoc.
Qed.

Lemma greedy_plus_run (cls : ascii -> bool) (k : string -> matcher R)
  (run tail : string) (r : R) :
  run <> "" -> all_chars cls run = true -> stops cls tail = true ->
  k run tail = Some r ->
  greedy_plus cls k (run +:+ tail) = Some r.
Proof. intros. by apply greedy_plus_from_run. Qed.

End RegexFacts.

Section ExposurePattern.

Import PyStr PyRe.

Lemma space_stops_others (c : ascii) :
  space c = true -> digit_or_dot c = false /\ word c = false.
Proof. destruct c as [[] [] [] [] [] [] [] []]; by vm_compute. Qed.

Lemma digit_or_dot_stops_space (c : ascii) :
  digit_or_dot c = true -> space c = false.
Proof. destruct c as [[] [] [] [] [] [] [] []]; by vm_compute. Qed.

Lemma word_stops_space (c : ascii) : word c = true -> space c = false.
Proof. destruct c as [[] [] [] [] [] [] [] []]; by vm_compute. Qed.

(** A non-empty run of one class stops the class before it. *)
Lemma run_stops (cls cls' : ascii -> bool) (run tail : string) :
  (forall c, cls c = true -> cls' c = false) ->
  run <> "" -> all_chars cls run = true ->
  stops cls' (run +:+ tail) = true.
Proof.
  intros Hdisj Hne Hall. destruct run as [|c run]; [done |].
  cbn [all_chars] in Hall. apply andb_true_iff in Hall as [Hc _].
  rewrite append_cons. cbn [stops]. by rewrite (Hdisj c Hc).
Qed.

(** Groups 1 and 2 of a match are the number and the word that follow the
    literal, a colon on the same line, and blanks. *)
Lemma exposure_pattern_sound (text g1 g2 : string) :
  search exposure_pattern text = Some (g1, g2) ->
  exists pre mid ws1 ws2 rest,
    text = pre +:+ summary_text mid ws1 g1 ws2 g2 rest
    /\ well_formed_summary mid ws1 g1 ws2 g2.
Proof.
  unfold exposure_pattern, greedy_plus. intros H.
  apply search_sound in H as (pre & s0 & -> & H).
  apply lit_sound in H as (s1 & -> & H).
  apply lazy_star_sound in H as (mid & s2 & -> & Hmid & H).
  apply lit_sound in H as (s3 & -> & H).
  apply greedy_plus_from_sound in H as (ws1 & s4 & -> & ? & ? & H).
  apply greedy_plus_from_sound in H as (num & s5 & -> & ? & ? & H).
  apply greedy_plus_from_sound in H as (ws2 & s6 & -> & ? & ? & H).
  apply greedy_plus_from_sound in H as (level & rest & -> & ? & ? & H).
  rewrite !append_nil in H. injection H as <- <-.
  exists pre, mid, ws1, ws2, rest. by repeat split.
Qed.

(** The first summary line decides: lines before it that do not mention
    the literal are passed over, and nothing after it is looked at. *)
Lemma first_summary_is_matched
  (before : list string) (mid ws1 num ws2 level rest : string) :
  Forall (fun line => contains summary_literal line = false) before ->
  well_formed_summary mid ws1 num ws2 level ->
  has_char ":"%char mid = false ->
  stops word rest = true ->
  search exposure_pattern
    (unlines before +:+ summary_text mid ws1 num ws2 level rest)
  = Some (num, level).
Proof.
  intros Hbefore (Hmid & ? & Hws1 & ? & Hnum & ? & Hws2 & ? & Hlevel)
    Hcolon Hrest.
  unfold exposure_pattern.
  rewrite search_skip_lines by done.
  apply search_here. unfold summary_text, summary_literal.
  rewrite lit_append.
  change (":" +:+ ws1 +:+ num +:+ ws2 +:+ level +:+ rest)
    with (String ":"%char (ws1 +:+ num +:+ ws2 +:+ level +:+ rest)).
  apply lazy_star_to_colon; [done | done |].
  apply greedy_plus_run; [done | done | |].
  { apply run_stops with (cls := digit_or_dot); [| done | done].
    apply digit_or_dot_stops_space. }
  apply greedy_plus_run; [done | done | |].
  { apply run_stops with (cls := space); [| done | done].
    intros c Hc. by apply space_stops_others. }
  apply greedy_plus_run; [done | done | |].
  { apply run_stops with (cls := word); [| done | done].
    apply word_stops_space. }
  by apply greedy_plus_run.
Qed.

End ExposurePattern.

(* ===================================================================== *)
(** * Facts about the effects *)
(* ===================================================================== *)

Section EffectFacts.

Import Host Models.

(** A run is determined by its result and its final world. *)
Lemma run_result {A} (m : M A) (w : world) (o : outcome A) :
  fst (m w) = o -> m w = (o, snd (m w)).
Proof. intros <-. by destruct (m w). Qed.

Lemma read_only_refl (service_name : string) (w : world) :
  read_only service_name w w.
Proof. repeat split. by exists []. Qed.

Lemma read_only_trans (service_name : string) (w1 w2 w3 : world) :
  read_only service_name w1 w2 -> read_only service_name w2 w3 ->
  read_only service_name w1 w3.
Proof.
  intros (Hf & Hd & He & Hh & evs & Ht & Hq)
         (Hf' & Hd' & He' & Hh' & evs' & Ht' & Hq').
  repeat split; try congruence.
  exists (evs' ++ evs). split.
  - rewrite Ht', Ht. by rewrite app_assoc.
  - by apply Forall_app.
Qed.

Lemma read_only_log (service_name : string) (argv : list string) (w : world) :
  In argv (analysis_argv service_name) ->
  read_only service_name w (log (Run argv) w).
Proof.
  intros Hin. repeat split. exists [Run argv]. split; [done |].
  constructor; [by exists argv | constructor].
Qed.

Lemma analysis_query_not_mutating (service_name : string) (e : event) :
  analysis_query service_name e -> mutating e = false.
Proof.
  intros (argv & Hin & ->). cbn [analysis_argv In] in Hin.
  destruct Hin as [<- | [<- | [<- | []]]]; reflexivity.
Qed.

(** A command is logged, and nothing else changes. *)
Lemma subprocess_run_world (argv : list string) (check : bool)
  (timeout : option Q) (w : world) :
  snd (subprocess_run argv check timeout w) = log (Run argv) w.
Proof.
  unfold subprocess_run.
  destruct (host w (trace w) argv) as [|rc out secs]; [done |].
  destruct timeout as [t|]; repeat case_match; done.
Qed.

Lemma subprocess_run_not_found (argv : list string) (check : bool)
  (timeout : option Q) (w : world) :
  host w (trace w) argv = NotFound ->
  subprocess_run argv check timeout w
  = (Raise (FileNotFoundError (hd "" argv)), log (Run argv) w).
Proof. unfold subprocess_run. by intros ->. Qed.

Lemma subprocess_run_unchecked (argv : list string) (w : world)
  (rc : Z) (out : string) (secs : Q) :
  host w (trace w) argv = Completed rc out secs ->
  subprocess_run argv false None w
  = (Ok {| returncode := rc; stdout := out |}, log (Run argv) w).
Proof. unfold subprocess_run. by intros ->. Qed.

Lemma parse_exposure_world (text : string) (w : world) :
  snd (Analyzer.parse_exposure text w) = w.
Proof.
  unfold Analyzer.parse_exposure. repeat case_match; done.
Qed.

(** [analyze_service] never raises, and only runs its three queries. *)
Lemma analyze_service_total (service_name : string) (w : world) :
  exists r w',
    Analyzer.analyze_service service_name w = (Ok r, w')
    /\ read_only service_name w w'.
Proof.
  unfold Analyzer.analyze_service, try_except, bind.
  set (a1 := ["systemd-analyze"; "security"; service_name; "--no-pager"]).
  set (a2 := ["systemctl"; "is-active"; service_name]).
  set (a3 := ["systemctl"; "is-enabled"; service_name]).
  assert (In a1 (analysis_argv service_name)) as H1 by (left; done).
  assert (In a2 (analysis_argv service_name)) as H2 by (right; left; done).
  assert (In a3 (analysis_argv service_name)) as H3
    by (right; right; left; done).
  pose proof (subprocess_run_world a1 false None w) as E1.
  destruct (subprocess_run a1 false None w) as [[r1|e1] w1];
    cbn [snd] in E1; subst w1.
  2:{ eexists _, _. split; [reflexivity |]. by apply read_only_log. }
  pose proof (parse_exposure_world (stdout r1) (log (Run a1) w)) as Ep.
  destruct (Analyzer.parse_exposure (stdout r1) (log (Run a1) w))
    as [[x|ex] wp]; cbn [snd] in Ep; subst wp.
  2:{ eexists _, _. split; [reflexivity |]. by apply read_only_log. }
  pose proof (subprocess_run_world a2 false None (log (Run a1) w)) as E2.
  destruct (subprocess_run a2 false None (log (Run a1) w)) as [[r2|e2] w2];
    cbn [snd] in E2; subst w2.
  2:{ eexists _, _. split; [reflexivity |].
      eapply read_only_trans; by apply read_only_log. }
  pose proof (subprocess_run_world a3 false None
                (log (Run a2) (log (Run a1) w))) as E3.
  destruct (subprocess_run a3 false None (log (Run a2) (log (Run a1) w)))
    as [[r3|e3] w3]; cbn [snd] in E3; subst w3.
  2:{ eexists _, _. split; [reflexivity |].
      eapply read_only_trans; [| by apply read_only_log].
      eapply read_only_trans; by apply read_only_log. }
  eexists _, _. split; [reflexivity |].
  eapply read_only_trans; [| by apply read_only_log].
  eapply read_only_trans; by apply read_only_log.
Qed.

Ltac step_run :=
  match goal with
  | |- context [subprocess_run ?a ?c ?t ?w] =>
      let E := fresh "E" in
      let w1 := fresh "w" in
      pose proof (subprocess_run_world a c t w) as E;
      destruct (subprocess_run a c t w) as [[?|?] w1];
      cbn [snd] in E; subst w1; cbn iota beta
  end.

Lemma paths_differ (self : Hardening.HardeningEngine) (service_name : string) :
  Hardening.override_file self service_name
  <> Hardening.backup_path self service_name.
Proof.
  unfold Hardening.override_file, Hardening.backup_path, path_join.
  intros H. do 2 apply append_inv_head in H. discriminate.
Qed.

(** [rollback] never raises; it restores the backup it is given when that
    file exists, and removes the override otherwise. *)
Lemma rollback_effect (self : Hardening.HardeningEngine)
  (service_name : string) (backup_file : option string) (w : world) :
  exists w',
    Hardening.rollback self service_name backup_file w = (Ok tt, w')
    /\ same_machine w w' /\ dirs w' = dirs w
    /\ files w' = rolled_back_files self service_name backup_file (files w).
Proof.
  unfold Hardening.rollback, rolled_back_files, try_except, bind,
    path_exists, copy2, unlink, ret.
  set (ovr := Hardening.override_file self service_name).
  destruct backup_file as [b|]; cbn [mbind option_bind default from_option id].
  - destruct (files w !! b) as [c|] eqn:Hb; cbn iota beta;
      cbn [default from_option id]; rewrite ?Hb; cbn iota beta.
    + repeat step_run; eexists; (split; [reflexivity |]); by repeat split.
    + destruct (files w !! ovr) as [c|] eqn:Ho; cbn iota beta;
        rewrite ?Ho; cbn iota beta;
        repeat step_run; eexists; (split; [reflexivity |]);
        repeat split; cbn [files log set_files]; try done.
      all: by rewrite delete_id.
  - destruct (files w !! ovr) as [c|] eqn:Ho; cbn iota beta;
      rewrite ?Ho; cbn iota beta;
      repeat step_run; eexists; (split; [reflexivity |]);
      repeat split; cbn [files log set_files]; try done.
    all: by rewrite delete_id.
Qed.

Ltac step_rollback :=
  match goal with
  | |- context [Hardening.rollback ?s ?n ?b ?w] =>
      let wr := fresh "wr" in
      let Hr := fresh "Hr" in
      let Hm := fresh "Hm" in
      let Hd := fresh "Hd" in
      let Hf := fresh "Hf" in
      destruct (rollback_effect s n b w) as (wr & Hr & Hm & Hd & Hf);
      rewrite Hr; cbn iota beta
  end.

Ltac step_analyze :=
  match goal with
  | |- context [Analyzer.analyze_service ?n ?w] =>
      let ra := fresh "ra" in
      let wa := fresh "wa" in
      let Ha := fresh "Ha" in
      let Hro := fresh "Hro" in
      destruct (analyze_service_total n w) as (ra & wa & Ha & Hro);
      rewrite Ha; cbn iota beta
  end.

(** The mutation stage never raises.  It ends either in success, with the
    new override written over the saved files, or in failure after a
    rollback from that state. *)
Lemma apply_changes_outcome (self : Hardening.HardeningEngine)
  (service_name : string) (initial : ServiceAnalysis)
  (profile_name : string) (profile : HardeningProfile) (w : world) :
  let text := Hardening.override_text profile_name profile in
  let written := written_files self service_name text (files w) in
  exists r w',
    Hardening.apply_changes self service_name initial profile_name profile w
    = (Ok r, w')
    /\ same_machine w w'
    /\ Hardening.profile_applied r = Some profile_name
    /\ ((Hardening.success r = true
         /\ Hardening.rollback_performed r = false
         /\ Hardening.error r = None
         /\ files w' = written)
        \/ (Hardening.success r = false
            /\ Hardening.rollback_performed r = true
            /\ Hardening.error r <> None
            /\ files w'
               = rolled_back_files self service_name
                   (Some (Hardening.backup_path self service_name))
                   written)).
Proof.
  intros text written. subst written.
  unfold Hardening.apply_changes, written_files, saved_files, try_except,
    bind, path_exists, copy2, mkdir, write_text, ret.
  cbn zeta. fold text.
  set (ovr := Hardening.override_file self service_name).
  set (bak := Hardening.backup_path self service_name).
  assert (forall w1 w2 : world,
            same_machine w w1 -> same_machine w1 w2 -> same_machine w w2)
    as Htrans by (intros ? ? [? ?] [? ?]; split; congruence).
  destruct (files w !! ovr) as [c|] eqn:Ho; cbn iota beta;
    rewrite ?Ho; cbn iota beta.
  all: step_run;
    [ destruct (is_active initial);
      [ step_run;
        [ step_run;
          [ destruct (negb _); [step_rollback | step_analyze]
          | step_rollback ]
        | step_rollback ]
      | step_analyze ]
    | step_rollback ].
  all: eexists _, _; (split; [reflexivity |]).
  all: cbn [Hardening.success Hardening.rollback_performed Hardening.error
            Hardening.profile_applied].
  all: try (destruct Hro as (Hrf & _ & Hre & Hrh & _)).
  all: try (destruct Hm as [Hme Hmh]).
  all: split; [split; cbn [euid host log set_files set_dirs] in *; congruence |].
  all: split; [done |].
  all: first [ left; repeat split; by rewrite ?Hrf
             | right; repeat split; [done | by rewrite Hf] ].
Qed.

(** A call that stops early only ran analysis queries, and returns the
    result of its stage. *)
Lemma apply_hardening_early (self : Hardening.HardeningEngine)
  (service_name : string) (profile_name : option string) (dry_run : bool)
  (w : world) (stop : early_stop) :
  stops_before_mutation self service_name profile_name dry_run w = Some stop ->
  exists r w',
    Hardening.apply_hardening self service_name profile_name dry_run w
    = (Ok r, w')
    /\ read_only service_name w w'
    /\ early_result stop r.
Proof.
  unfold stops_before_mutation, Hardening.apply_hardening.
  destruct (Hardening.is_excluded self service_name).
  { intros [= <-]. eexists _, _. split; [reflexivity |].
    split; [apply read_only_refl | by repeat split]. }
  unfold bind.
  destruct (analyze_service_total service_name w) as (ia & w1 & Ha & Hro).
  rewrite Ha. cbn [fst].
  destruct ia as [initial|].
  2:{ intros [= <-]. eexists _, _. split; [reflexivity |].
      split; [done | by repeat split]. }
  cbn zeta.
  destruct (profiles (Hardening.profiles self)
              !! Hardening.resolve_profile self service_name profile_name)
    as [profile|].
  2:{ intros [= <-]. eexists _, _. split; [reflexivity |].
      split; [done | by repeat split]. }
  destruct dry_run; [| done].
  intros [= <-]. eexists _, _. split; [reflexivity |].
  split; [done | by repeat split].
Qed.

(** A call that reaches the mutation runs [apply_changes] after the
    baseline analysis. *)
Lemma apply_hardening_mutation (self : Hardening.HardeningEngine)
  (service_name : string) (profile_name : option string) (dry_run : bool)
  (w : world) :
  stops_before_mutation self service_name profile_name dry_run w = None ->
  exists initial w1 profile,
    Analyzer.analyze_service service_name w = (Ok (Some initial), w1)
    /\ read_only service_name w w1
    /\ profiles (Hardening.profiles self)
         !! Hardening.resolve_profile self service_name profile_name
       = Some profile
    /\ dry_run = false
    /\ Hardening.apply_hardening self service_name profile_name dry_run w
       = Hardening.apply_changes self service_name initial
           (Hardening.resolve_profile self service_name profile_name)
           profile w1.
Proof.
  unfold stops_before_mutation, Hardening.apply_hardening.
  destruct (Hardening.is_excluded self service_name); [done |].
  unfold bind.
  destruct (analyze_service_total service_name w) as (ia & w1 & Ha & Hro).
  rewrite Ha. cbn [fst].
  destruct ia as [initial|]; [| done]. cbn zeta.
  destruct (profiles (Hardening.profiles self)
              !! Hardening.resolve_profile self service_name profile_name)
    as [profile|]; [| done].
  destruct dry_run; [done |]. intros _.
  by exists initial, w1, profile.
Qed.

(** [apply_hardening] never raises.  Either it stops early, or it ends as
    the mutation stage does. *)
Lemma apply_hardening_outcome (self : Hardening.HardeningEngine)
  (service_name : string) (profile_name : option string) (dry_run : bool)
  (w : world) :
  let resolved :=
    Hardening.resolve_profile self service_name profile_name in
  exists r w',
    Hardening.apply_hardening self service_name profile_name dry_run w
    = (Ok r, w')
    /\ same_machine w w'
    /\ match stops_before_mutation self service_name profile_name dry_run w
       with
       | Some stop => read_only service_name w w' /\ early_result stop r
       | None =>
           exists profile,
             profiles (Hardening.profiles self) !! resolved = Some profile
             /\ let written :=
                  written_files self service_name
                    (Hardening.override_text resolved profile) (files w) in
                (Hardening.success r = true
                 /\ Hardening.rollback_performed r = false
                 /\ Hardening.error r = None
                 /\ files w' = written)
                \/ (Hardening.success r = false
                    /\ Hardening.rollback_performed r = true
                    /\ Hardening.error r <> None
                    /\ files w'
                       = rolled_back_files self service_name
                           (Some (Hardening.backup_path self service_name))
                           written)
       end.
Proof.
  intros resolved.
  destruct (stops_before_mutation self service_name profile_name dry_run w)
    as [stop|] eqn:Hstop.
  - destruct (apply_hardening_early _ _ _ _ _ _ Hstop)
      as (r & w' & Heq & Hro & Hres).
    exists r, w'. split; [done |]. split; [| done].
    destruct Hro as (_ & _ & ? & ? & _). by split.
  - destruct (apply_hardening_mutation _ _ _ _ _ Hstop)
      as (initial & w1 & profile & Ha & Hro & Hp & _ & Heq).
    destruct (apply_changes_outcome self service_name initial resolved
                profile w1) as (r & w' & Hc & [He Hh] & _ & Hcases).
    destruct Hro as (Hf & _ & He1 & Hh1 & _).
    exists r, w'. split; [by rewrite Heq |].
    split; [split; congruence |].
    exists profile. split; [done |]. rewrite <- Hf. exact Hcases.
Qed.

End EffectFacts.

(* ===================================================================== *)
(** * Filtering and sorting by score *)
(* ===================================================================== *)

Section SortingFacts.

Import PyFloat Host Models.

Lemma ge_not_nan (x y : pyfloat) : ge x y = true -> x <> NaN /\ y <> NaN.
Proof. by destruct x, y. Qed.

Lemma lt_false_ge (x y : pyfloat) :
  x <> NaN -> y <> NaN -> lt x y = false -> ge x y = true.
Proof.
  destruct x as [a| | |], y as [b| | |]; cbn [lt ge]; try done.
  intros _ _ H. by apply negb_false_iff in H.
Qed.

Lemma lt_true_ge (x y : pyfloat) : lt x y = true -> ge y x = true.
Proof.
  destruct x as [a| | |], y as [b| | |]; cbn [lt ge]; try done.
  intros H. apply negb_true_iff in H.
  apply Qle_bool_iff. apply Qlt_le_weak, Qnot_le_lt.
  intros Hle. apply Qle_bool_iff in Hle. congruence.
Qed.

Lemma ge_trans (x y z : pyfloat) :
  ge x y = true -> ge y z = true -> ge x z = true.
Proof.
  destruct x as [a| | |], y as [b| | |], z as [c| | |]; cbn [ge]; try done.
  rewrite !Qle_bool_iff. intros Hba Hcb. by apply Qle_trans with b.
Qed.

Context {A : Type} (key : A -> pyfloat).

Lemma insert_desc_perm (x : A) (l : list A) :
  Permutation (insert_desc key x l) (x :: l).
Proof.
  induction l as [|y l IH]; cbn [insert_desc]; [done |].
  destruct (lt (key x) (key y)); [| done].
  rewrite IH. apply perm_swap.
Qed.

Lemma sorted_reverse_perm (l : list A) : Permutation (sorted_reverse key l) l.
Proof.
  induction l as [|x l IH]; cbn [sorted_reverse fold_right]; [done |].
  fold (sorted_reverse key l). rewrite insert_desc_perm. by constructor.
Qed.

Lemma insert_desc_sorted (x : A) (l : list A) :
  key x <> NaN -> List.Forall (fun y => key y <> NaN) l ->
  StronglySorted (fun a b => ge (key a) (key b) = true) l ->
  StronglySorted (fun a b => ge (key a) (key b) = true) (insert_desc key x l).
Proof.
  intros Hx Hl Hs. induction Hs as [|y l Hs IH Hy]; cbn [insert_desc].
  - repeat constructor.
  - inversion Hl as [|? ? Hyn Hl']; subst.
    destruct (lt (key x) (key y)) eqn:Hlt.
    + constructor; [by apply IH |].
      apply List.Forall_forall. intros z Hz.
      apply (Permutation_in _ (insert_desc_perm x l)) in Hz as [<- | Hz].
      * by apply lt_true_ge.
      * rewrite List.Forall_forall in Hy. by apply Hy.
    + assert (ge (key x) (key y) = true) as Hxy by (by apply lt_false_ge).
      constructor; [by constructor |].
      constructor; [done |].
      apply List.Forall_forall. intros z Hz.
      rewrite List.Forall_forall in Hy. by apply ge_trans with (key y), Hy.
Qed.

Lemma sorted_reverse_sorted (l : list A) :
  List.Forall (fun y => key y <> NaN) l ->
  StronglySorted (fun a b => ge (key a) (key b) = true) (sorted_reverse key l).
Proof.
  induction 1 as [|x l Hx Hl IH]; cbn [sorted_reverse fold_right];
    [constructor |].
  fold (sorted_reverse key l). apply insert_desc_sorted; [done | | done].
  apply List.Forall_forall. intros y Hy.
  apply (Permutation_in _ (sorted_reverse_perm l)) in Hy.
  rewrite List.Forall_forall in Hl. by apply Hl.
Qed.

End SortingFacts.

Section HighExposureFacts.

Import PyFloat Host Models.

Lemma kept_sort_key (threshold : pyfloat) (a : ServiceAnalysis) :
  kept threshold a = true ->
  exists score,
    exposure_score a = Some score /\ Analyzer.sort_key a = score
    /\ truthy score = true /\ ge score threshold = true.
Proof.
  unfold kept, Analyzer.sort_key.
  destruct (exposure_score a) as [score|]; [| done].
  intros H. apply andb_true_iff in H as [Ht Hg]. exists score. by rewrite Ht.
Qed.

(** The loop keeps, in order, the analyses that are there and pass the
    test. *)
Lemma collect_high_exposure_spec (services : list string)
  (threshold : pyfloat) (acc : list ServiceAnalysis) (w : world) :
  exists analyses w',
    analyze_all services w = (Ok analyses, w')
    /\ Analyzer.collect_high_exposure services threshold acc w
       = (Ok (acc ++ List.filter (kept threshold) (present analyses)), w').
Proof.
  revert acc w. induction services as [|service rest IH]; intros acc w.
  - exists [], w. split; [done |]. cbn. by rewrite app_nil_r.
  - cbn [analyze_all Analyzer.collect_high_exposure]. unfold bind at 1 3.
    destruct (analyze_service_total service w) as (a & w1 & Ha & _).
    rewrite Ha. unfold bind at 1.
    destruct a as [a|].
    + cbn [Analyzer.is_high_exposure]. fold (kept threshold a).
      destruct (kept threshold a) eqn:Hk.
      * destruct (IH (acc ++ [a]) w1) as (analyses & w' & Hall & Hcol).
        exists (Some a :: analyses), w'. rewrite Hall, Hcol.
        split; [done |]. cbn [present List.filter]. rewrite Hk.
        by rewrite <- app_assoc.
      * destruct (IH acc w1) as (analyses & w' & Hall & Hcol).
        exists (Some a :: analyses), w'. rewrite Hall, Hcol.
        split; [done |]. cbn [present List.filter]. by rewrite Hk.
    + destruct (IH acc w1) as (analyses & w' & Hall & Hcol).
      exists (None :: analyses), w'. rewrite Hall, Hcol. done.
Qed.

(** What [get_high_exposure_services] returns, when listing the services
    does not raise: the analyses that are there, whose score is not zero and
    is at least the threshold, by decreasing score. *)
Lemma get_high_exposure_services_spec (threshold : pyfloat) (w w1 : world)
  (services : list string) :
  Analyzer.get_all_services w = (Ok services, w1) ->
  exists analyses w' result,
    analyze_all services w1 = (Ok analyses, w')
    /\ Analyzer.get_high_exposure_services threshold w = (Ok result, w')
    /\ (forall a, In a result
                  <-> In a (present analyses) /\ kept threshold a = true)
    /\ StronglySorted score_ge result.
Proof.
  intros Hlist. unfold Analyzer.get_high_exposure_services, bind.
  rewrite Hlist.
  destruct (collect_high_exposure_spec services threshold [] w1)
    as (analyses & w' & Hall & Hcol).
  rewrite Hcol. cbn [app].
  set (high := List.filter (kept threshold) (present analyses)).
  exists analyses, w', (sorted_reverse Analyzer.sort_key high).
  split; [done |]. split; [done |].
  assert (forall a, In a (sorted_reverse Analyzer.sort_key high)
                    <-> In a high) as Hin.
  { intros a. split; apply Permutation_in;
      [| symmetry]; apply sorted_reverse_perm. }
  split.
  - intros a. rewrite Hin. apply filter_In.
  - assert (List.Forall (fun a => Analyzer.sort_key a <> NaN) high) as Hnn.
    { apply List.Forall_forall. intros a Ha. apply filter_In in Ha as [_ Hk].
      apply kept_sort_key in Hk as (score & _ & -> & _ & Hg).
      by apply ge_not_nan in Hg as [? _]. }
    pose proof (sorted_reverse_sorted Analyzer.sort_key high Hnn) as Hs.
    assert (forall l, (forall a, In a l -> kept threshold a = true) ->
              StronglySorted
                (fun a b => ge (Analyzer.sort_key a) (Analyzer.sort_key b) = true) l ->
              StronglySorted score_ge l) as Hconv.
    { intros l Hl. induction 1 as [|x l Hsl IH Hx]; constructor.
      - apply IH. intros a Ha. apply Hl. by right.
      - apply List.Forall_forall. intros y Hy.
        rewrite List.Forall_forall in Hx. specialize (Hx y Hy).
        destruct (kept_sort_key threshold x) as (sx & Hsx & Hkx & _);
          [apply Hl; by left |].
        destruct (kept_sort_key threshold y) as (sy & Hsy & Hky & _);
          [apply Hl; by right |].
        unfold score_ge. rewrite Hsx, Hsy. by rewrite Hkx, Hky in Hx. }
    apply Hconv; [| done].
    intros a Ha. apply Hin in Ha. by apply filter_In in Ha as [_ ?].
Qed.

End HighExposureFacts.

(* ===================================================================== *)
(** * More on exclusions, rendering and explanations *)
(* ===================================================================== *)

Section MorePureFacts.

Import PyStr Models Hardening.

Lemma config_line_injective (f f' v v' : string) :
  has_char "="%char f = false -> has_char "="%char f' = false ->
  config_line (f, v) = config_line (f', v') -> f = f' /\ v = v'.
Proof.
  unfold config_line. cbn [fst snd]. intros Hf Hf' Heq.
  assert (f = f') as <-.
  { apply (config_line_prefix f f' v'); [done | done |].
    rewrite <- Heq. apply startswith_spec. exists v.
    by rewrite append_assoc. }
  split; [done |]. by do 2 apply append_inv_head in Heq.
Qed.

Lemma rendered_item_name (o : HardeningOverrides) (f v : string) :
  In (f, v) (exclude_none (model_dump o)) ->
  has_char "="%char f = false.
Proof.
  intros Hin. apply exclude_none_spec, model_dump_name in Hin.
  by apply directive_name_chars in Hin as [_ ?].
Qed.

(** The overrides can be read back from the items rendered. *)
Lemma exclude_none_injective (o1 o2 : HardeningOverrides) :
  exclude_none (model_dump o1) = exclude_none (model_dump o2) -> o1 = o2.
Proof.
  intros Heq.
  assert (forall f x1 x2,
            In (f, x1) (model_dump o1) -> In (f, x2) (model_dump o2) ->
            x1 = x2) as Hfield.
  { intros f x1 x2 H1 H2.
    destruct x1 as [v1|], x2 as [v2|]; [| | | done].
    - apply exclude_none_spec in H1. rewrite Heq in H1.
      apply exclude_none_spec in H1.
      by apply (model_dump_functional o2 f).
    - apply exclude_none_spec in H1. rewrite Heq in H1.
      apply exclude_none_spec in H1.
      by apply (model_dump_functional o2 f).
    - apply exclude_none_spec in H2. rewrite <- Heq in H2.
      apply exclude_none_spec in H2.
      by apply (model_dump_functional o1 f). }
  destruct o1, o2.
  f_equal;
    match goal with
    | |- ?a = ?b =>
        eapply Hfield; unfold model_dump; cbn [In];
        cbn [NoNewPrivileges IPAddressDeny IPAddressAllow PrivateTmp
             ProtectKernelModules ProtectKernelTunables ProtectControlGroups
             RestrictRealtime LockPersonality ProtectHome ProtectSystem
             MemoryDenyWriteExecute RestrictSUIDSGID];
        eauto 20
    end.
Qed.

Lemma map_config_line_injective (l1 l2 : list (string * string)) :
  (forall f v, In (f, v) l1 -> has_char "="%char f = false) ->
  (forall f v, In (f, v) l2 -> has_char "="%char f = false) ->
  map config_line l1 = map config_line l2 -> l1 = l2.
Proof.
  revert l2. induction l1 as [|[f v] l1 IH]; intros [|[f' v'] l2] H1 H2 Heq;
    cbn [map] in Heq; try done.
  injection Heq as Hhd Htl.
  apply config_line_injective in Hhd as [-> ->].
  - f_equal. apply IH; [| | done].
    + intros f v0 Hin. apply (H1 f v0). by right.
    + intros f v0 Hin. apply (H2 f v0). by right.
  - apply (H1 f v). by left.
  - apply (H2 f' v'). by left.
Qed.



(** Every directive has an entry in the table of explanations, which is not
    the fallback text. *)
Lemma explanations_table_complete (D : string) :
  In D directive_names ->
  exists text, DIRECTIVE_EXPLANATIONS !! D = Some text
               /\ text <> no_explanation.
Proof.
  assert (forallb
            (fun D => match DIRECTIVE_EXPLANATIONS !! D with
                      | Some text => negb (String.eqb text no_explanation)
                      | None => false
                      end) directive_names = true) as Hall
    by (vm_compute; reflexivity).
  intros Hin. eapply forallb_forall in Hall; [| exact Hin].
  destruct (DIRECTIVE_EXPLANATIONS !! D) as [text|]; [| done].
  exists text. split; [done |].
  apply negb_true_iff in Hall. by apply String.eqb_neq.
Qed.

End MorePureFacts.

(* ===================================================================== *)
(** * More on the effects *)
(* ===================================================================== *)

Section MoreEffectFacts.

Import Host Models.

Lemma quiet_refl (w : world) : quiet w w.
Proof. repeat split. by exists []. Qed.

Lemma quiet_trans (w1 w2 w3 : world) :
  quiet w1 w2 -> quiet w2 w3 -> quiet w1 w3.
Proof.
  intros (Hf & Hd & He & Hh & evs & Ht & Hq)
         (Hf' & Hd' & He' & Hh' & evs' & Ht' & Hq').
  repeat split; try congruence.
  exists (evs' ++ evs). split.
  - rewrite Ht', Ht. by rewrite app_assoc.
  - by apply List.Forall_app.
Qed.

Lemma read_only_quiet (service_name : string) (w w' : world) :
  read_only service_name w w' -> quiet w w'.
Proof.
  intros (Hf & Hd & He & Hh & evs & Ht & Hq). repeat split; try done.
  exists evs. split; [done |].
  eapply List.Forall_impl; [| exact Hq].
  intros e. apply analysis_query_not_mutating.
Qed.

Lemma quiet_log (argv : list string) (w : world) :
  mutating (Run argv) = false -> quiet w (log (Run argv) w).
Proof.
  intros Hm. repeat split. exists [Run argv]. split; [done |].
  by repeat constructor.
Qed.

(** Listing the units starts one command, and changes nothing. *)
Lemma get_all_services_world (w : world) :
  snd (Analyzer.get_all_services w)
  = log (Run Analyzer.list_units_argv) w.
Proof.
  unfold Analyzer.get_all_services, try_except, bind.
  pose proof (subprocess_run_world Analyzer.list_units_argv true None w) as E.
  destruct (subprocess_run Analyzer.list_units_argv true None w)
    as [[r|e] w1]; cbn [snd] in E; subst w1; [done |].
  by destruct e.
Qed.

Lemma get_all_services_quiet (w w' : world) (o : outcome (list string)) :
  Analyzer.get_all_services w = (o, w') -> quiet w w'.
Proof.
  intros Heq. pose proof (get_all_services_world w) as Hw.
  rewrite Heq in Hw. cbn [snd] in Hw. subst w'. by apply quiet_log.
Qed.

Lemma analyze_service_quiet (service_name : string) (w : world) :
  exists r w',
    Analyzer.analyze_service service_name w = (Ok r, w') /\ quiet w w'.
Proof.
  destruct (analyze_service_total service_name w) as (r & w' & Heq & Hro).
  exists r, w'. split; [done |]. by eapply read_only_quiet.
Qed.

Lemma analyze_each_quiet (names : list string) (w : world) :
  exists analyses w',
    Main.analyze_each names w = (Ok analyses, w')
    /\ analyze_all names w = (Ok analyses, w')
    /\ quiet w w'.
Proof.
  revert w. induction names as [|s rest IH]; intros w.
  - exists [], w. split; [done |]. split; [done | apply quiet_refl].
  - cbn [Main.analyze_each analyze_all]. unfold bind.
    destruct (analyze_service_quiet s w) as (a & w1 & Ha & Hq1).
    rewrite Ha. destruct (IH w1) as (analyses & w' & He & Hall & Hq2).
    rewrite He, Hall. exists (a :: analyses), w'.
    split; [done |]. split; [done |]. by eapply quiet_trans.
Qed.

Lemma analyze_all_quiet (names : list string) (w w' : world)
  (analyses : list (option ServiceAnalysis)) :
  analyze_all names w = (Ok analyses, w') -> quiet w w'.
Proof.
  intros Heq. destruct (analyze_each_quiet names w) as (a & w1 & _ & Hall & Hq).
  rewrite Heq in Hall. by injection Hall as <- <-.
Qed.

Lemma get_high_exposure_services_quiet (threshold : PyFloat.pyfloat)
  (w w' : world) (o : outcome (list ServiceAnalysis)) :
  Analyzer.get_high_exposure_services threshold w = (o, w') -> quiet w w'.
Proof.
  unfold Analyzer.get_high_exposure_services, bind.
  destruct (Analyzer.get_all_services w) as [[services|e] w1] eqn:Hl.
  2:{ intros [= <- <-]. by eapply get_all_services_quiet. }
  apply get_all_services_quiet in Hl.
  destruct (collect_high_exposure_spec services threshold [] w1)
    as (analyses & w2 & Hall & Hcol).
  rewrite Hcol. intros [= <- <-].
  eapply quiet_trans; [exact Hl |]. by eapply analyze_all_quiet.
Qed.

(** A dry run always stops before the mutation. *)
Lemma dry_run_stops (self : Hardening.HardeningEngine)
  (service_name : string) (profile_name : option string) (w : world) :
  exists stop,
    stops_before_mutation self service_name profile_name true w = Some stop.
Proof.
  unfold stops_before_mutation. repeat case_match; eauto.
Qed.

Lemma dry_run_quiet (self : Hardening.HardeningEngine)
  (service_name : string) (profile_name : option string) (w : world) :
  exists r w',
    Hardening.apply_hardening self service_name profile_name true w
    = (Ok r, w')
    /\ quiet w w'.
Proof.
  destruct (dry_run_stops self service_name profile_name w) as (stop & Hs).
  destruct (apply_hardening_early _ _ _ _ _ _ Hs) as (r & w' & Heq & Hro & _).
  exists r, w'. split; [done |]. by eapply read_only_quiet.
Qed.

Lemma harden_batch_dry_run_quiet (engine : Hardening.HardeningEngine)
  (services : list ServiceAnalysis) (w : world) :
  exists w', Main.harden_batch engine services true w = (Ok tt, w')
             /\ quiet w w'.
Proof.
  revert w. induction services as [|svc rest IH]; intros w;
    cbn [Main.harden_batch].
  - exists w. split; [done | apply quiet_refl].
  - destruct (Hardening.is_excluded engine (name svc)); [apply IH |].
    unfold bind.
    destruct (dry_run_quiet engine (name svc) None w) as (r & w1 & Heq & Hq).
    rewrite Heq. destruct (IH w1) as (w' & Hb & Hq').
    exists w'. split; [done |]. by eapply quiet_trans.
Qed.

(** ** Histories *)

Lemma reloaded_true (evs : list event) : reloaded true evs = true.
Proof.
  induction evs as [|e evs IH]; cbn [reloaded]; [done |].
  by repeat case_match.
Qed.

Lemma reloaded_app (later : bool) (evs evs' : list event) :
  reloaded later (evs ++ evs')
  = reloaded later evs && reloaded (later || existsb is_reload evs) evs'.
Proof.
  revert later. induction evs as [|e evs IH]; intros later.
  - cbn. by rewrite orb_false_r.
  - cbn [app reloaded existsb]. destruct (is_reload e).
    + rewrite IH. cbn [orb]. by rewrite orb_true_r, !reloaded_true.
    + cbn [orb]. destruct (changes_a_file e); rewrite IH; [| done].
      by rewrite andb_assoc.
Qed.

Lemma reloaded_no_change (later : bool) (evs : list event) :
  List.Forall (fun e => changes_a_file e = false) evs ->
  reloaded later evs = true.
Proof.
  intros Hall. revert later.
  induction Hall as [|e evs He _ IH]; intros later; cbn [reloaded]; [done |].
  rewrite He. by destruct (is_reload e).
Qed.

Lemma analysis_query_plain (service_name : string) (e : event) :
  analysis_query service_name e ->
  changes_a_file e = false /\ is_restart e = false /\ is_reload e = false.
Proof.
  intros (argv & Hin & ->). cbn [analysis_argv In] in Hin.
  destruct Hin as [<- | [<- | [<- | []]]]; by repeat split.
Qed.

(** The events logged between two worlds, when the later history is written
    out over the earlier one. *)
Ltac events_over l t :=
  lazymatch l with
  | t => constr:(@nil event)
  | ?e :: ?l' => let p := events_over l' t in constr:(e :: p)
  | ?a ++ ?l' => let p := events_over l' t in constr:(a ++ p)
  end.

Ltac step_run_eq :=
  match goal with
  | |- context [subprocess_run ?a ?c ?t ?w] =>
      let E := fresh "E" in
      let R := fresh "R" in
      let w1 := fresh "w" in
      pose proof (subprocess_run_world a c t w) as E;
      destruct (subprocess_run a c t w) as [[?|?] w1] eqn:R;
      cbn [snd] in E; subst w1; cbn iota beta
  end.

(** The end of a path of [rollback]: [change] is what it did to the
    override file, [restart] the event of the restart. *)
Ltac rollback_path change restart :=
  repeat step_run_eq; eexists _, change, _;
  (split; [reflexivity |]); cbn [trace log set_files app];
  first [ split; [by instantiate (1 := []) |]
        | split; [by instantiate (1 := [restart]) |] ];
  split; eauto.

(** The history of [rollback]: at most one change of the override file,
    then a reload, then a restart when the reload went well. *)
Lemma rollback_history (self : Hardening.HardeningEngine)
  (service_name : string) (backup_file : option string) (w : world) :
  exists w' change restart,
    Hardening.rollback self service_name backup_file w = (Ok tt, w')
    /\ trace w'
       = restart ++ [Run ["systemctl"; "daemon-reload"]] ++ change ++ trace w
    /\ (restart = [] \/ restart = [Run ["systemctl"; "restart"; service_name]])
    /\ (change = []
        \/ (exists b, backup_file = Some b
                      /\ change
                         = [Copy b (Hardening.override_file self service_name)])
        \/ change = [Unlink (Hardening.override_file self service_name)]).
Proof.
  unfold Hardening.rollback, try_except, bind, path_exists, copy2, unlink, ret.
  set (ovr := Hardening.override_file self service_name).
  set (restart := Run ["systemctl"; "restart"; service_name]).
  destruct backup_file as [b|]; cbn [default from_option id].
  - destruct (files w !! b) as [c|] eqn:Hb; cbn iota beta;
      cbn [default from_option id]; rewrite ?Hb; cbn iota beta.
    + rollback_path [Copy b ovr] restart.
    + destruct (files w !! ovr) as [c|] eqn:Ho; cbn iota beta;
        rewrite ?Ho; cbn iota beta.
      * rollback_path [Unlink ovr] restart.
      * rollback_path (@nil event) restart.
  - destruct (files w !! ovr) as [c|] eqn:Ho; cbn iota beta;
      rewrite ?Ho; cbn iota beta.
    + rollback_path [Unlink ovr] restart.
    + rollback_path (@nil event) restart.
Qed.

(** In the history of [rollback] the change of the override file is
    followed by a reload. *)
Lemma rollback_reloads (self : Hardening.HardeningEngine)
  (service_name : string) (backup_file : option string) (w : world) :
  exists w' evs,
    Hardening.rollback self service_name backup_file w = (Ok tt, w')
    /\ trace w' = evs ++ trace w
    /\ reloaded false evs = true
    /\ existsb is_reload evs = true.
Proof.
  destruct (rollback_history self service_name backup_file w)
    as (w' & change & restart & Heq & Ht & Hr & Hc).
  exists w', (restart ++ [Run ["systemctl"; "daemon-reload"]] ++ change).
  split; [done |]. split; [by rewrite Ht, <- !app_assoc |].
  destruct Hr as [-> | ->];
    destruct Hc as [-> | [(b & _ & ->) | ->]]; by split.
Qed.

Lemma analysis_queries_reloaded (service_name : string) (later : bool)
  (evs : list event) :
  List.Forall (analysis_query service_name) evs -> reloaded later evs = true.
Proof.
  intros Hq. apply reloaded_no_change.
  eapply List.Forall_impl; [| exact Hq].
  intros e He. by destruct (analysis_query_plain _ _ He).
Qed.

Lemma analysis_queries_no_restart (service_name : string) (evs : list event) :
  List.Forall (analysis_query service_name) evs ->
  List.Forall (fun e => is_restart e = false) evs.
Proof.
  apply List.Forall_impl. intros e He.
  by destruct (analysis_query_plain _ _ He) as (_ & ? & _).
Qed.

(** The history of the mutation stage: what it logs, that every change of a
    file is followed by a reload, the directory it makes, and that a service
    that did not run is not restarted when the stage succeeds. *)
Lemma apply_changes_history (self : Hardening.HardeningEngine)
  (service_name : string) (initial : ServiceAnalysis)
  (profile_name : string) (profile : HardeningProfile) (w : world) :
  exists r w' evs,
    Hardening.apply_changes self service_name initial profile_name profile w
    = (Ok r, w')
    /\ trace w' = evs ++ trace w
    /\ reloaded false evs = true
    /\ dirs w' = {[Hardening.override_dir self service_name]} ∪ dirs w
    /\ Hardening.service_name r = service_name
    /\ Hardening.previous_score r = exposure_score initial
    /\ (is_active initial = false -> Hardening.success r = true ->
        List.Forall (fun e => is_restart e = false) evs).
Proof.
  unfold Hardening.apply_changes, try_except, bind, path_exists, copy2,
    mkdir, write_text, ret.
  cbn zeta.
  set (text := Hardening.override_text profile_name profile).
  set (ovr := Hardening.override_file self service_name).
  set (bak := Hardening.backup_path self service_name).
  set (odir := Hardening.override_dir self service_name).
  destruct (files w !! ovr) as [c|] eqn:Ho; cbn iota beta;
    rewrite ?Ho; cbn iota beta.
  all: step_run_eq;
    [ destruct (is_active initial);
      [ step_run_eq;
        [ step_run_eq;
          [ destruct (negb _) | ]
        | ]
      | ]
    | ].
  all: match goal with
       | |- context [Hardening.rollback ?s ?n ?b ?w0] =>
           let wr := fresh "wr" in
           destruct (rollback_reloads s n b w0)
             as (wr & evr & Hr & Ht & Hrel & Hex);
           destruct (rollback_effect s n b w0) as (wr' & Hr' & _ & Hd & _);
           rewrite Hr in Hr'; injection Hr' as <-;
           rewrite Hr; cbn iota beta
       | |- context [Analyzer.analyze_service ?n ?w0] =>
           destruct (analyze_service_total n w0)
             as (ra & wa & Ha & _ & Hd & _ & _ & evr & Ht & Hq);
           rewrite Ha; cbn iota beta
       end.
  all: match goal with
       | Ht : trace ?wf = ?a ++ trace ?w3 |- _ =>
           let l := eval cbn [trace log set_files set_dirs] in (trace w3) in
           let p := events_over l (trace w) in
           eexists _, _, (a ++ p); (split; [reflexivity |]);
           (split; [rewrite Ht; cbn [trace log set_files set_dirs];
                    by rewrite <- app_assoc |])
       end.
  all: split;
    [ rewrite reloaded_app; apply andb_true_intro; split;
      [ first [ exact Hrel | by eapply analysis_queries_reloaded ]
      | generalize (false || existsb is_reload evr); by intros [|] ]
    |].
  all: split; [by rewrite Hd |].
  all: split; [done |]. all: split; [done |].
  all: cbn [Hardening.success]; try done.
  all: intros _ _; apply List.Forall_app; split;
    [ by eapply analysis_queries_no_restart | by repeat constructor ].
Qed.

End MoreEffectFacts.

(* ===================================================================== *)
(** * More on the analyzer *)
(* ===================================================================== *)

Section MoreAnalyzerFacts.

Import Host Models PyFloat.

Lemma digit_value_nonneg (c : ascii) :
  is_digit c = true -> (0 <= digit_value c)%Z.
Proof.
  unfold is_digit, PyStr.in_range, digit_value. intros H.
  apply andb_true_iff in H as [H _]. apply N.leb_le in H. lia.
Qed.

Lemma scan_decimal_nonneg (s : string) (m : Z) (dot : bool)
  (frac digits : nat) (r : Z) (f : nat) :
  (0 <= m)%Z -> scan_decimal s m dot frac digits = Some (r, f) -> (0 <= r)%Z.
Proof.
  revert m dot frac digits.
  induction s as [|c s IH]; intros m dot frac digits Hm; cbn [scan_decimal].
  - destruct digits; [done |]. by intros [= <- _].
  - destruct (is_digit c) eqn:Hd.
    + apply IH. apply digit_value_nonneg in Hd. lia.
    + destruct (Ascii.eqb c "."); [| done].
      destruct dot; [done |]. by apply IH.
Qed.

(** Rounding gives no negative number, and no NaN. *)
Lemma round_binary64_nonneg (n d : Z) :
  (0 <= n)%Z -> (0 < d)%Z -> ge (round_binary64 n d) zero = true.
Proof.
  intros Hn Hd. unfold round_binary64.
  destruct (n =? 0)%Z; [done |]. cbn zeta.
  set (k := (Z.log2 n - Z.log2 d)%Z).
  set (fl := if (if (0 <=? k)%Z then (d * 2 ^ k <=? n)%Z
                 else (d <=? n * 2 ^ (- k))%Z) then k else (k - 1)%Z).
  set (e := Z.max (fl - 52) (-1074)).
  set (num := if (0 <=? e)%Z then n else (n * 2 ^ (- e))%Z).
  set (den := if (0 <=? e)%Z then (d * 2 ^ e)%Z else d).
  set (m := (num / den)%Z). set (r := (num mod den)%Z).
  set (m' := if (2 * r <? den)%Z then m
             else if (den <? 2 * r)%Z then (m + 1)%Z
             else if Z.even m then m else (m + 1)%Z).
  assert (0 <= num)%Z as Hnum.
  { subst num. destruct (0 <=? e)%Z; [done |].
    apply Z.mul_nonneg_nonneg; [done |]. apply Z.pow_nonneg. lia. }
  assert (0 < den)%Z as Hden.
  { subst den. destruct (0 <=? e)%Z eqn:He; [| done].
    apply Z.leb_le in He. apply Z.mul_pos_pos; [done |].
    apply Z.pow_pos_nonneg; lia. }
  assert (0 <= m)%Z as Hm by (subst m; apply Z.div_pos; lia).
  assert (0 <= m')%Z as Hm'.
  { subst m'. repeat case_match; lia. }
  destruct (0 <=? e)%Z eqn:He.
  - destruct (2 ^ 1024 <=? m' * 2 ^ e)%Z; [done |].
    cbn [ge zero]. apply Qle_bool_iff. unfold Qle, inject_Z. cbn.
    apply Z.leb_le in He.
    assert (0 <= m' * 2 ^ e)%Z
      by (apply Z.mul_nonneg_nonneg; [done | apply Z.pow_nonneg; lia]).
    lia.
  - cbn [ge zero]. apply Qle_bool_iff. rewrite Qred_correct.
    unfold Qle. cbn. lia.
Qed.

(** [float] of digits and dots gives no negative number, and no NaN. *)
Lemma float_of_string_nonneg (s : string) (x : pyfloat) :
  float_of_string s = Some x -> ge x zero = true.
Proof.
  unfold float_of_string.
  destruct (scan_decimal s 0 false 0 0) as [[m frac]|] eqn:Hs; [| done].
  intros [= <-]. apply round_binary64_nonneg.
  - by eapply scan_decimal_nonneg; [| exact Hs].
  - apply Z.pow_pos_nonneg; lia.
Qed.

(** What an analysis holds. *)
Lemma analyze_service_result (service_name : string) (w w' : world)
  (a : ServiceAnalysis) :
  Analyzer.analyze_service service_name w = (Ok (Some a), w') ->
  name a = service_name /\ suggested_profile a = None
  /\ match exposure_score a, exposure_level a with
     | Some x, Some level =>
         ge x zero = true /\ level <> ""
         /\ all_chars PyRe.word level = true
     | None, None => True
     | _, _ => False
     end.
Proof.
  unfold Analyzer.analyze_service, try_except, bind.
  destruct (subprocess_run _ false None w) as [[r1|e1] w1]; [| done].
  unfold Analyzer.parse_exposure.
  destruct (PyRe.search PyRe.exposure_pattern (stdout r1))
    as [[g1 g2]|] eqn:Hs.
  - destruct (float_of_string g1) as [x|] eqn:Hx; [| done].
    unfold ret at 1.
    destruct (subprocess_run _ false None w1) as [[r2|e2] w2]; [| done].
    destruct (subprocess_run _ false None w2) as [[r3|e3] w3]; [| done].
    intros [= <- _]. cbn. repeat split; try done.
    + by eapply float_of_string_nonneg.
    + apply exposure_pattern_sound in Hs
        as (? & ? & ? & ? & ? & _ & Hw). apply Hw.
    + apply exposure_pattern_sound in Hs
        as (? & ? & ? & ? & ? & _ & Hw). apply Hw.
  - unfold ret at 1.
    destruct (subprocess_run _ false None w1) as [[r2|e2] w2]; [| done].
    destruct (subprocess_run _ false None w2) as [[r3|e3] w3]; [| done].
    by intros [= <- _].
Qed.

(** The analyses that are there are those of services of the list. *)
Lemma analyze_all_names (services : list string) (w w' : world)
  (analyses : list (option ServiceAnalysis)) :
  analyze_all services w = (Ok analyses, w') ->
  List.Forall (fun a => In (name a) services) (present analyses).
Proof.
  revert w w' analyses.
  induction services as [|s rest IH]; intros w w' analyses;
    cbn [analyze_all]; unfold bind.
  - intros [= <- _]. constructor.
  - destruct (Analyzer.analyze_service s w) as [[a|e] w1] eqn:Ha; [| done].
    destruct (analyze_all rest w1) as [[l|e] w2] eqn:Hl; [| done].
    intros [= <- _]. specialize (IH _ _ _ Hl).
    assert (List.Forall (fun a => In (name a) (s :: rest)) (present l)) as Hr.
    { eapply List.Forall_impl; [| exact IH]. intros ? ?. by right. }
    destruct a as [a|]; cbn [present]; [| done].
    constructor; [| done]. left.
    by destruct (analyze_service_result _ _ _ _ Ha) as [-> _].
Qed.

(** ** The sort is stable *)

Lemma lt_not_ge (x y : pyfloat) : lt x y = true -> ge x y = false.
Proof.
  destruct x as [a| | |], y as [b| | |]; cbn [lt ge]; try done.
  intros H. by apply negb_true_iff in H.
Qed.

(** Inserting an analysis puts it before those that sort with it. *)
Lemma insert_desc_tied (k : pyfloat) (x : ServiceAnalysis)
  (l : list ServiceAnalysis) :
  List.filter (tied k) (insert_desc Analyzer.sort_key x l)
  = List.filter (tied k) (x :: l).
Proof.
  induction l as [|y l IH]; [done |]. cbn [insert_desc].
  destruct (lt (Analyzer.sort_key x) (Analyzer.sort_key y)) eqn:Hlt; [| done].
  cbn [List.filter] in *. rewrite IH.
  destruct (tied k x) eqn:Hx; [| done].
  destruct (tied k y) eqn:Hy; [| done].
  apply andb_true_iff in Hx as [Hx _]. apply andb_true_iff in Hy as [_ Hy].
  apply lt_not_ge in Hlt. by rewrite (ge_trans _ _ _ Hx Hy) in Hlt.
Qed.

(** Among the analyses that sort with the same key, sorting keeps the
    order. *)
Lemma sorted_reverse_tied (k : pyfloat) (l : list ServiceAnalysis) :
  List.filter (tied k) (sorted_reverse Analyzer.sort_key l)
  = List.filter (tied k) l.
Proof.
  induction l as [|x l IH]; [done |].
  cbn [sorted_reverse fold_right]. fold (sorted_reverse Analyzer.sort_key l).
  rewrite insert_desc_tied. cbn [List.filter]. by rewrite IH.
Qed.

End MoreAnalyzerFacts.

(* ===================================================================== *)
(** * More on the hardening *)
(* ===================================================================== *)

Section MoreHardeningFacts.

Import Host Models.

Lemma baseline_analysis (service_name : string) (w w1 : world)
  (analysis : option ServiceAnalysis) :
  Analyzer.analyze_service service_name w = (Ok analysis, w1) ->
  baseline service_name w = analysis.
Proof. unfold baseline. by intros ->. Qed.

(** The history of a call of [apply_hardening]. *)
Lemma apply_hardening_history (self : Hardening.HardeningEngine)
  (service_name : string) (profile_name : option string) (dry_run : bool)
  (w : world) :
  exists r w' evs,
    Hardening.apply_hardening self service_name profile_name dry_run w
    = (Ok r, w')
    /\ trace w' = evs ++ trace w
    /\ reloaded false evs = true
    /\ (dirs w' = dirs w
        \/ dirs w' = {[Hardening.override_dir self service_name]} ∪ dirs w)
    /\ Hardening.service_name r = service_name
    /\ (forall initial,
          baseline service_name w = Some initial ->
          is_active initial = false -> Hardening.success r = true ->
          List.Forall (fun e => is_restart e = false) evs).
Proof.
  unfold Hardening.apply_hardening.
  destruct (Hardening.is_excluded self service_name).
  { eexists _, w, []. split; [reflexivity |]. split; [done |].
    split; [done |]. split; [by left |]. split; [done |].
    intros _ _ _ _. constructor. }
  unfold bind.
  destruct (analyze_service_total service_name w)
    as (ia & w1 & Ha & _ & Hd & _ & _ & evs & Ht & Hq).
  rewrite Ha. pose proof (baseline_analysis _ _ _ _ Ha) as Hb.
  assert (forall r : Hardening.HardeningResult,
            Hardening.service_name r = service_name ->
            exists r' w' evs',
              (Ok r, w1) = (Ok r', w')
              /\ trace w' = evs' ++ trace w
              /\ reloaded false evs' = true
              /\ (dirs w' = dirs w
                  \/ dirs w'
                     = {[Hardening.override_dir self service_name]} ∪ dirs w)
              /\ Hardening.service_name r' = service_name
              /\ (forall initial,
                    baseline service_name w = Some initial ->
                    is_active initial = false ->
                    Hardening.success r' = true ->
                    List.Forall (fun e => is_restart e = false) evs'))
    as Hearly.
  { intros r Hr. exists r, w1, evs. split; [done |]. split; [done |].
    split; [by eapply analysis_queries_reloaded |].
    split; [by left |]. split; [done |].
    intros _ _ _ _. by eapply analysis_queries_no_restart. }
  destruct ia as [initial|]; [| by apply Hearly]. cbn zeta.
  destruct (profiles (Hardening.profiles self)
              !! Hardening.resolve_profile self service_name profile_name)
    as [profile|]; [| by apply Hearly].
  destruct dry_run; [by apply Hearly |].
  destruct (apply_changes_history self service_name initial
              (Hardening.resolve_profile self service_name profile_name)
              profile w1)
    as (r & w' & evs' & Heq & Ht' & Hrel & Hd' & Hn & _ & Hnr).
  exists r, w', (evs' ++ evs). split; [done |].
  split; [by rewrite Ht', Ht, app_assoc |].
  split.
  { rewrite reloaded_app, Hrel. by eapply analysis_queries_reloaded. }
  split; [right; by rewrite Hd', Hd |]. split; [done |].
  intros initial' Hb' Hact Hs. rewrite Hb in Hb'. injection Hb' as <-.
  apply List.Forall_app. split; [by apply Hnr |].
  by eapply analysis_queries_no_restart.
Qed.

(** Every file but the override and its backup is as it was, in each of the
    states of the files that [apply_hardening] can leave. *)
Lemma written_files_frame (self : Hardening.HardeningEngine)
  (service_name text : string) (fs : gmap string string) :
  other_files_kept self service_name fs
    (written_files self service_name text fs).
Proof.
  intros path Ho Hb. unfold written_files, saved_files.
  rewrite lookup_insert_ne by done.
  destruct (fs !! Hardening.override_file self service_name); [| done].
  by rewrite lookup_insert_ne.
Qed.

Lemma rolled_back_files_frame (self : Hardening.HardeningEngine)
  (service_name : string) (backup_file : option string)
  (fs : gmap string string) :
  forall path,
    path <> Hardening.override_file self service_name ->
    rolled_back_files self service_name backup_file fs !! path = fs !! path.
Proof.
  intros path Ho. unfold rolled_back_files.
  destruct (backup_file ≫= _).
  - by rewrite lookup_insert_ne.
  - by rewrite lookup_delete_ne.
Qed.

(** The files after a rollback from the state that the mutation wrote. *)
Lemma rolled_back_written_files (self : Hardening.HardeningEngine)
  (service_name text : string) (fs : gmap string string) :
  let ovr := Hardening.override_file self service_name in
  let bak := Hardening.backup_path self service_name in
  rolled_back_files self service_name (Some bak)
    (written_files self service_name text fs)
  = match fs !! ovr with
    | Some content => <[bak := content]> fs
    | None =>
        match fs !! bak with
        | Some stale => <[ovr := stale]> fs
        | None => fs
        end
    end.
Proof.
  intros ovr bak. unfold rolled_back_files, written_files, saved_files.
  fold ovr bak. cbn [mbind option_bind].
  pose proof (paths_differ self service_name) as Hne. fold ovr bak in Hne.
  rewrite lookup_insert_ne by done.
  destruct (fs !! ovr) as [c|] eqn:Ho.
  - rewrite lookup_insert_eq. rewrite insert_insert_eq.
    rewrite insert_insert_ne by done.
    rewrite (insert_id fs ovr c) by done. done.
  - destruct (fs !! bak) as [stale|] eqn:Hb.
    + by rewrite insert_insert_eq.
    + by rewrite delete_insert_id.
Qed.


(** ** The paths of two services *)

Lemma string_to_list_app (a b : string) :
  list_ascii_of_string (a +:+ b)
  = list_ascii_of_string a ++ list_ascii_of_string b.
Proof.
  induction a as [|c a IH]; rewrite ?append_cons, ?append_nil; [done |].
  cbn [list_ascii_of_string app]. by rewrite IH.
Qed.

Lemma string_to_list_inj (a b : string) :
  list_ascii_of_string a = list_ascii_of_string b -> a = b.
Proof.
  intros H. rewrite <- (string_of_list_ascii_of_string a),
    <- (string_of_list_ascii_of_string b). by rewrite H.
Qed.

Lemma override_dir_injective (self : Hardening.HardeningEngine)
  (s t : string) :
  Hardening.override_dir self s = Hardening.override_dir self t -> s = t.
Proof.
  unfold Hardening.override_dir, path_join. intros H.
  do 2 apply append_inv_head in H.
  apply (f_equal list_ascii_of_string) in H.
  rewrite !string_to_list_app in H. apply app_inv_tail in H.
  by apply string_to_list_inj.
Qed.

(** Two services share neither their override nor their backup. *)
Lemma override_paths_apart (self : Hardening.HardeningEngine) (s t : string) :
  s <> t ->
  Hardening.override_file self s <> Hardening.override_file self t
  /\ Hardening.override_file self s <> Hardening.backup_path self t
  /\ Hardening.backup_path self s <> Hardening.override_file self t
  /\ Hardening.backup_path self s <> Hardening.backup_path self t.
Proof.
  intros Hne.
  assert (forall name,
            Hardening.override_dir self s +:+ name
            = Hardening.override_dir self t +:+ name -> False) as Hsame.
  { intros name H. apply Hne, (override_dir_injective self).
    apply (f_equal list_ascii_of_string) in H.
    rewrite !string_to_list_app in H. apply app_inv_tail in H.
    by apply string_to_list_inj. }
  assert (forall a b : string,
            a +:+ "/override.conf" = b +:+ "/override.conf.backup" -> False)
    as Hcross.
  { intros a b H. apply (f_equal list_ascii_of_string) in H.
    rewrite !string_to_list_app in H. apply (f_equal (@rev ascii)) in H.
    rewrite !rev_app_distr in H. cbn in H. discriminate H. }
  unfold Hardening.override_file, Hardening.backup_path, path_join.
  repeat split; intros H.
  - by apply (Hsame "/override.conf").
  - by apply (Hcross _ _ H).
  - symmetry in H. by apply (Hcross _ _ H).
  - by apply (Hsame "/override.conf.backup").
Qed.

(** [apply_hardening] changes no file but the override and the backup of
    its service, and makes no directory but the override directory. *)
Lemma apply_hardening_frame (self : Hardening.HardeningEngine)
  (service_name : string) (profile_name : option string) (dry_run : bool)
  (w : world) :
  exists r w',
    Hardening.apply_hardening self service_name profile_name dry_run w
    = (Ok r, w')
    /\ other_files_kept self service_name (files w) (files w')
    /\ (dirs w' = dirs w
        \/ dirs w' = {[Hardening.override_dir self service_name]} ∪ dirs w).
Proof.
  destruct (apply_hardening_history self service_name profile_name dry_run w)
    as (r & w' & evs & Heq & _ & _ & Hd & _).
  exists r, w'. split; [done |]. split; [| done].
  destruct (apply_hardening_outcome self service_name profile_name dry_run w)
    as (r' & w'' & Heq' & _ & Hcases).
  rewrite Heq in Heq'. injection Heq' as <- <-.
  destruct (stops_before_mutation self service_name profile_name dry_run w).
  - destruct Hcases as [(Hf & _) _]. intros path _ _. by rewrite Hf.
  - destruct Hcases as (profile & _ & [(_ & _ & _ & ->) | (_ & _ & _ & ->)]).
    + apply written_files_frame.
    + intros path Ho Hb. rewrite rolled_back_files_frame by done.
      by apply written_files_frame.
Qed.

Ltac simpl_run :=
  cbn beta iota zeta;
  cbn [host trace log set_files set_dirs app andb negb stdout].

(** The mutation succeeds exactly when the checks pass, and rolls back
    otherwise. *)
Lemma apply_changes_success (self : Hardening.HardeningEngine)
  (service_name : string) (initial : ServiceAnalysis)
  (profile_name : string) (profile : HardeningProfile) (w : world) :
  exists r w',
    Hardening.apply_changes self service_name initial profile_name profile w
    = (Ok r, w')
    /\ Hardening.success r
       = checks_pass self service_name initial
           (Hardening.override_text profile_name profile) w
    /\ Hardening.rollback_performed r = negb (Hardening.success r).
Proof.
  unfold Hardening.apply_changes, checks_pass, try_except, bind, path_exists,
    copy2, mkdir, write_text, ret, subprocess_run, exits_well, says_active.
  cbn zeta.
  destruct (files w !! Hardening.override_file self service_name) as [c|]
    eqn:Ho; cbn iota beta; rewrite ?Ho; simpl_run.
  all: destruct (host w _ ["systemctl"; "daemon-reload"]) as [|rc1 out1 secs1];
    simpl_run; [| destruct (rc1 =? 0)%Z; simpl_run].
  all: try
    (destruct (is_active initial); simpl_run;
     [ destruct (host w _ ["systemctl"; "restart"; service_name])
         as [|rc2 out2 secs2]; simpl_run;
       [| destruct (Qle_bool secs2 10); simpl_run;
          [ destruct (rc2 =? 0)%Z; simpl_run;
            [ destruct (host w _ ["systemctl"; "is-active"; service_name])
                as [|rc3 out3 secs3]; simpl_run;
              [| destruct (String.eqb (PyStr.strip out3) "active");
                 simpl_run ]
            |]
          | rewrite ?andb_false_r ] ]
     |]).
  all: match goal with
       | |- context [Hardening.rollback ?s ?n ?b ?w0] =>
           destruct (rollback_effect s n b w0) as (wr & Hr & _);
           rewrite Hr; cbn iota beta
       | |- context [Analyzer.analyze_service ?n ?w0] =>
           destruct (analyze_service_total n w0) as (ra & wa & Ha & _);
           rewrite Ha; cbn iota beta
       end.
  all: by eexists _, _.
Qed.

End MoreHardeningFacts.

(* ===================================================================== *)
(** * Exclusion matching *)
(* ===================================================================== *)

(** C6, as the code has it: [is_excluded] reports a match exactly when some
    exclusion pattern either ends in a star and the service name starts with
    what precedes that star, or is equal to the service name -- whether or
    not the pattern contains a star. *)
Theorem is_excluded_iff_pattern_match
  (self : Hardening.HardeningEngine) (service_name : string) :
  Hardening.is_excluded self service_name = true
  <-> exists pattern,
        In pattern (Models.excluded_services (Hardening.exclusions self))
        /\ pattern_match pattern service_name.
Proof. apply is_excluded_in_spec. Qed.

(** C6 as stated fails: the pattern [a*b] contains a star and does not end
    in one, so the claim lets it match nothing; [is_excluded] matches the
    service named [a*b] with it. *)
Lemma star_inside_pattern_matches_its_own_name :
  Hardening.is_excluded (engine_excluding ["a*b"]) "a*b" = true
  /\ ~ claimed_match "a*b" "a*b".
Proof.
  split; [reflexivity |].
  intros [(pre & Hpat & _) | [Hstar _]].
  - assert (PyStr.endswith "a*b" "*" = true) as H
      by (apply endswith_spec; by exists pre).
    vm_compute in H. discriminate.
  - vm_compute in Hstar. discriminate.
Qed.

(* ===================================================================== *)
(** * Profile resolution *)
(* ===================================================================== *)

(** C4, as the code has it: an explicitly given, non-empty profile name is
    used as it is; when no profile is given (or the empty name is), the entry
    of the service-mapping table is used if there is one; otherwise the
    profile of the first rule that applies among network/wpa/dhcp, then
    docker/libvirt/virtual, then dbus/gdm/login, in that order; otherwise
    [system_service]. *)
Theorem profile_resolution_order
  (self : Hardening.HardeningEngine) (service_name : string) :
  (forall given, given <> "" ->
     Hardening.resolve_profile self service_name (Some given) = given)
  /\ (forall profile_name, profile_name = None \/ profile_name = Some "" ->
        match Models.service_mappings (Hardening.profiles self) !! service_name with
        | Some mapped =>
            Hardening.resolve_profile self service_name profile_name = mapped
        | None =>
            first_rule service_name heuristic_rules
              (Hardening.resolve_profile self service_name profile_name)
        end).
Proof.
  split.
  - intros [|c given] Hne; [done | reflexivity].
  - intros profile_name Hnone.
    assert (Hardening.resolve_profile self service_name profile_name
            = Hardening.get_profile_for_service self service_name) as ->
      by (destruct Hnone as [-> | ->]; reflexivity).
    destruct (Models.service_mappings (Hardening.profiles self) !! service_name)
      as [mapped|] eqn:Hmap.
    + unfold Hardening.get_profile_for_service. by rewrite Hmap.
    + by apply heuristics_first_rule.
Qed.

Lemma profile_resolution_order_witness :
  Hardening.resolve_profile plain_engine "docker.service" (Some "strict")
  = "strict"
  /\ first_rule "docker.service" heuristic_rules
       (Hardening.resolve_profile plain_engine "docker.service" None).
Proof.
  split.
  - apply (proj1 (profile_resolution_order plain_engine "docker.service")).
    discriminate.
  - apply (proj2 (profile_resolution_order plain_engine "docker.service") None).
    by left.
Defined.

(** C4 as stated fails: the empty profile name, given explicitly, is not
    used; the engine falls back to the profile it detects. *)
Lemma empty_profile_name_is_not_used :
  Hardening.resolve_profile plain_engine "foo.service" (Some "")
  = "system_service".
Proof. reflexivity. Qed.

(* ===================================================================== *)
(** * Rendering *)
(* ===================================================================== *)

(** C8, as the code has it: when no value that is set holds a line feed, the
    rendered configuration has no line starting with [D=] for a directive
    [D] that is absent (so none rendered as empty or null), and when
    directive [D] is set to [V] and all others are absent its lines are
    [[Service]] and [D=V], the latter exactly once. *)
Theorem rendering_omits_absent_directives (o : Models.HardeningOverrides) :
  single_line_values o ->
  let lines := rendered_lines (Models.to_systemd_config o) in
  (forall D line,
     In (D, None) (Models.model_dump o) -> In line lines ->
     ~ is_prefix (D +:+ "=") line)
  /\ (forall D V,
        In (D, Some V) (Models.model_dump o) ->
        (forall D' x, In (D', x) (Models.model_dump o) -> D' <> D -> x = None) ->
        lines = ["[Service]"; D +:+ "=" +:+ V]
        /\ count_occ string_dec lines (D +:+ "=" +:+ V) = 1).
Proof.
  intros Hv lines. subst lines. rewrite rendered_lines_config by done. split.
  - intros D line HD Hline Hprefix. apply startswith_spec in Hprefix.
    by rewrite (unset_directive_no_line o D line) in Hprefix.
  - intros D V HD Hothers.
    rewrite (single_directive_lines o D V) by done. split; [done |].
    cbn [count_occ].
    destruct (string_dec "[Service]" (D +:+ "=" +:+ V)) as [Heq | _].
    + assert (PyStr.startswith "[Service]" (D +:+ "=" +:+ V) = true) as Hs
        by (rewrite <- Heq; apply startswith_spec; by exists "").
      change (D +:+ "=" +:+ V) with (D +:+ String "="%char V) in Hs.
      rewrite startswith_missing_char in Hs by reflexivity. discriminate.
    + by destruct (string_dec (D +:+ "=" +:+ V) (D +:+ "=" +:+ V)).
Qed.

Lemma rendering_omits_absent_directives_witness :
  rendered_lines (Models.to_systemd_config (only_no_new_privileges "yes"))
  = ["[Service]"; "NoNewPrivileges=yes"]
  /\ ~ is_prefix "PrivateTmp=" "NoNewPrivileges=yes".
Proof.
  assert (single_line_values (only_no_new_privileges "yes")) as Hv
    by (repeat constructor).
  pose proof (rendering_omits_absent_directives _ Hv) as [Habsent Hone].
  split.
  - apply (Hone "NoNewPrivileges" "yes").
    + by left.
    + intros D' x Hin Hne. cbn in Hin.
      repeat (destruct Hin as [Hin | Hin]; [by simplify_eq |]). done.
  - apply (Habsent "PrivateTmp" "NoNewPrivileges=yes").
    + cbn. tauto.
    + right. by left.
Defined.

(** C8 as stated fails: a value that holds a line feed is rendered over two
    lines, none of which is [D=V], and the second one reads as a line of a
    directive that is absent. *)
Lemma value_with_line_feed_breaks_rendering :
  let o := only_no_new_privileges two_line_value in
  let lines := rendered_lines (Models.to_systemd_config o) in
  Models.PrivateTmp o = None
  /\ lines = ["[Service]"; "NoNewPrivileges=yes"; "PrivateTmp=no"]
  /\ count_occ string_dec lines ("NoNewPrivileges=" +:+ two_line_value) = 0.
Proof. by vm_compute. Qed.

(* ===================================================================== *)
(** * Calls that stop before the mutation *)
(* ===================================================================== *)

(** C7: a call to [apply_hardening] that stops before the mutation step --
    the service is excluded, the baseline analysis failed, the resolved
    profile is unknown, or the run is dry -- returns without raising, leaves
    files and directories as they were, and started nothing but the queries
    of the analysis (no copy, no write, no mkdir, no reload, no restart);
    the first three cases return success=false with their error message,
    the dry run with a known profile returns success=true. *)
Theorem early_stop_changes_nothing
  (self : Hardening.HardeningEngine) (service_name : string)
  (profile_name : option string) (dry_run : bool) (w : Host.world)
  (stop : early_stop) :
  stops_before_mutation self service_name profile_name dry_run w = Some stop ->
  exists r w' evs,
    Hardening.apply_hardening self service_name profile_name dry_run w
    = (Host.Ok r, w')
    /\ Host.files w' = Host.files w
    /\ Host.dirs w' = Host.dirs w
    /\ Host.trace w' = evs ++ Host.trace w
    /\ Forall (fun e => analysis_query service_name e /\ mutating e = false) evs
    /\ early_result stop r.
Proof.
  intros Hstop.
  destruct (apply_hardening_early _ _ _ _ _ _ Hstop)
    as (r & w' & Heq & (Hf & Hd & _ & _ & evs & Ht & Hq) & Hres).
  exists r, w', evs. do 4 (split; [done |]). split; [| done].
  eapply List.Forall_impl; [| exact Hq].
  intros e He. split; [done | by eapply analysis_query_not_mutating].
Qed.

Lemma early_stop_changes_nothing_witness :
  (exists r w',
     Hardening.apply_hardening (engine_excluding ["sshd.service"])
       "sshd.service" None false (boot ∅ 0 sturdy_host) = (Host.Ok r, w')
     /\ Hardening.success r = false
     /\ Host.files w' = ∅)
  /\ (exists r w',
        Hardening.apply_hardening plain_engine "foo.service" (Some "strict")
          true (boot ∅ 0 sturdy_host) = (Host.Ok r, w')
        /\ Hardening.success r = true
        /\ Host.files w' = ∅).
Proof.
  split.
  - destruct (early_stop_changes_nothing (engine_excluding ["sshd.service"])
                "sshd.service" None false (boot ∅ 0 sturdy_host) StopExcluded
                eq_refl)
      as (r & w' & evs & Heq & Hf & _ & _ & _ & _ & Hs & _).
    by exists r, w'.
  - assert (stops_before_mutation plain_engine "foo.service" (Some "strict")
              true (boot ∅ 0 sturdy_host) = Some (StopDryRun "strict")) as Hstop
      by (by vm_compute).
    destruct (early_stop_changes_nothing plain_engine "foo.service"
                (Some "strict") true (boot ∅ 0 sturdy_host)
                (StopDryRun "strict") Hstop)
      as (r & w' & evs & Heq & Hf & _ & _ & _ & _ & Hs & _).
    by exists r, w'.
Defined.

(* ===================================================================== *)
(** * Applying a profile twice *)
(* ===================================================================== *)

Lemma no_dry_stop_without_dry_run (self : Hardening.HardeningEngine)
  (service_name : string) (profile_name : option string) (w : Host.world)
  (resolved : string) :
  stops_before_mutation self service_name profile_name false w
  <> Some (StopDryRun resolved).
Proof.
  unfold stops_before_mutation. repeat case_match; congruence.
Qed.

(** A successful call that is not a dry run has written the override over
    the saved files. *)
Lemma successful_apply_files (self : Hardening.HardeningEngine)
  (service_name : string) (profile_name : option string) (w w' : Host.world)
  (r : Hardening.HardeningResult) :
  Hardening.apply_hardening self service_name profile_name false w
  = (Host.Ok r, w') ->
  Hardening.success r = true ->
  exists profile,
    Models.profiles (Hardening.profiles self)
      !! Hardening.resolve_profile self service_name profile_name
    = Some profile
    /\ Host.files w'
       = written_files self service_name
           (Hardening.override_text
              (Hardening.resolve_profile self service_name profile_name)
              profile)
           (Host.files w).
Proof.
  intros Heq Hsucc.
  destruct (apply_hardening_outcome self service_name profile_name false w)
    as (r0 & w0 & Heq0 & _ & Hcases).
  rewrite Heq in Heq0. injection Heq0 as <- <-.
  destruct (stops_before_mutation self service_name profile_name false w)
    as [stop|] eqn:Hstop.
  - destruct Hcases as [_ [_ Hres]].
    destruct stop; try (destruct Hres; congruence).
    by apply no_dry_stop_without_dry_run in Hstop.
  - destruct Hcases as (profile & Hp & [(_ & _ & _ & Hf) | (Hs & _)]);
      [by exists profile | congruence].
Qed.

(** C9: applying the same profile twice in succession, both calls
    succeeding, writes the same override text both times -- the header and
    the rendering of the profile, in which no directive stands twice --;
    the second call copies the override of the first to the backup and
    overwrites it, and touches no other file. *)
Theorem reapplying_a_profile_writes_the_same_override
  (self : Hardening.HardeningEngine) (service_name : string)
  (profile_name : option string) (w0 w1 w2 : Host.world)
  (r1 r2 : Hardening.HardeningResult) :
  Hardening.apply_hardening self service_name profile_name false w0
  = (Host.Ok r1, w1) ->
  Hardening.success r1 = true ->
  Hardening.apply_hardening self service_name profile_name false w1
  = (Host.Ok r2, w2) ->
  Hardening.success r2 = true ->
  exists profile,
    Models.profiles (Hardening.profiles self)
      !! Hardening.resolve_profile self service_name profile_name
    = Some profile
    /\ let text :=
         Hardening.override_text
           (Hardening.resolve_profile self service_name profile_name)
           profile in
       let override_file := Hardening.override_file self service_name in
       let backup_file := Hardening.backup_path self service_name in
       Host.files w1 !! override_file = Some text
       /\ Host.files w2 !! override_file = Some text
       /\ Host.files w2 !! backup_file = Some text
       /\ (forall path, path <> override_file -> path <> backup_file ->
             Host.files w2 !! path = Host.files w1 !! path)
       /\ NoDup (map fst (Models.exclude_none
                            (Models.model_dump (Models.overrides profile)))).
Proof.
  intros H1 Hs1 H2 Hs2.
  destruct (successful_apply_files _ _ _ _ _ _ H1 Hs1) as (profile & Hp & Hf1).
  destruct (successful_apply_files _ _ _ _ _ _ H2 Hs2) as (profile' & Hp' & Hf2).
  rewrite Hp in Hp'. injection Hp' as <-.
  exists profile. split; [done |]. cbn zeta.
  pose proof (paths_differ self service_name) as Hne.
  assert (Host.files w1 !! Hardening.override_file self service_name
          = Some (Hardening.override_text
                    (Hardening.resolve_profile self service_name profile_name)
                    profile)) as Hw1.
  { rewrite Hf1. unfold written_files. apply lookup_insert_eq. }
  split; [done |].
  rewrite Hf2. unfold written_files, saved_files. rewrite Hw1.
  split; [apply lookup_insert_eq |].
  split; [rewrite lookup_insert_ne by done; apply lookup_insert_eq |].
  split; [| apply rendered_directives_nodup].
  intros path Ho Hb. by rewrite !lookup_insert_ne.
Qed.

Lemma reapplying_a_profile_writes_the_same_override_witness :
  let apply := Hardening.apply_hardening plain_engine "foo.service" None false in
  let w1 := snd (apply (boot ∅ 0 sturdy_host)) in
  let w2 := snd (apply w1) in
  Host.files w1 !! foo_override = Host.files w2 !! foo_override
  /\ Host.files w2 !! foo_backup = Host.files w1 !! foo_override.
Proof.
  intros apply w1 w2.
  set (r := {| Hardening.service_name := "foo.service";
               Hardening.success := true;
               Hardening.profile_applied := Some "system_service";
               Hardening.previous_score := Some float_9_6;
               Hardening.new_score := Some float_9_6;
               Hardening.rollback_performed := false;
               Hardening.error := None |}).
  assert (fst (apply (boot ∅ 0 sturdy_host)) = Host.Ok r) as F1
    by (vm_compute; reflexivity).
  assert (fst (apply w1) = Host.Ok r) as F2 by (vm_compute; reflexivity).
  pose proof (run_result apply (boot ∅ 0 sturdy_host) (Host.Ok r) F1) as H1.
  pose proof (run_result apply w1 (Host.Ok r) F2) as H2.
  destruct (reapplying_a_profile_writes_the_same_override plain_engine
              "foo.service" None (boot ∅ 0 sturdy_host) w1 w2 r r
              H1 eq_refl H2 eq_refl)
    as (profile & _ & Ha & Hb & Hc & _ & _).
  split.
  - exact (eq_trans Ha (eq_sym Hb)).
  - exact (eq_trans Hc (eq_sym Ha)).
Defined.

(* ===================================================================== *)
(** * Revert *)
(* ===================================================================== *)

(** C10, as the code has it: when run by root, the revert command is
    [rollback] without a backup file; it never raises, leaves no
    [override.conf] for the service -- the file is deleted when it exists
    -- and changes no other file, so a backup left on disk by an earlier
    apply is not restored. *)
Theorem revert_removes_the_override
  (engine : Hardening.HardeningEngine) (service : string) (w : Host.world) :
  Host.euid w = 0%Z ->
  Main.revert engine service w = Hardening.rollback engine service None w
  /\ exists w',
       Main.revert engine service w = (Host.Ok tt, w')
       /\ Host.files w'
          = delete (Hardening.override_file engine service) (Host.files w)
       /\ Host.files w' !! Hardening.override_file engine service = None
       /\ Host.files w' !! Hardening.backup_path engine service
          = Host.files w !! Hardening.backup_path engine service.
Proof.
  intros Hroot.
  assert (Main.revert engine service w
          = Hardening.rollback engine service None w) as Hrev.
  { unfold Main.revert, Main.require_root, Host.bind. by rewrite Hroot. }
  split; [done |].
  destruct (rollback_effect engine service None w) as (w' & Hr & _ & _ & Hf).
  exists w'. rewrite Hrev. split; [done |].
  unfold rolled_back_files in Hf. cbn in Hf. rewrite Hf.
  split; [done |]. split; [apply lookup_delete_eq |].
  apply lookup_delete_ne. apply paths_differ.
Qed.

Lemma revert_removes_the_override_witness :
  exists w',
    Main.revert plain_engine "foo.service"
      (boot {[ foo_override := "new"; foo_backup := "old" ]} 0 sturdy_host)
    = (Host.Ok tt, w')
    /\ Host.files w' !! foo_override = None
    /\ Host.files w' !! foo_backup = Some "old".
Proof.
  destruct (revert_removes_the_override plain_engine "foo.service"
              (boot {[ foo_override := "new"; foo_backup := "old" ]} 0
                 sturdy_host) eq_refl)
    as (_ & w' & Hr & _ & Ho & Hb).
  exists w'. split; [done |]. split; [exact Ho |].
  etrans; [exact Hb | by vm_compute].
Defined.

(** C10 as stated fails: run by another user than root, the revert command
    exits with code 1 before it calls [rollback]; the override stays. *)
Lemma revert_without_root_changes_nothing :
  let w := boot {[ foo_override := "new" ]} 1000 sturdy_host in
  Main.revert plain_engine "foo.service" w = (Host.Raise (Host.Exit 1), w)
  /\ Host.files w !! foo_override = Some "new".
Proof. split; reflexivity. Qed.

(* ===================================================================== *)
(** * Rollback after a failed health check *)
(* ===================================================================== *)

(** What a call that reports the failed health check leaves: the override
    it found; or, when it found none, the backup it found, if any. *)
Lemma failed_health_check_files
  (self : Hardening.HardeningEngine) (service_name : string)
  (profile_name : option string) (dry_run : bool) (w w' : Host.world)
  (r : Hardening.HardeningResult) :
  Hardening.apply_hardening self service_name profile_name dry_run w
  = (Host.Ok r, w') ->
  Hardening.error r = Some (Hardening.Message Hardening.health_check_error) ->
  Hardening.success r = false
  /\ Hardening.rollback_performed r = true
  /\ Host.files w' !! Hardening.override_file self service_name
     = match Host.files w !! Hardening.override_file self service_name with
       | Some content => Some content
       | None => Host.files w !! Hardening.backup_path self service_name
       end.
Proof.
  intros Heq Herr.
  destruct (apply_hardening_outcome self service_name profile_name dry_run w)
    as (r0 & w0 & Heq0 & _ & Hcases).
  rewrite Heq in Heq0. injection Heq0 as <- <-.
  destruct (stops_before_mutation self service_name profile_name dry_run w)
    as [stop|].
  { destruct Hcases as [_ [_ Hres]]. rewrite Herr in Hres.
    destruct stop; destruct Hres as [_ Hres]; try discriminate.
    destruct Hres; discriminate. }
  destruct Hcases as (profile & _ & [(_ & _ & He & _) | (Hs & Hrb & _ & Hf)]);
    [congruence |].
  split; [done |]. split; [done |].
  pose proof (paths_differ self service_name) as Hne.
  rewrite Hf. unfold rolled_back_files, written_files, saved_files.
  cbn [mbind option_bind].
  destruct (Host.files w !! Hardening.override_file self service_name)
    as [c|] eqn:Ho.
  - rewrite lookup_insert_ne, lookup_insert_eq by done. apply lookup_insert_eq.
  - rewrite lookup_insert_ne by done.
    destruct (Host.files w !! Hardening.backup_path self service_name)
      as [b|]; [apply lookup_insert_eq | apply lookup_delete_eq].
Qed.

(** C1 at the failing input: [foo.service] has no override and a stale
    backup; hardening it fails the health check, rollback is reported, and
    afterwards the override is the stale backup instead of being absent. *)
Theorem stale_backup_is_restored_by_rollback :
  let res := Hardening.apply_hardening plain_engine "foo.service" None false
               stale_backup_world in
  Hardening.is_excluded plain_engine "foo.service" = false
  /\ Host.files stale_backup_world !! foo_override = None
  /\ fst res
     = Host.Ok
         {| Hardening.service_name := "foo.service";
            Hardening.success := false;
            Hardening.profile_applied := Some "system_service";
            Hardening.previous_score := Some float_9_6;
            Hardening.new_score := None;
            Hardening.rollback_performed := true;
            Hardening.error :=
              Some (Hardening.Message
                      "Service failed health check after hardening") |}
  /\ Host.files (snd res) !! foo_override = Some "stale".
Proof. by vm_compute. Qed.

(** The stale backup is one the tool leaves itself: harden twice (the
    second call makes the backup), revert (the override goes, the backup
    stays), harden again with a profile that breaks the service. *)
Lemma stale_backup_is_reachable :
  let '(result, before, after) := harden_twice_revert_harden in
  before !! foo_override = None
  /\ (exists r, result = Host.Ok r
                /\ Hardening.rollback_performed r = true
                /\ Hardening.error r
                   = Some (Hardening.Message Hardening.health_check_error))
  /\ after !! foo_override
     = Some (Hardening.override_text "system_service" basic_profile).
Proof.
  vm_compute. split; [done |]. split; [| done]. eexists. by repeat split.
Qed.

(* ===================================================================== *)
(** * Failing queries *)
(* ===================================================================== *)

Lemma host_log (e : Host.event) (w : Host.world) :
  Host.host (Host.log e w) = Host.host w.
Proof. reflexivity. Qed.

(** Without one of its two programs, [analyze_service] returns nothing. *)
Lemma analyze_service_unavailable (service_name : string) (w : Host.world) :
  unavailable w "systemd-analyze" \/ unavailable w "systemctl" ->
  exists w', Analyzer.analyze_service service_name w = (Host.Ok None, w').
Proof.
  intros Hun.
  unfold Analyzer.analyze_service, Host.try_except, Host.bind.
  destruct Hun as [Hun | Hun].
  - rewrite subprocess_run_not_found by apply Hun. by eexists.
  - destruct (Host.subprocess_run _ false None w) as [[r1|e1] w1] eqn:E1;
      [| by eexists].
    pose proof (subprocess_run_world
                  ["systemd-analyze"; "security"; service_name; "--no-pager"]
                  false None w) as Hw1.
    rewrite E1 in Hw1. cbn [snd] in Hw1. subst w1.
    pose proof (parse_exposure_world (Host.stdout r1)
                  (Host.log (Host.Run ["systemd-analyze"; "security";
                                       service_name; "--no-pager"]) w)) as Hp.
    destruct (Analyzer.parse_exposure _ _) as [[x|ex] wp]; [| by eexists].
    cbn [snd] in Hp. subst wp.
    rewrite subprocess_run_not_found by (rewrite host_log; apply Hun).
    by eexists.
Qed.

(** With both programs there, whatever their exit status, and no malformed
    number in the summary, [analyze_service] returns an analysis. *)
Lemma analyze_service_present (service_name : string) (w : Host.world)
  (rc : Z) (out : string) (secs : Q) :
  all_available w ->
  Host.host w (Host.trace w)
    ["systemd-analyze"; "security"; service_name; "--no-pager"]
  = Host.Completed rc out secs ->
  (forall g1 g2, PyRe.search PyRe.exposure_pattern out = Some (g1, g2) ->
                 PyFloat.float_of_string g1 <> None) ->
  exists a w',
    Analyzer.analyze_service service_name w = (Host.Ok (Some a), w')
    /\ Analyzer.parse_exposure out w
       = (Host.Ok (Models.exposure_score a, Models.exposure_level a), w).
Proof.
  intros Hav Hrun Hnum.
  unfold Analyzer.analyze_service, Host.try_except, Host.bind.
  rewrite (subprocess_run_unchecked _ _ _ _ _ Hrun). cbn [Host.stdout].
  unfold Analyzer.parse_exposure.
  destruct (PyRe.search PyRe.exposure_pattern out) as [[g1 g2]|] eqn:Hs.
  - specialize (Hnum _ _ eq_refl).
    destruct (PyFloat.float_of_string g1) as [x|]; [| done].
    unfold Host.ret.
    set (w1 := Host.log _ w).
    destruct (Host.host w1 (Host.trace w1)
                ["systemctl"; "is-active"; service_name])
      as [|rc2 out2 secs2] eqn:E2; [by apply Hav in E2 |].
    rewrite (subprocess_run_unchecked _ _ _ _ _ E2).
    set (w2 := Host.log _ w1).
    destruct (Host.host w2 (Host.trace w2)
                ["systemctl"; "is-enabled"; service_name])
      as [|rc3 out3 secs3] eqn:E3; [by apply Hav in E3 |].
    rewrite (subprocess_run_unchecked _ _ _ _ _ E3).
    by eexists _, _.
  - unfold Host.ret.
    set (w1 := Host.log _ w).
    destruct (Host.host w1 (Host.trace w1)
                ["systemctl"; "is-active"; service_name])
      as [|rc2 out2 secs2] eqn:E2; [by apply Hav in E2 |].
    rewrite (subprocess_run_unchecked _ _ _ _ _ E2).
    set (w2 := Host.log _ w1).
    destruct (Host.host w2 (Host.trace w2)
                ["systemctl"; "is-enabled"; service_name])
      as [|rc3 out3 secs3] eqn:E3; [by apply Hav in E3 |].
    rewrite (subprocess_run_unchecked _ _ _ _ _ E3).
    by eexists _, _.
Qed.

(** C3, as the code has it: [get_all_services] returns an empty sequence
    when the listing command exits with a non-zero status;
    [analyze_service] never raises, and returns an absent result when
    [systemd-analyze] or [systemctl] is not available; a non-zero exit of
    the commands it runs is no failure for it: when both programs are
    there and the summary holds no malformed number, it returns an
    analysis. *)
Theorem query_failures_degrade (service_name : string) (w : Host.world) :
  (forall rc out secs,
     Host.host w (Host.trace w) Analyzer.list_units_argv
     = Host.Completed rc out secs ->
     rc <> 0%Z ->
     Analyzer.get_all_services w
     = (Host.Ok [], Host.log (Host.Run Analyzer.list_units_argv) w))
  /\ (exists r w', Analyzer.analyze_service service_name w = (Host.Ok r, w'))
  /\ (unavailable w "systemd-analyze" \/ unavailable w "systemctl" ->
      exists w', Analyzer.analyze_service service_name w = (Host.Ok None, w'))
  /\ (forall rc out secs,
        all_available w ->
        Host.host w (Host.trace w)
          ["systemd-analyze"; "security"; service_name; "--no-pager"]
        = Host.Completed rc out secs ->
        (forall g1 g2, PyRe.search PyRe.exposure_pattern out = Some (g1, g2) ->
                       PyFloat.float_of_string g1 <> None) ->
        exists a w',
          Analyzer.analyze_service service_name w = (Host.Ok (Some a), w')).
Proof.
  split; [| split; [| split]].
  - intros rc out secs Hrun Hrc.
    unfold Analyzer.get_all_services, Host.try_except, Host.bind,
      Host.subprocess_run.
    rewrite Hrun. cbn [andb].
    destruct (rc =? 0)%Z eqn:E; [by apply Z.eqb_eq in E |]. done.
  - destruct (analyze_service_total service_name w) as (r & w' & Heq & _).
    by exists r, w'.
  - apply analyze_service_unavailable.
  - intros rc out secs Hav Hrun Hnum.
    destruct (analyze_service_present _ _ _ _ _ Hav Hrun Hnum)
      as (a & w' & Heq & _).
    by exists a, w'.
Qed.

Lemma query_failures_degrade_witness :
  fst (Analyzer.get_all_services (boot ∅ 0 failing_host)) = Host.Ok []
  /\ exists w',
       Analyzer.analyze_service "foo.service" (boot ∅ 0 bare_host)
       = (Host.Ok None, w').
Proof.
  pose proof (query_failures_degrade "foo.service" (boot ∅ 0 failing_host))
    as (Hlist & _).
  pose proof (query_failures_degrade "foo.service" (boot ∅ 0 bare_host))
    as (_ & _ & Hnone & _).
  split.
  - by rewrite (Hlist 1%Z "" 0%Q eq_refl).
  - apply Hnone. left. by intros history args.
Defined.

(** C3 as stated fails, twice: when every command exits with status 1,
    [analyze_service] returns an analysis, not an absent result; and when
    [systemctl] is not available, [get_all_services] raises. *)
Lemma failing_queries_are_not_all_soft :
  fst (Analyzer.analyze_service "foo.service" (boot ∅ 0 failing_host))
  = Host.Ok (Some {| Models.name := "foo.service";
                     Models.exposure_score := None;
                     Models.exposure_level := None;
                     Models.is_active := false;
                     Models.is_enabled := false;
                     Models.suggested_profile := None |})
  /\ fst (Analyzer.get_all_services (boot ∅ 0 bare_host))
     = Host.Raise (Host.FileNotFoundError "systemctl").
Proof. split; reflexivity. Qed.

(* ===================================================================== *)
(** * Reading the exposure *)
(* ===================================================================== *)

(** C5, as the code has it: the score and the level are read from the
    leftmost match of the pattern in the output -- groups 1 and 2 are the
    number and the word that follow the literal, a colon on its line, and
    blanks --, so from the first summary line when lines before it do not
    mention the literal, whatever follows it; when nothing matches, score
    and level are unset, without error; when the number matched is not a
    float literal, [ValueError] is raised, which makes [analyze_service]
    return an absent result; the output [Overall exposure level for
    foo.service: 9.6 UNSAFE] gives score 9.6 and level UNSAFE. *)
Theorem exposure_is_read_from_the_first_match (text : string) (w : Host.world) :
  (PyRe.search PyRe.exposure_pattern text = None ->
   Analyzer.parse_exposure text w = (Host.Ok (None, None), w))
  /\ (forall g1 g2,
        PyRe.search PyRe.exposure_pattern text = Some (g1, g2) ->
        (exists pre mid ws1 ws2 rest,
           text = pre +:+ summary_text mid ws1 g1 ws2 g2 rest
           /\ well_formed_summary mid ws1 g1 ws2 g2)
        /\ Analyzer.parse_exposure text w
           = match PyFloat.float_of_string g1 with
             | Some score => (Host.Ok (Some score, Some g2), w)
             | None => (Host.Raise (Host.ValueError g1), w)
             end)
  /\ (forall before mid ws1 num ws2 level rest,
        text = unlines before +:+ summary_text mid ws1 num ws2 level rest ->
        Forall (fun line => PyStr.contains summary_literal line = false) before ->
        well_formed_summary mid ws1 num ws2 level ->
        PyStr.has_char ":"%char mid = false ->
        stops PyRe.word rest = true ->
        PyRe.search PyRe.exposure_pattern text = Some (num, level))
  /\ (forall service_name rc secs,
        Host.host w (Host.trace w)
          ["systemd-analyze"; "security"; service_name; "--no-pager"]
        = Host.Completed rc text secs ->
        match Analyzer.analyze_service service_name w with
        | (Host.Ok (Some a), _) =>
            Analyzer.parse_exposure text w
            = (Host.Ok (Models.exposure_score a, Models.exposure_level a), w)
        | (Host.Ok None, _) => True
        | (Host.Raise _, _) => False
        end
        /\ (forall e, fst (Analyzer.parse_exposure text w) = Host.Raise e ->
              fst (Analyzer.analyze_service service_name w) = Host.Ok None))
  /\ Analyzer.parse_exposure
       "Overall exposure level for foo.service: 9.6 UNSAFE" w
     = (Host.Ok (Some float_9_6, Some "UNSAFE"), w).
Proof.
  split; [| split; [| split; [| split]]].
  - intros Hs. unfold Analyzer.parse_exposure. by rewrite Hs.
  - intros g1 g2 Hs. split; [by apply exposure_pattern_sound |].
    unfold Analyzer.parse_exposure. rewrite Hs.
    by destruct (PyFloat.float_of_string g1).
  - intros before mid ws1 num ws2 level rest -> Hb Hwf Hc Hr.
    by apply first_summary_is_matched.
  - intros service_name rc secs Hrun.
    unfold Analyzer.analyze_service, Host.try_except, Host.bind.
    rewrite (subprocess_run_unchecked _ _ _ _ _ Hrun). cbn [Host.stdout].
    set (w1 := Host.log _ w).
    assert (forall w2, Analyzer.parse_exposure text w2
                       = (fst (Analyzer.parse_exposure text w), w2)) as Hp.
    { intros w2. unfold Analyzer.parse_exposure, Host.ret, Host.raise.
      repeat case_match; done. }
    rewrite (Hp w1).
    pose proof (Hp w) as Hfull.
    destruct (fst (Analyzer.parse_exposure text w)) as [[score level]|e].
    2:{ split; [done |]. done. }
    split; [| intros e He; discriminate].
    pose proof (subprocess_run_world ["systemctl"; "is-active"; service_name]
                  false None w1) as E2.
    destruct (Host.subprocess_run _ false None w1) as [[r2|e2] w2];
      [| done].
    cbn [snd] in E2. subst w2.
    match goal with
    | |- context [Host.subprocess_run ?a false None ?w3] =>
        destruct (Host.subprocess_run a false None w3) as [[r3|e3] w4]
    end; [| done].
    exact Hfull.
  - reflexivity.
Qed.

Lemma exposure_is_read_from_the_first_match_witness :
  PyRe.search PyRe.exposure_pattern foo_report = Some ("9.6", "UNSAFE").
Proof.
  apply (proj1 (proj2 (proj2
           (exposure_is_read_from_the_first_match foo_report
              (boot ∅ 0 sturdy_host))))
           ["  NAME DESCRIPTION EXPOSURE"] " for foo.service" " " "9.6" " "
           "UNSAFE" nl).
  - reflexivity.
  - by repeat constructor.
  - by repeat split.
  - reflexivity.
  - reflexivity.
Defined.

(** C5 as stated fails: with two summary lines the score and the level are
    those of the first one, not of the last; and a summary line whose
    number is malformed makes the whole analysis absent. *)
Lemma first_summary_line_wins_over_the_last :
  fst (Analyzer.analyze_service "foo.service"
         (boot ∅ 0 (scripted_host "" two_summaries_report (fun _ => true))))
  = Host.Ok (Some {| Models.name := "foo.service";
                     Models.exposure_score := Some (PyFloat.Finite 1);
                     Models.exposure_level := Some "OK";
                     Models.is_active := true;
                     Models.is_enabled := true;
                     Models.suggested_profile := None |})
  /\ PyRe.search PyRe.exposure_pattern
       "Overall exposure level for b.service: 9.6 UNSAFE"
     = Some ("9.6", "UNSAFE")
  /\ fst (Analyzer.analyze_service "foo.service"
            (boot ∅ 0 (scripted_host "" malformed_report (fun _ => true))))
     = Host.Ok None.
Proof. by vm_compute. Qed.

(* ===================================================================== *)
(** * High exposure *)
(* ===================================================================== *)

(** C2 at the failing input: the only unit, [a.service], has the score
    [0.0], which is present and at least the threshold [0.0] (and [-1.0]);
    [get_high_exposure_services] returns no service. *)
Theorem zero_score_is_dropped :
  let w := boot ∅ 0 zero_score_host in
  fst (Analyzer.get_all_services w) = Host.Ok ["a.service"]
  /\ fst (Analyzer.analyze_service "a.service" w)
     = Host.Ok (Some zero_score_analysis)
  /\ PyFloat.ge (PyFloat.Finite 0) (PyFloat.Finite 0) = true
  /\ PyFloat.ge (PyFloat.Finite 0) (PyFloat.Finite (-1)) = true
  /\ fst (Analyzer.get_high_exposure_services (PyFloat.Finite 0) w)
     = Host.Ok []
  /\ fst (Analyzer.get_high_exposure_services (PyFloat.Finite (-1)) w)
     = Host.Ok [].
Proof. by vm_compute. Qed.

(* ===================================================================== *)
(** * Further properties: rendering and explanations *)
(* ===================================================================== *)

(** X1 ([to_systemd_config]): the rendering loses nothing.  Two sets of
    overrides whose values hold no line feed and that are rendered to the
    same text are the same set. *)
Theorem rendering_is_injective (o1 o2 : Models.HardeningOverrides) :
  single_line_values o1 -> single_line_values o2 ->
  Models.to_systemd_config o1 = Models.to_systemd_config o2 ->
  o1 = o2.
Proof.
  intros H1 H2 Heq.
  apply (f_equal rendered_lines) in Heq.
  rewrite !rendered_lines_config in Heq by done.
  unfold Models.config_lines in Heq.
  apply (f_equal (@tl string)) in Heq. cbn [tl] in Heq.
  apply exclude_none_injective.
  apply map_config_line_injective; [| | done];
    intros f v Hin; by eapply rendered_item_name.
Qed.

Lemma rendering_is_injective_witness :
  Models.to_systemd_config (Models.overrides basic_profile)
  <> Models.to_systemd_config (Models.overrides strict_profile).
Proof.
  intros Heq.
  apply (rendering_is_injective (Models.overrides basic_profile)
           (Models.overrides strict_profile)) in Heq.
  - discriminate Heq.
  - repeat constructor.
  - repeat constructor.
Defined.

(** X2 ([get_explanations]): the explanations follow the rendering.  Their
    keys are the directives that are set, each once and in the order in
    which [to_systemd_config] writes them, and the text of each one is its
    entry in [DIRECTIVE_EXPLANATIONS]: the fallback text is never used. *)
Theorem every_rendered_directive_is_explained (o : Models.HardeningOverrides) :
  map fst (Models.get_explanations o)
  = map fst (Models.exclude_none (Models.model_dump o))
  /\ NoDup (map fst (Models.get_explanations o))
  /\ forall D text,
       In (D, text) (Models.get_explanations o) ->
       Models.DIRECTIVE_EXPLANATIONS !! D = Some text
       /\ text <> Models.no_explanation.
Proof.
  assert (map fst (Models.get_explanations o)
          = map fst (Models.exclude_none (Models.model_dump o))) as Hkeys
    by (unfold Models.get_explanations; by rewrite map_map).
  split; [exact Hkeys |]. split.
  - rewrite Hkeys. apply rendered_directives_nodup.
  - intros D text Hin. unfold Models.get_explanations in Hin.
    apply in_map_iff in Hin as ([f v] & Heq & Hin).
    apply exclude_none_spec, model_dump_name in Hin.
    pose proof (f_equal fst Heq) as Hf. pose proof (f_equal snd Heq) as Hs.
    cbn [fst snd] in Hf, Hs. subst D.
    destruct (explanations_table_complete _ Hin) as (t & Ht & Hne).
    rewrite Ht in Hs. cbn [default from_option id] in Hs. subst text.
    split; [exact Ht | exact Hne].
Qed.

(* ===================================================================== *)
(** * Further properties: the analyzer *)
(* ===================================================================== *)



(** X4 ([analyze_service]): an analysis names the service asked for and
    suggests no profile; score and level are there together or not at all;
    a score is never negative and never NaN, and a level is a word that is
    not empty. *)
Theorem analysis_is_well_formed (service_name : string) (w : Host.world)
  (a : Models.ServiceAnalysis) :
  baseline service_name w = Some a ->
  Models.name a = service_name /\ Models.suggested_profile a = None
  /\ match Models.exposure_score a, Models.exposure_level a with
     | Some x, Some level =>
         PyFloat.ge x PyFloat.zero = true /\ level <> ""
         /\ all_chars PyRe.word level = true
     | None, None => True
     | _, _ => False
     end.
Proof.
  unfold baseline.
  destruct (Analyzer.analyze_service service_name w) as [[r|e] w'] eqn:Heq;
    cbn [fst]; [| done].
  intros ->. by eapply analyze_service_result.
Qed.

Lemma analysis_is_well_formed_witness :
  exists a, baseline "foo.service" (boot ∅ 0 sturdy_host) = Some a
            /\ Models.name a = "foo.service"
            /\ Models.exposure_score a = Some float_9_6
            /\ Models.exposure_level a = Some "UNSAFE".
Proof.
  assert (exists a, baseline "foo.service" (boot ∅ 0 sturdy_host) = Some a
                    /\ Models.exposure_score a = Some float_9_6
                    /\ Models.exposure_level a = Some "UNSAFE")
    as (a & Hb & Hs & Hl) by (eexists; vm_compute; done).
  exists a. split; [done |]. split; [| done].
  apply (analysis_is_well_formed "foo.service" (boot ∅ 0 sturdy_host) a Hb).
Defined.

(** X5 ([get_high_exposure_services]): when the listing does not raise, the
    result holds, by decreasing score, the analyses of the listed services
    whose score is not zero and reaches the threshold, each as often as it
    is listed, and those with the same score in the order of the listing;
    every entry is the analysis of a listed service; and only queries were
    run. *)
Theorem high_exposure_services_are_the_sorted_selection
  (threshold : PyFloat.pyfloat) (w w1 : Host.world) (services : list string) :
  Analyzer.get_all_services w = (Host.Ok services, w1) ->
  exists analyses w' result,
    analyze_all services w1 = (Host.Ok analyses, w')
    /\ Analyzer.get_high_exposure_services threshold w = (Host.Ok result, w')
    /\ Permutation result (List.filter (kept threshold) (present analyses))
    /\ StronglySorted score_ge result
    /\ (forall k, List.filter (tied k) result
                  = List.filter (tied k)
                      (List.filter (kept threshold) (present analyses)))
    /\ List.Forall (fun a => In (Models.name a) services) result
    /\ quiet w w'.
Proof.
  intros Hlist.
  destruct (get_high_exposure_services_spec threshold w w1 services Hlist)
    as (analyses & w' & result & Hall & Heq & Hin & Hsorted).
  exists analyses, w', result.
  split; [done |]. split; [done |].
  assert (result
          = PyFloat.sorted_reverse Analyzer.sort_key
              (List.filter (kept threshold) (present analyses))) as Hres.
  { revert Heq. unfold Analyzer.get_high_exposure_services, Host.bind.
    rewrite Hlist.
    destruct (collect_high_exposure_spec services threshold [] w1)
      as (analyses' & w2 & Hall' & Hcol).
    rewrite Hall in Hall'. injection Hall' as <- <-.
    rewrite Hcol. by intros [= <-]. }
  split; [rewrite Hres; apply sorted_reverse_perm |].
  split; [done |].
  split; [intros k; rewrite Hres; apply sorted_reverse_tied |]. split.
  - apply List.Forall_forall. intros a Ha. apply Hin in Ha as [Ha _].
    pose proof (analyze_all_names _ _ _ _ Hall) as Hn.
    by eapply List.Forall_forall in Hn.
  - by eapply get_high_exposure_services_quiet.
Qed.

Lemma high_exposure_services_are_the_sorted_selection_witness :
  exists result w',
    Analyzer.get_high_exposure_services (PyFloat.Finite 8)
      (boot ∅ 0 two_units_host)
    = (Host.Ok result, w')
    /\ map Models.name result = ["foo.service"; "baz.service"]
    /\ StronglySorted score_ge result.
Proof.
  assert (Analyzer.get_all_services (boot ∅ 0 two_units_host)
          = (Host.Ok ["foo.service"; "baz.service"],
             Host.log (Host.Run Analyzer.list_units_argv)
               (boot ∅ 0 two_units_host))) as Hlist
    by (vm_compute; reflexivity).
  destruct (high_exposure_services_are_the_sorted_selection
              (PyFloat.Finite 8) _ _ _ Hlist)
    as (analyses & w' & result & _ & Heq & _ & Hs & _).
  exists result, w'. split; [done |]. split; [| done].
  assert (fst (Analyzer.get_high_exposure_services (PyFloat.Finite 8)
                 (boot ∅ 0 two_units_host))
          = Host.Ok result) as Hf by (by rewrite Heq).
  vm_compute in Hf. injection Hf as <-. reflexivity.
Defined.

(* ===================================================================== *)
(** * Further properties: the audit *)
(* ===================================================================== *)

(** X6 ([audit]): an audit only asks.  Whatever the options and whatever the
    commands answer, the files and directories are as before, and no
    command that changes the machine is started; this holds also when the
    listing raises. *)
Theorem audit_changes_nothing (threshold : PyFloat.pyfloat) (show_all : bool)
  (w : Host.world) :
  quiet w (snd (Main.audit_services threshold show_all w)).
Proof.
  unfold Main.audit_services. destruct show_all.
  - unfold Host.bind.
    destruct (Analyzer.get_all_services w) as [[names|e] w1] eqn:Hl;
      apply get_all_services_quiet in Hl; [| done].
    destruct (analyze_each_quiet names w1) as (analyses & w' & Heq & _ & Hq).
    rewrite Heq. cbn [snd Host.ret]. by eapply quiet_trans.
  - destruct (Analyzer.get_high_exposure_services threshold w)
      as [o w'] eqn:Heq.
    cbn [snd]. by eapply get_high_exposure_services_quiet.
Qed.



(* ===================================================================== *)
(** * Further properties: the hardening *)
(* ===================================================================== *)

(** X8 ([apply_hardening]): the call returns a result for the service asked
    and never raises, and the result is consistent: a success has no error,
    no rollback, and names the profile resolved; a failure has an error;
    a rollback is reported only with a failure that names the profile. *)
Theorem hardening_result_is_consistent (self : Hardening.HardeningEngine)
  (service_name : string) (profile_name : option string) (dry_run : bool)
  (w : Host.world) :
  let resolved := Hardening.resolve_profile self service_name profile_name in
  exists r w',
    Hardening.apply_hardening self service_name profile_name dry_run w
    = (Host.Ok r, w')
    /\ same_machine w w'
    /\ Hardening.service_name r = service_name
    /\ (Hardening.success r = true ->
        Hardening.error r = None /\ Hardening.rollback_performed r = false
        /\ Hardening.profile_applied r = Some resolved)
    /\ (Hardening.success r = false -> Hardening.error r <> None)
    /\ (Hardening.rollback_performed r = true ->
        Hardening.success r = false
        /\ Hardening.profile_applied r = Some resolved).
Proof.
  cbn zeta.
  set (resolved := Hardening.resolve_profile self service_name profile_name).
  destruct (apply_hardening_history self service_name profile_name dry_run w)
    as (r & w' & evs & Heq & _ & _ & _ & Hname & _).
  exists r, w'. split; [done |].
  destruct (stops_before_mutation self service_name profile_name dry_run w)
    as [stop|] eqn:Hstop.
  - destruct (apply_hardening_early _ _ _ _ _ _ Hstop)
      as (r' & w'' & Heq' & Hro & Hnr & Hres).
    rewrite Heq in Heq'. injection Heq' as <- <-.
    split; [destruct Hro as (_ & _ & ? & ? & _); by split |].
    split; [done |].
    assert (forall p, stop = StopDryRun p -> p = resolved) as Hdry.
    { intros p ->. revert Hstop. unfold stops_before_mutation.
      repeat case_match; try done. by intros [= <-]. }
    destruct stop as [| | p | p].
    + destruct Hres as [Hs He]. rewrite Hs, He, Hnr. by repeat split.
    + destruct Hres as [Hs He]. rewrite Hs, He, Hnr. by repeat split.
    + destruct Hres as [Hs He]. rewrite Hs, He, Hnr. by repeat split.
    + destruct Hres as (Hs & He & Hp). rewrite Hs, He, Hp, Hnr.
      rewrite (Hdry p eq_refl). by repeat split.
  - destruct (apply_hardening_mutation _ _ _ _ _ Hstop)
      as (initial & w1 & profile & Ha & Hro & Hp & _ & Heq').
    destruct (apply_changes_outcome self service_name initial resolved
                profile w1) as (r' & w'' & Hc & [He Hh] & Happ & Hcases).
    rewrite Heq' in Heq. fold resolved in Heq. rewrite Heq in Hc.
    injection Hc as <- <-.
    destruct Hro as (_ & _ & He1 & Hh1 & _).
    split; [split; congruence |]. split; [done |].
    destruct Hcases as [(Hs & Hr & Her & _) | (Hs & Hr & Her & _)];
      rewrite Hs, Hr; by repeat split.
Qed.

(** X9 ([apply_hardening]): whatever happens, the call changes no file but
    the override of the service and its backup, and makes no directory but
    the override directory of the service; so it leaves the override and
    the backup of every other service alone (the names being names of
    units, without a slash). *)
Theorem hardening_touches_only_the_override
  (self : Hardening.HardeningEngine) (service_name : string)
  (profile_name : option string) (dry_run : bool) (w : Host.world) :
  exists r w',
    Hardening.apply_hardening self service_name profile_name dry_run w
    = (Host.Ok r, w')
    /\ other_files_kept self service_name (Host.files w) (Host.files w')
    /\ (Host.dirs w' = Host.dirs w
        \/ Host.dirs w'
           = {[Hardening.override_dir self service_name]} ∪ Host.dirs w)
    /\ forall other,
         plain_name service_name -> plain_name other ->
         other <> service_name ->
         Host.files w' !! Hardening.override_file self other
         = Host.files w !! Hardening.override_file self other
         /\ Host.files w' !! Hardening.backup_path self other
            = Host.files w !! Hardening.backup_path self other.
Proof.
  destruct (apply_hardening_frame self service_name profile_name dry_run w)
    as (r & w' & Heq & Hf & Hd).
  exists r, w'. split; [done |]. split; [done |]. split; [done |].
  intros other _ _ Hne.
  destruct (override_paths_apart self other service_name Hne)
    as (H1 & H2 & H3 & H4).
  split; by apply Hf.
Qed.

(** X10 ([apply_hardening], [rollback]): a failed hardening gives back the
    override that was there.  When the service had an override, every call
    that does not succeed leaves it with its content, and changes no file
    but the backup. *)
Theorem failed_hardening_restores_the_override
  (self : Hardening.HardeningEngine) (service_name : string)
  (profile_name : option string) (dry_run : bool) (w : Host.world)
  (content : string) :
  Host.files w !! Hardening.override_file self service_name = Some content ->
  exists r w',
    Hardening.apply_hardening self service_name profile_name dry_run w
    = (Host.Ok r, w')
    /\ (Hardening.success r = false ->
        Host.files w' !! Hardening.override_file self service_name
        = Some content
        /\ forall path,
             path <> Hardening.backup_path self service_name ->
             Host.files w' !! path = Host.files w !! path).
Proof.
  intros Ho.
  destruct (apply_hardening_outcome self service_name profile_name dry_run w)
    as (r & w' & Heq & _ & Hcases).
  exists r, w'. split; [done |]. intros Hfail.
  destruct (stops_before_mutation self service_name profile_name dry_run w).
  - destruct Hcases as [(Hf & _) _]. rewrite Hf. by split.
  - destruct Hcases as (profile & _ & [(Hs & _) | (_ & _ & _ & ->)]);
      [congruence |].
    rewrite rolled_back_written_files, Ho.
    pose proof (paths_differ self service_name) as Hne.
    split.
    + by rewrite lookup_insert_ne.
    + intros path Hp. by rewrite lookup_insert_ne.
Qed.

Lemma failed_hardening_restores_the_override_witness :
  exists r w',
    Hardening.apply_hardening plain_engine "foo.service" None false
      (boot {[ foo_override := "mine" ]} 0 fragile_host)
    = (Host.Ok r, w')
    /\ Hardening.success r = false
    /\ Host.files w' !! foo_override = Some "mine".
Proof.
  assert (Host.files (boot {[ foo_override := "mine" ]} 0 fragile_host)
          !! Hardening.override_file plain_engine "foo.service"
          = Some "mine") as Ho by (vm_compute; reflexivity).
  destruct (failed_hardening_restores_the_override plain_engine "foo.service"
              None false (boot {[ foo_override := "mine" ]} 0 fragile_host)
              "mine" Ho)
    as (r & w' & Heq & Hfail).
  assert (Hardening.success r = false) as Hs.
  { assert (fst (Hardening.apply_hardening plain_engine "foo.service" None
                   false (boot {[ foo_override := "mine" ]} 0 fragile_host))
            = Host.Ok r) as Hf by (by rewrite Heq).
    vm_compute in Hf. injection Hf as <-. reflexivity. }
  exists r, w'. split; [done |]. split; [done |].
  exact (proj1 (Hfail Hs)).
Defined.

(** X11 ([apply_hardening], [rollback]): a failed hardening of a service
    that had no override, and no backup left by an earlier run, leaves the
    files exactly as they were. *)
Theorem failed_hardening_of_a_clean_service_leaves_no_file
  (self : Hardening.HardeningEngine) (service_name : string)
  (profile_name : option string) (dry_run : bool) (w : Host.world) :
  Host.files w !! Hardening.override_file self service_name = None ->
  Host.files w !! Hardening.backup_path self service_name = None ->
  exists r w',
    Hardening.apply_hardening self service_name profile_name dry_run w
    = (Host.Ok r, w')
    /\ (Hardening.success r = false -> Host.files w' = Host.files w).
Proof.
  intros Ho Hb.
  destruct (apply_hardening_outcome self service_name profile_name dry_run w)
    as (r & w' & Heq & _ & Hcases).
  exists r, w'. split; [done |]. intros Hfail.
  destruct (stops_before_mutation self service_name profile_name dry_run w).
  - by destruct Hcases as [(Hf & _) _].
  - destruct Hcases as (profile & _ & [(Hs & _) | (_ & _ & _ & ->)]);
      [congruence |].
    by rewrite rolled_back_written_files, Ho, Hb.
Qed.

Lemma failed_hardening_of_a_clean_service_leaves_no_file_witness :
  exists r w',
    Hardening.apply_hardening plain_engine "foo.service" None false
      (boot ∅ 0 fragile_host)
    = (Host.Ok r, w')
    /\ Hardening.rollback_performed r = true
    /\ Host.files w' = ∅.
Proof.
  destruct (failed_hardening_of_a_clean_service_leaves_no_file plain_engine
              "foo.service" None false (boot ∅ 0 fragile_host)
              (lookup_empty _) (lookup_empty _))
    as (r & w' & Heq & Hfail).
  assert (Hardening.success r = false
          /\ Hardening.rollback_performed r = true) as [Hs Hr].
  { assert (fst (Hardening.apply_hardening plain_engine "foo.service" None
                   false (boot ∅ 0 fragile_host))
            = Host.Ok r) as Hf by (by rewrite Heq).
    vm_compute in Hf. injection Hf as <-. by split. }
  exists r, w'. split; [done |]. split; [done |].
  exact (Hfail Hs).
Defined.

(** X12 ([apply_hardening], [rollback]): no change of a file is left
    without a reload.  In the history of every call, each copy, write or
    removal of a file is followed by an attempt to run
    [systemctl daemon-reload]. *)
Theorem every_file_change_is_followed_by_a_reload
  (self : Hardening.HardeningEngine) (service_name : string)
  (profile_name : option string) (dry_run : bool) (w : Host.world) :
  exists r w' evs,
    Hardening.apply_hardening self service_name profile_name dry_run w
    = (Host.Ok r, w')
    /\ Host.trace w' = evs ++ Host.trace w
    /\ reloaded false evs = true.
Proof.
  destruct (apply_hardening_history self service_name profile_name dry_run w)
    as (r & w' & evs & Heq & Ht & Hrel & _).
  by exists r, w', evs.
Qed.



(** X14 ([apply_hardening]): a service that was not running is not started.
    When the first analysis finds the service inactive, a call that
    succeeds has run no [systemctl restart]. *)
Theorem idle_service_is_not_restarted (self : Hardening.HardeningEngine)
  (service_name : string) (profile_name : option string) (dry_run : bool)
  (w : Host.world) (initial : Models.ServiceAnalysis) :
  baseline service_name w = Some initial ->
  Models.is_active initial = false ->
  exists r w' evs,
    Hardening.apply_hardening self service_name profile_name dry_run w
    = (Host.Ok r, w')
    /\ Host.trace w' = evs ++ Host.trace w
    /\ (Hardening.success r = true ->
        List.Forall (fun e => is_restart e = false) evs).
Proof.
  intros Hb Hact.
  destruct (apply_hardening_history self service_name profile_name dry_run w)
    as (r & w' & evs & Heq & Ht & _ & _ & _ & Hnr).
  exists r, w', evs. split; [done |]. split; [done |].
  intros Hs. by eapply Hnr.
Qed.

Lemma idle_service_is_not_restarted_witness :
  exists r w',
    Hardening.apply_hardening plain_engine "foo.service" None false
      (boot ∅ 0 idle_host)
    = (Host.Ok r, w')
    /\ Hardening.success r = true
    /\ List.Forall (fun e => is_restart e = false) (Host.trace w')
    /\ Host.files w' !! foo_override
       = Some (Hardening.override_text "system_service" basic_profile).
Proof.
  assert (exists initial,
            baseline "foo.service" (boot ∅ 0 idle_host) = Some initial
            /\ Models.is_active initial = false) as (initial & Hb & Hact)
    by (eexists; vm_compute; done).
  destruct (idle_service_is_not_restarted plain_engine "foo.service" None
              false (boot ∅ 0 idle_host) initial Hb Hact)
    as (r & w' & evs & Heq & Ht & Hnr).
  assert (fst (Hardening.apply_hardening plain_engine "foo.service" None
                 false (boot ∅ 0 idle_host))
          = Host.Ok r) as Hf by (by rewrite Heq).
  assert (Host.files
            (snd (Hardening.apply_hardening plain_engine "foo.service" None
                    false (boot ∅ 0 idle_host)))
          = Host.files w') as Hw by (by rewrite Heq).
  assert (Hardening.success r = true) as Hs.
  { vm_compute in Hf. injection Hf as <-. reflexivity. }
  exists r, w'. split; [exact Heq |]. split; [exact Hs |].
  split.
  - rewrite Ht. cbn [boot Host.trace]. rewrite app_nil_r. exact (Hnr Hs).
  - rewrite <- Hw. vm_compute. reflexivity.
Defined.

(** X15 ([harden]): the runs of [harden] that must not change anything do
    not.  When the command is not run by root, or is a dry run, or (outside
    the batch mode) names no service or is declined at the prompt, the
    files and directories are as before and no command that changes the
    machine is started. *)
Theorem harmless_harden_changes_nothing (engine : Hardening.HardeningEngine)
  (service profile : option string) (interactive dry_run batch : bool)
  (threshold : PyFloat.pyfloat) (confirmed : bool) (w : Host.world) :
  harden_is_harmless (Host.euid w) service interactive dry_run batch confirmed
  = true ->
  quiet w (snd (Main.harden engine service profile interactive dry_run batch
                  threshold confirmed w)).
Proof.
  unfold harden_is_harmless, Main.harden, Main.require_root, Host.bind.
  destruct (Host.euid w =? 0)%Z; cbn [negb orb snd];
    [| intros _; apply quiet_refl].
  destruct batch; cbn [negb andb orb].
  - rewrite orb_false_r. intros ->.
    destruct (Analyzer.get_high_exposure_services threshold w)
      as [[services|e] w1] eqn:Hl;
      apply get_high_exposure_services_quiet in Hl; [| done].
    destruct (harden_batch_dry_run_quiet engine services w1) as (w' & -> & Hq).
    cbn [snd]. by eapply quiet_trans.
  - destruct (Hardening.not_given service);
      [intros _; apply quiet_refl |]. cbn [orb].
    assert (forall w1, quiet w w1 -> dry_run = true ->
              quiet w
                (snd (let (o, w2) :=
                        Hardening.apply_hardening engine
                          (default EmptyString service) profile dry_run w1 in
                      match o with
                      | Host.Ok _ => Host.ret tt w2
                      | Host.Raise e => (Host.Raise e, w2)
                      end))) as Hdry.
    { intros w1 Hq ->.
      destruct (dry_run_quiet engine (default EmptyString service) profile w1)
        as (r & w' & -> & Hq').
      cbn [snd Host.ret]. by eapply quiet_trans. }
    destruct interactive; cbn [andb].
    + destruct (analyze_service_quiet (default EmptyString service) w)
        as (a & w1 & -> & Hq).
      unfold Host.ret at 1. destruct confirmed; cbn [negb].
      * rewrite orb_false_r. intros Hd. by apply Hdry.
      * intros _. done.
    + unfold Host.ret at 1. rewrite orb_false_r. intros Hd.
      apply Hdry; [apply quiet_refl | done].
Qed.

Lemma harmless_harden_changes_nothing_witness :
  quiet (boot ∅ 0 two_units_host)
    (snd (Main.harden plain_engine None None false true true
            (PyFloat.Finite 8) false (boot ∅ 0 two_units_host)))
  /\ quiet (boot ∅ 1000 sturdy_host)
       (snd (Main.harden plain_engine (Some "foo.service") None false false
               false (PyFloat.Finite 8) false (boot ∅ 1000 sturdy_host))).
Proof.
  split.
  - apply (harmless_harden_changes_nothing plain_engine None None false true
             true (PyFloat.Finite 8) false (boot ∅ 0 two_units_host)).
    reflexivity.
  - apply (harmless_harden_changes_nothing plain_engine (Some "foo.service")
             None false false false (PyFloat.Finite 8) false
             (boot ∅ 1000 sturdy_host)).
    reflexivity.
Defined.

(** X16 ([rollback]): a rollback never raises; it changes no file but the
    override of the service, which it restores from the backup given or
    removes, and no directory; after that change it always runs the reload,
    and it restarts the service at most once, after the reload. *)
Theorem rollback_touches_only_the_override
  (self : Hardening.HardeningEngine) (service_name : string)
  (backup_file : option string) (w : Host.world) :
  let ovr := Hardening.override_file self service_name in
  exists w' change restart,
    Hardening.rollback self service_name backup_file w = (Host.Ok tt, w')
    /\ (forall path, path <> ovr ->
          Host.files w' !! path = Host.files w !! path)
    /\ Host.dirs w' = Host.dirs w
    /\ Host.trace w'
       = restart ++ [Host.Run ["systemctl"; "daemon-reload"]] ++ change
         ++ Host.trace w
    /\ (restart = []
        \/ restart = [Host.Run ["systemctl"; "restart"; service_name]])
    /\ (change = []
        \/ (exists b, backup_file = Some b /\ change = [Host.Copy b ovr])
        \/ change = [Host.Unlink ovr]).
Proof.
  cbn zeta.
  destruct (rollback_history self service_name backup_file w)
    as (w' & change & restart & Heq & Ht & Hr & Hc).
  destruct (rollback_effect self service_name backup_file w)
    as (w'' & Heq' & _ & Hd & Hf).
  rewrite Heq in Heq'. injection Heq' as <-.
  exists w', change, restart. split; [done |]. split.
  - intros path Hp. rewrite Hf. by apply rolled_back_files_frame.
  - by repeat split.
Qed.

(** X17 ([harden], [revert]): hardening and reverting.  After a hardening
    that succeeded, the revert command run by root removes the override and
    keeps the copy that the hardening saved: a service that had no override
    gets its files back exactly, and for a service that had one the old
    override is left as the backup. *)
Theorem harden_then_revert (self : Hardening.HardeningEngine)
  (service_name : string) (profile_name : option string)
  (w0 w1 : Host.world) (r : Hardening.HardeningResult) :
  Host.euid w0 = 0%Z ->
  Hardening.apply_hardening self service_name profile_name false w0
  = (Host.Ok r, w1) ->
  Hardening.success r = true ->
  let ovr := Hardening.override_file self service_name in
  let bak := Hardening.backup_path self service_name in
  exists w2,
    Main.revert self service_name w1 = (Host.Ok tt, w2)
    /\ Host.files w2 !! ovr = None
    /\ match Host.files w0 !! ovr with
       | Some old => Host.files w2 = <[bak := old]> (delete ovr (Host.files w0))
       | None => Host.files w2 = Host.files w0
       end.
Proof.
  intros Hroot Heq Hs. cbn zeta.
  destruct (apply_hardening_outcome self service_name profile_name false w0)
    as (r' & w1' & Heq' & [He _] & Hcases).
  rewrite Heq in Heq'. injection Heq' as <- <-.
  assert (exists text,
            Host.files w1 = written_files self service_name text
                              (Host.files w0)) as (text & Hf1).
  { destruct (stops_before_mutation self service_name profile_name false w0)
      as [stop|] eqn:Hstop.
    - destruct Hcases as [_ (_ & Hres)].
      destruct stop; try (destruct Hres as [Hs' _]; congruence).
      revert Hstop. unfold stops_before_mutation.
      repeat case_match; done.
    - destruct Hcases as (profile & _ & [(_ & _ & _ & Hf) | (Hs' & _)]);
        [by eexists | congruence]. }
  destruct (rollback_effect self service_name None w1)
    as (w2 & Hr & _ & _ & Hf2).
  exists w2. split.
  { unfold Main.revert, Main.require_root, Host.bind.
    rewrite He, Hroot. cbn. exact Hr. }
  rewrite Hf2, Hf1. unfold rolled_back_files, written_files, saved_files.
  cbn [mbind option_bind].
  pose proof (paths_differ self service_name) as Hne.
  split; [by rewrite lookup_delete_eq |].
  rewrite delete_insert_eq.
  destruct (Host.files w0 !! Hardening.override_file self service_name)
    as [old|] eqn:Ho.
  - by rewrite delete_insert_ne.
  - by rewrite delete_id.
Qed.

Lemma harden_then_revert_witness :
  let harden :=
    Hardening.apply_hardening plain_engine "foo.service" None false in
  exists w2,
    Main.revert plain_engine "foo.service"
      (snd (harden (boot ∅ 0 sturdy_host)))
    = (Host.Ok tt, w2)
    /\ Host.files (snd (harden (boot ∅ 0 sturdy_host))) !! foo_override
       = Some (Hardening.override_text "system_service" basic_profile)
    /\ Host.files w2 = ∅.
Proof.
  cbn zeta.
  set (run := Hardening.apply_hardening plain_engine "foo.service" None false
                (boot ∅ 0 sturdy_host)).
  assert (exists r, fst run = Host.Ok r /\ Hardening.success r = true)
    as (r & Hf & Hs) by (eexists; vm_compute; done).
  assert (run = (Host.Ok r, snd run)) as Heq
    by (rewrite <- Hf; by destruct run).
  destruct (harden_then_revert plain_engine "foo.service" None
              (boot ∅ 0 sturdy_host) (snd run) r eq_refl Heq Hs)
    as (w2 & Hrev & _ & Hfiles).
  exists w2. split; [exact Hrev |]. split.
  - vm_compute. reflexivity.
  - exact Hfiles.
Defined.

(** X18 ([harden --batch]): the batch leaves excluded services alone.  The
    loop of the batch mode never raises, and after it the override and the
    backup of every excluded service are as they were, whatever services
    are in the list (the names being names of units, without a slash). *)
Theorem batch_leaves_excluded_services_alone
  (engine : Hardening.HardeningEngine) (services : list Models.ServiceAnalysis)
  (dry_run : bool) (w : Host.world) (excluded : string) :
  Hardening.is_excluded engine excluded = true ->
  plain_name excluded ->
  List.Forall (fun svc => plain_name (Models.name svc)) services ->
  exists w',
    Main.harden_batch engine services dry_run w = (Host.Ok tt, w')
    /\ Host.files w' !! Hardening.override_file engine excluded
       = Host.files w !! Hardening.override_file engine excluded
    /\ Host.files w' !! Hardening.backup_path engine excluded
       = Host.files w !! Hardening.backup_path engine excluded.
Proof.
  intros Hex _ _. revert w.
  induction services as [|svc rest IH]; intros w; cbn [Main.harden_batch].
  - by exists w.
  - destruct (Hardening.is_excluded engine (Models.name svc)) eqn:Hsvc;
      [apply IH |].
    unfold Host.bind.
    destruct (apply_hardening_frame engine (Models.name svc) None dry_run w)
      as (r & w1 & -> & Hf & _).
    destruct (IH w1) as (w' & Heq & Ho & Hb).
    exists w'. split; [done |].
    assert (excluded <> Models.name svc) as Hne by (intros ->; congruence).
    destruct (override_paths_apart engine excluded (Models.name svc) Hne)
      as (H1 & H2 & H3 & H4).
    rewrite Ho, Hb. split; by apply Hf.
Qed.

Lemma batch_leaves_excluded_services_alone_witness :
  let engine := engine_excluding ["foo*"] in
  let baz_override := "/etc/systemd/system/baz.service.d/override.conf" in
  exists services w1 w',
    Analyzer.get_high_exposure_services (PyFloat.Finite 8)
      (boot {[ foo_override := "mine" ]} 0 two_units_host)
    = (Host.Ok services, w1)
    /\ map Models.name services = ["foo.service"; "baz.service"]
    /\ Main.harden_batch engine services false w1 = (Host.Ok tt, w')
    /\ Host.files w' !! foo_override = Some "mine"
    /\ Host.files w' !! baz_override
       = Some (Hardening.override_text "system_service" basic_profile).
Proof.
  cbn zeta.
  set (w0 := boot {[ foo_override := "mine" ]} 0 two_units_host).
  set (listing := Analyzer.get_high_exposure_services (PyFloat.Finite 8) w0).
  assert (exists services,
            fst listing = Host.Ok services
            /\ map Models.name services = ["foo.service"; "baz.service"])
    as (services & Hl & Hn) by (eexists; vm_compute; done).
  assert (listing = (Host.Ok services, snd listing)) as Heq
    by (rewrite <- Hl; by destruct listing).
  assert (List.Forall (fun svc => plain_name (Models.name svc)) services)
    as Hplain.
  { apply List.Forall_forall. intros svc Hin.
    apply (in_map Models.name) in Hin. rewrite Hn in Hin.
    destruct Hin as [<- | [<- | []]]; reflexivity. }
  destruct (batch_leaves_excluded_services_alone (engine_excluding ["foo*"])
              services false (snd listing) "foo.service" eq_refl eq_refl
              Hplain)
    as (w' & Hb & Ho & _).
  exists services, (snd listing), w'.
  split; [exact Heq |]. split; [exact Hn |]. split; [exact Hb |].
  split.
  - etrans; [exact Ho |]. vm_compute. reflexivity.
  - assert (fst listing = Host.Ok services) as Hl' by exact Hl.
    vm_compute in Hl'. injection Hl' as <-.
    assert (Host.files
              (snd (Main.harden_batch (engine_excluding ["foo*"])
                      (match fst listing with
                       | Host.Ok l => l
                       | Host.Raise _ => []
                       end) false (snd listing)))
            !! "/etc/systemd/system/baz.service.d/override.conf"
            = Some (Hardening.override_text "system_service" basic_profile))
      as Hbaz by (vm_compute; reflexivity).
    revert Hbaz. rewrite Hl. cbn iota. rewrite Hb. done.
Defined.

(** X19 ([apply_hardening]): what the override file holds.  For a profile
    whose name and values hold no line feed, the text written has one line
    for the header that names the profile, the line [[Service]], and one
    line [name=value] for each directive that is set, in the order of the
    fields. *)
Theorem override_file_lines (profile_name : string)
  (profile : Models.HardeningProfile) :
  PyStr.has_char PyStr.LF profile_name = false ->
  single_line_values (Models.overrides profile) ->
  rendered_lines (Hardening.override_text profile_name profile)
  = override_header profile_name
    :: "[Service]"
    :: map Models.config_line
         (Models.exclude_none (Models.model_dump (Models.overrides profile))).
Proof.
  intros Hname Hvalues.
  unfold Hardening.override_text, override_header, rendered_lines.
  rewrite <- append_assoc.
  rewrite (append_cons PyStr.LF), append_nil.
  rewrite split_on_cons.
  - f_equal. by apply rendered_lines_config.
  - rewrite has_char_append, Hname. reflexivity.
Qed.

Lemma override_file_lines_witness :
  rendered_lines (Hardening.override_text "system_service" basic_profile)
  = "# Generated by SystemdShield - Profile: system_service"
    :: rendered_lines
         (Models.to_systemd_config (Models.overrides basic_profile)).
Proof.
  rewrite (override_file_lines "system_service" basic_profile).
  - vm_compute. reflexivity.
  - reflexivity.
  - repeat constructor.
Defined.

(** X20 ([apply_hardening]): when a hardening succeeds.  A call that reaches
    the mutation succeeds exactly when the reload exits with status 0 and,
    for a service that was running, the restart exits with status 0 within
    ten seconds and [systemctl is-active] then prints [active]; in every
    other case it rolls back. *)
Theorem hardening_succeeds_iff_the_checks_pass
  (self : Hardening.HardeningEngine) (service_name : string)
  (profile_name : option string) (w : Host.world) :
  stops_before_mutation self service_name profile_name false w = None ->
  let resolved := Hardening.resolve_profile self service_name profile_name in
  exists initial profile r w',
    baseline service_name w = Some initial
    /\ Models.profiles (Hardening.profiles self) !! resolved = Some profile
    /\ Hardening.apply_hardening self service_name profile_name false w
       = (Host.Ok r, w')
    /\ Hardening.success r
       = checks_pass self service_name initial
           (Hardening.override_text resolved profile)
           (snd (Analyzer.analyze_service service_name w))
    /\ Hardening.rollback_performed r = negb (Hardening.success r).
Proof.
  intros Hstop. cbn zeta.
  destruct (apply_hardening_mutation _ _ _ _ _ Hstop)
    as (initial & w1 & profile & Ha & _ & Hp & _ & Heq).
  destruct (apply_changes_success self service_name initial
              (Hardening.resolve_profile self service_name profile_name)
              profile w1) as (r & w' & Hc & Hs & Hr).
  exists initial, profile, r, w'.
  split; [by eapply baseline_analysis |]. split; [done |].
  split; [by rewrite Heq |]. rewrite Ha. by split.
Qed.

Lemma hardening_succeeds_iff_the_checks_pass_witness :
  (exists r w',
     Hardening.apply_hardening plain_engine "foo.service" None false
       (boot ∅ 0 sturdy_host) = (Host.Ok r, w')
     /\ Hardening.success r = true
     /\ Hardening.rollback_performed r = false)
  /\ (exists r w',
        Hardening.apply_hardening plain_engine "foo.service" None false
          (boot ∅ 0 fragile_host) = (Host.Ok r, w')
        /\ Hardening.success r = false
        /\ Hardening.rollback_performed r = true).
Proof.
  split.
  - assert (stops_before_mutation plain_engine "foo.service" None false
              (boot ∅ 0 sturdy_host) = None) as Hstop
      by (vm_compute; reflexivity).
    destruct (hardening_succeeds_iff_the_checks_pass plain_engine
                "foo.service" None (boot ∅ 0 sturdy_host) Hstop)
      as (initial & profile & r & w' & Hb & Hp & Heq & Hs & Hr).
    assert (Hardening.success r = true) as Hs'.
    { assert (fst (Hardening.apply_hardening plain_engine "foo.service" None
                     false (boot ∅ 0 sturdy_host))
              = Host.Ok r) as Hf by (by rewrite Heq).
      vm_compute in Hf. injection Hf as <-. reflexivity. }
    exists r, w'. split; [exact Heq |]. split; [exact Hs' |].
    by rewrite Hr, Hs'.
  - assert (stops_before_mutation plain_engine "foo.service" None false
              (boot ∅ 0 fragile_host) = None) as Hstop
      by (vm_compute; reflexivity).
    destruct (hardening_succeeds_iff_the_checks_pass plain_engine
                "foo.service" None (boot ∅ 0 fragile_host) Hstop)
      as (initial & profile & r & w' & Hb & Hp & Heq & Hs & Hr).
    assert (Hardening.success r = false) as Hs'.
    { assert (fst (Hardening.apply_hardening plain_engine "foo.service" None
                     false (boot ∅ 0 fragile_host))
              = Host.Ok r) as Hf by (by rewrite Heq).
      vm_compute in Hf. injection Hf as <-. reflexivity. }
    exists r, w'. split; [exact Heq |]. split; [exact Hs' |].
    by rewrite Hr, Hs'.
Defined.
